(** * AI travel agent: orchestrator, style classifier and reconciliation pass

    A shallow embedding of the Python sources

      - [agents/stylist.py]      (keyword scoring of a request),
      - [agents/planner.py], [agents/reviewer.py] (the [process] entry points
                                  and the planner's choice of a template),
      - [mcp_server/server.py]   (command log and [process_travel_request]),
      - [app.py]                 (the form check and the flight links of the
                                  request handler, the repairs applied to the
                                  final itinerary and the budget summary),
      - [tools/weather_tool.py]  (the daily forecast),

    together with the properties of the specification that concern them.

    Python values are modelled by a JSON-like datatype; a dictionary is an
    association list in insertion order, because [str(query)] depends on that
    order.  Code that can raise is written in an error monad; code that
    mutates the server object threads the server state explicitly.

    Modelling conventions, used throughout:
      - a Python [str] is a Rocq [string], i.e. the UTF-8 bytes of the text;
        substring search and comparison on bytes agree with Python's on code
        points; slicing and lower-casing are exact on ASCII text;
      - a Python [int] is a [Z]; a Python [float] is modelled by an exact
        rational [Q] (no rounding, no NaN, no infinities);
      - time stamps and console output are left out. *)

From Stdlib Require Import ZArith QArith Qround Qabs Lqa Ascii String DecimalString.
From stdpp Require Import base option list strings gmap sorting.

Set Warnings "-register-all".
Local Open Scope Z_scope.

(** ** Python values *)

Module Py.

Inductive json : Type :=
| JNull
| JBool (b : bool)
| JInt (z : Z)
| JFloat (q : Q)
| JStr (s : string)
| JArr (l : list json)
| JObj (kv : list (string * json)).

(** The exceptions the modelled code can raise. *)
Inductive exn : Type :=
| KeyError | IndexError | TypeError | AttributeError | ValueError.

Inductive result (A : Type) : Type :=
| Ok (a : A)
| Raise (e : exn).
Arguments Ok {A} a.
Arguments Raise {A} e.

#[global] Instance result_ret : MRet result := fun A a => Ok a.
#[global] Instance result_bind : MBind result := fun A B f m =>
  match m with
  | Ok a => f a
  | Raise e => Raise e
  end.
#[global] Instance result_fmap : FMap result := fun A B f m =>
  match m with
  | Ok a => Ok (f a)
  | Raise e => Raise e
  end.

Definition is_ok {A} (r : result A) : bool :=
  match r with Ok _ => true | Raise _ => false end.

(** [try: ... except Exception: d] *)
Definition catch {A} (r : result A) (d : A) : A :=
  match r with Ok a => a | Raise _ => d end.

(** Monadic map over a list: the loop [for x in l: ...] whose body may
    raise; the first exception aborts the loop. *)
Fixpoint mapM {A B} (f : A -> result B) (l : list A) : result (list B) :=
  match l with
  | [] => Ok []
  | x :: l' =>
      y ← f x;
      ys ← mapM f l';
      Ok (y :: ys)
  end.

(** *** Dictionaries *)

Fixpoint dict_lookup (k : string) (kv : list (string * json)) : option json :=
  match kv with
  | [] => None
  | (k', v) :: kv' => if String.eqb k k' then Some v else dict_lookup k kv'
  end.

(** [d[k] = v] keeps the position of an existing key and appends a new one. *)
Fixpoint dict_set (k : string) (v : json) (kv : list (string * json))
  : list (string * json) :=
  match kv with
  | [] => [(k, v)]
  | (k', v') :: kv' =>
      if String.eqb k k' then (k', v) :: kv' else (k', v') :: dict_set k v kv'
  end.

(** [d.get(k, dflt)]: only dictionaries have [get]. *)
Definition get (d : json) (k : string) (dflt : json) : result json :=
  match d with
  | JObj kv => Ok (default dflt (dict_lookup k kv))
  | _ => Raise AttributeError
  end.

(** [d.get(k)] is [d.get(k, None)]. *)
Definition get_ (d : json) (k : string) : result json := get d k JNull.

(** [d[k]] with a string key. *)
Definition getitem (d : json) (k : string) : result json :=
  match d with
  | JObj kv =>
      match dict_lookup k kv with
      | Some v => Ok v
      | None => Raise KeyError
      end
  | _ => Raise TypeError
  end.

(** [d[k] = v] with a string key. *)
Definition setitem (d : json) (k : string) (v : json) : result json :=
  match d with
  | JObj kv => Ok (JObj (dict_set k v kv))
  | _ => Raise TypeError
  end.

(** [k in d] for a dictionary [d]. *)
Definition has_key (k : string) (kv : list (string * json)) : bool :=
  bool_decide (is_Some (dict_lookup k kv)).

(** *** Sequences *)

Definition chars (s : string) : list json :=
  (λ c, JStr (String c EmptyString)) <$> list_ascii_of_string s.

(** [x[i]] with a non-negative integer index. *)
Definition index (x : json) (i : nat) : result json :=
  match x with
  | JArr l => match l !! i with Some v => Ok v | None => Raise IndexError end
  | JStr s => match chars s !! i with Some v => Ok v | None => Raise IndexError end
  | JObj _ => Raise KeyError
  | _ => Raise TypeError
  end.

(** [len(x)] *)
Definition len (x : json) : result nat :=
  match x with
  | JArr l => Ok (length l)
  | JStr s => Ok (String.length s)
  | JObj kv => Ok (length kv)
  | _ => Raise TypeError
  end.

(** The elements a [for] loop visits. *)
Definition iter (x : json) : result (list json) :=
  match x with
  | JArr l => Ok l
  | JObj kv => Ok ((λ p, JStr p.1) <$> kv)
  | JStr s => Ok (chars s)
  | _ => Raise TypeError
  end.

(** *** Numbers and truth values *)

(** The numeric value of an [int], [float] or [bool] ([bool] is a subclass
    of [int] in Python). *)
Definition num_val (x : json) : option Q :=
  match x with
  | JBool b => Some (if b then 1%Q else 0%Q)
  | JInt z => Some (inject_Z z)
  | JFloat q => Some q
  | _ => None
  end.

(** [isinstance(x, (int, float))] *)
Definition is_number (x : json) : bool := bool_decide (is_Some (num_val x)).

Definition number (x : json) : result Q :=
  match num_val x with Some q => Ok q | None => Raise TypeError end.

(** [int(q)] on a number: truncation towards zero. *)
Definition trunc (q : Q) : Z := Z.quot (Qnum q) (Zpos (Qden q)).

Definition Qgtb (a b : Q) : bool := negb (Qle_bool a b).
Definition Qgeb (a b : Q) : bool := Qle_bool b a.

(** [bool(x)] *)
Definition truthy (x : json) : bool :=
  match x with
  | JNull => false
  | JBool b => b
  | JInt z => negb (z =? 0)
  | JFloat q => negb (Qeq_bool q 0)
  | JStr s => negb (String.eqb s "")
  | JArr l => negb (bool_decide (l = []))
  | JObj kv => negb (bool_decide (kv = []))
  end.

(** [a or b] *)
Definition or_else (a b : json) : json := if truthy a then a else b.

(** [a == b] *)
Fixpoint py_eq (a b : json) {struct a} : bool :=
  match a, b with
  | JNull, JNull => true
  | JStr s, JStr t => String.eqb s t
  | JArr l, JArr m =>
      (fix go (l m : list json) {struct l} : bool :=
         match l, m with
         | [], [] => true
         | x :: l', y :: m' => py_eq x y && go l' m'
         | _, _ => false
         end) l m
  | JObj kv, JObj kw =>
      (length kv =? length kw)%nat &&
      (fix go (kv : list (string * json)) {struct kv} : bool :=
         match kv with
         | [] => true
         | (k, v) :: kv' =>
             match dict_lookup k kw with
             | Some w => py_eq v w
             | None => false
             end && go kv'
         end) kv
  | _, _ =>
      match num_val a, num_val b with
      | Some x, Some y => Qeq_bool x y
      | _, _ => false
      end
  end.

(** *** Strings *)

Definition lower_ascii (c : ascii) : ascii :=
  let n := nat_of_ascii c in
  if ((65 <=? n) && (n <=? 90))%nat then ascii_of_nat (n + 32) else c.

(** [s.lower()], exact on ASCII and on caseless scripts. *)
Fixpoint lower (s : string) : string :=
  match s with
  | EmptyString => EmptyString
  | String c s' => String (lower_ascii c) (lower s')
  end.

(** [needle in hay] *)
Fixpoint contains (needle hay : string) : bool :=
  String.prefix needle hay ||
  match hay with
  | EmptyString => false
  | String _ hay' => contains needle hay'
  end.

Definition str_of_Z (z : Z) : string := NilZero.string_of_int (Z.to_int z).

Definition hex_digit (n : nat) : ascii :=
  if (n <? 10)%nat then ascii_of_nat (48 + n) else ascii_of_nat (87 + n).

Definition backslash : ascii := ascii_of_nat 92.
Definition dquote : ascii := ascii_of_nat 34.
Definition squote : ascii := ascii_of_nat 39.

(** The escape of one byte inside [repr] of a string quoted with [q]. *)
Definition repr_byte (q : ascii) (c : ascii) : string :=
  let n := nat_of_ascii c in
  if Ascii.eqb c q || Ascii.eqb c backslash then String backslash (String c "")
  else if (n =? 9)%nat then String backslash "t"
  else if (n =? 10)%nat then String backslash "n"
  else if (n =? 13)%nat then String backslash "r"
  else if ((n <? 32) || (n =? 127))%nat then
    String backslash (String "x"%char
      (String (hex_digit (n / 16)) (String (hex_digit (n mod 16)) "")))
  else String c "".

Fixpoint repr_bytes (q : ascii) (s : string) : string :=
  match s with
  | EmptyString => EmptyString
  | String c s' => repr_byte q c +:+ repr_bytes q s'
  end.

(** [repr(s)] for a string: single quotes, unless the text has a single
    quote and no double quote.  Bytes above 127 are copied, which is right
    for printable text. *)
Definition repr_str (s : string) : string :=
  let q := if contains (String squote "") s && negb (contains (String dquote "") s)
           then dquote else squote in
  String q (repr_bytes q s) +:+ String q "".

(** [sep.join(l)] for a list of strings. *)
Fixpoint join (sep : string) (l : list string) : string :=
  match l with
  | [] => ""
  | [x] => x
  | x :: l' => x +:+ sep +:+ join sep l'
  end.

(** A method of [str] called on a value of another type. *)
Definition as_str (x : json) : result string :=
  match x with
  | JStr s => Ok s
  | _ => Raise AttributeError
  end.

Definition is_space (c : ascii) : bool :=
  let n := nat_of_ascii c in
  ((9 <=? n) && (n <=? 13) || (28 <=? n) && (n <=? 32))%nat.

Fixpoint lstrip (s : string) : string :=
  match s with
  | EmptyString => EmptyString
  | String c s' => if is_space c then lstrip s' else s
  end.

(** [s.rstrip()]: a space is dropped when only spaces follow it. *)
Fixpoint rstrip (s : string) : string :=
  match s with
  | EmptyString => EmptyString
  | String c s' =>
      match rstrip s' with
      | EmptyString => if is_space c then EmptyString else String c EmptyString
      | r => String c r
      end
  end.

(** [s.strip()], for ASCII white space. *)
Definition strip (s : string) : string := rstrip (lstrip s).

(** [s.split(',')[0]] *)
Fixpoint split_first (s : string) : string :=
  match s with
  | EmptyString => EmptyString
  | String c s' => if Ascii.eqb c ","%char then EmptyString else String c (split_first s')
  end.

(** [x[:n]] *)
Definition slice_to (n : nat) (x : json) : result json :=
  match x with
  | JArr l => Ok (JArr (take n l))
  | JStr s => Ok (JStr (String.substring 0 n s))
  | _ => Raise TypeError
  end.

(** [x[a:b]] for [a <= b] *)
Definition slice (a b : nat) (x : json) : result json :=
  match x with
  | JArr l => Ok (JArr (take (b - a) (drop a l)))
  | JStr s => Ok (JStr (String.substring a (b - a) s))
  | _ => Raise TypeError
  end.

(** [sep.join(x)]: [x] must yield strings only. *)
Definition str_join (sep : string) (x : json) : result string :=
  elems ← iter x;
  parts ← mapM (λ e, match e with JStr s => Ok s | _ => Raise TypeError end) elems;
  Ok (join sep parts).

(** [s.replace(a, b)] for single characters [a] and [b]. *)
Fixpoint replace_char (a b : ascii) (s : string) : string :=
  match s with
  | EmptyString => EmptyString
  | String c s' => String (if Ascii.eqb c a then b else c) (replace_char a b s')
  end.

(** [f"{z:,}"]: decimal digits in groups of three. *)
Fixpoint group3 (digits : list ascii) : list ascii :=
  match digits with
  | a :: b :: c :: (_ :: _) as rest => a :: b :: c :: ","%char :: group3 rest
  | _ => digits
  end.

Definition commas (z : Z) : string :=
  let digits := list_ascii_of_string (str_of_Z (Z.abs z)) in
  let grouped := string_of_list_ascii (rev (group3 (rev digits))) in
  if z <? 0 then "-" +:+ grouped else grouped.

(** [urllib.parse.quote(s)]: every byte is percent-encoded, except letters,
    digits and the characters [_.-~/]. *)
Definition quote_safe (c : ascii) : bool :=
  let n := nat_of_ascii c in
  ((48 <=? n) && (n <=? 57) || (65 <=? n) && (n <=? 90) || (97 <=? n) && (n <=? 122)
   || (n =? 95) || (n =? 46) || (n =? 45) || (n =? 126) || (n =? 47))%nat.

Definition hex_upper (n : nat) : ascii :=
  if (n <? 10)%nat then ascii_of_nat (48 + n) else ascii_of_nat (55 + n).

Fixpoint quote (s : string) : string :=
  match s with
  | EmptyString => EmptyString
  | String c s' =>
      let n := nat_of_ascii c in
      if quote_safe c then String c (quote s')
      else String "%"%char (String (hex_upper (n / 16))
             (String (hex_upper (n mod 16)) (quote s')))
  end.

Section Repr.
(** Python's shortest round-trip printing of a float is not modelled; it is
    a parameter of [repr]. *)
Variable float_repr : Q -> string.

Fixpoint repr (x : json) : string :=
  match x with
  | JNull => "None"
  | JBool b => if b then "True" else "False"
  | JInt z => str_of_Z z
  | JFloat q => float_repr q
  | JStr s => repr_str s
  | JArr l =>
      "[" +:+ join ", " ((fix go (l : list json) : list string :=
                            match l with
                            | [] => []
                            | x :: l' => repr x :: go l'
                            end) l) +:+ "]"
  | JObj kv =>
      "{" +:+ join ", " ((fix go (kv : list (string * json)) : list string :=
                            match kv with
                            | [] => []
                            | (k, v) :: kv' =>
                                (repr_str k +:+ ": " +:+ repr v) :: go kv'
                            end) kv) +:+ "}"
  end.

(** [str(x)], also what an f-string prints for [{x}]. *)
Definition str (x : json) : string :=
  match x with
  | JStr s => s
  | _ => repr x
  end.
End Repr.

End Py.

(** ** The style classifier ([agents/stylist.py]) *)

Module Stylist.
Import Py.

Inductive style_id : Type :=
| family | business | backpacker | cultural | luxury | adventure.

#[global] Instance style_id_eq_dec : EqDecision style_id.
Proof. solve_decision. Defined.

(** One entry of [self.travel_styles].  The [recommendations] sub-table only
    feeds the text of a prompt and is left out. *)
Record style_info : Type := {
  name : string;
  keywords : list string;
  characteristics : list string;
}.

Definition family_info : style_info := {|
  name := "가족여행";
  keywords := ["family"; "kids"; "children"; "가족"; "아이"; "어린이"];
  characteristics := ["안전한 환경"; "가족친화시설"; "교육적 가치"; "편의시설 완비"];
|}.

Definition business_info : style_info := {|
  name := "비즈니스";
  keywords := ["business"; "corporate"; "meeting"; "conference";
               "비즈니스"; "업무"; "회의"];
  characteristics := ["효율성"; "고품질 서비스"; "비즈니스 시설"; "접근성"];
|}.

Definition backpacker_info : style_info := {|
  name := "백패킹";
  keywords := ["backpacker"; "budget"; "hostel"; "cheap";
               "백패커"; "배낭여행"; "저렴"];
  characteristics := ["경제성"; "현지문화 체험"; "자유로운 일정"; "소셜 활동"];
|}.

Definition cultural_info : style_info := {|
  name := "문화탐방";
  keywords := ["culture"; "history"; "museum"; "heritage";
               "문화"; "역사"; "박물관"; "유산"];
  characteristics := ["교육적 가치"; "역사적 중요성"; "문화적 체험"; "깊이 있는 탐방"];
|}.

Definition luxury_info : style_info := {|
  name := "럭셔리";
  keywords := ["luxury"; "premium"; "high-end"; "exclusive";
               "럭셔리"; "프리미엄"; "고급"];
  characteristics := ["최상급 서비스"; "독점적 경험"; "프리미엄 품질"; "개인 맞춤 서비스"];
|}.

Definition adventure_info : style_info := {|
  name := "모험여행";
  keywords := ["adventure"; "outdoor"; "extreme"; "hiking";
               "모험"; "아웃도어"; "등산"; "익스트림"];
  characteristics := ["활동적"; "도전적"; "자연친화"; "체험 중심"];
|}.

(** [self.travel_styles], in declaration order. *)
Definition travel_styles : list (style_id * style_info) :=
  [ (family, family_info); (business, business_info);
    (backpacker, backpacker_info); (cultural, cultural_info);
    (luxury, luxury_info); (adventure, adventure_info) ].

(** An entry of [style_scores]. *)
Record score_entry : Type := {
  score : nat;
  matched_keywords : list string;
  entry_info : style_info;
}.

(** The inner loop over [style_info["keywords"]]. *)
Definition match_keywords (user_text : string) (kws : list string)
  : nat * list string :=
  fold_left (λ acc keyword,
               if contains keyword user_text
               then (S acc.1, acc.2 ++ [keyword])
               else acc)
            kws (0%nat, []).

Definition score_style (user_text : string) (info : style_info) : score_entry :=
  let r := match_keywords user_text (keywords info) in
  {| score := r.1; matched_keywords := r.2; entry_info := info |}.

(** [max(items, key=...)]: the first item whose key is maximal. *)
Fixpoint max_by {A} (key : A -> nat) (best : A) (l : list A) : A :=
  match l with
  | [] => best
  | y :: l' => max_by key (if (key best <? key y)%nat then y else best) l'
  end.

(** [a >= n] for an integer constant [n]. *)
Definition ge_int (a : json) (n : Z) : result bool :=
  q ← number a; Ok (Qgeb q (inject_Z n)).

(** [a <= n] for an integer constant [n]. *)
Definition le_int (a : json) (n : Z) : result bool :=
  q ← number a; Ok (Qle_bool q (inject_Z n)).

(** The value [analyze_travel_style] returns. *)
Record style_analysis : Type := {
  primary_style : style_id;
  style_name : string;
  confidence : nat;
  matched : list string;
  all_scores : list (style_id * score_entry);
}.

Section Analyze.
Variable float_repr : Q -> string.

Definition style_scores (query : json) : list (style_id * score_entry) :=
  let user_text := lower (str float_repr query) in
  (λ p, (p.1, score_style user_text p.2)) <$> travel_styles.

Definition scores_of (scores : list (style_id * score_entry)) (id : style_id)
  : score_entry :=
  match list_find (λ p, p.1 = id) scores with
  | Some (_, (_, e)) => e
  | None => {| score := 0; matched_keywords := []; entry_info := family_info |}
  end.

(** The fallback taken when the best score is zero. *)
Definition fallback_style (query : json) : result style_id :=
  people ← get query "people" (JInt 1);
  budget ← get query "budget" (JInt 0);
  c1 ← ge_int people 3;
  if (c1 : bool) then Ok family
  else
    c2 ← ge_int budget 3000000;
    if (c2 : bool) then Ok luxury
    else
      c3 ← le_int budget 1000000;
      if (c3 : bool) then Ok backpacker else Ok cultural.

Definition analyze_travel_style (query : json) : result style_analysis :=
  let scores := style_scores query in
  let primary :=
    match scores with
    | [] => (family, scores_of scores family)
    | p :: rest => max_by (λ p, score p.2) p rest
    end in
  primary ←
    (if (score primary.2 =? 0)%nat
     then sid ← fallback_style query; Ok (sid, scores_of scores sid)
     else Ok primary) : result (style_id * score_entry);
  Ok {| primary_style := primary.1;
        style_name := name (entry_info primary.2);
        confidence := score primary.2;
        matched := matched_keywords primary.2;
        all_scores := scores |}.
End Analyze.

(** The request of scenario A, as [app.py] builds it. *)
Definition scenario_A : json :=
  JObj [ ("origin", JStr "Seoul");
         ("destination", JStr "Tokyo, Japan");
         ("departure_date", JStr "2025-11-10");
         ("return_date", JStr "2025-11-13");
         ("days", JInt 4);
         ("people", JInt 2);
         ("budget", JInt 2000000);
         ("travel_style", JStr "");
         ("preferences",
           JObj [ ("location", JStr "central location preferred");
                  ("room_quality", JStr "high");
                  ("service", JStr "friendly staff") ]) ].

End Stylist.

(** ** Merging two forecasts (the weather step of [process_travel_request]) *)

Module Weather.
Import Py.

(** Lists and dictionaries cannot be members of a Python set. *)
Definition hashable (x : json) : bool :=
  match x with
  | JArr _ | JObj _ => false
  | _ => true
  end.

Definition hashed (x : json) : result json :=
  if hashable x then Ok x else Raise TypeError.

(** [{f['date'] for f in forecast_list}]; the set is kept as the list of its
    members, and membership is decided with [==]. *)
Definition date_set (elems : list json) : result (list json) :=
  mapM (λ f, d ← getitem f "date"; hashed d) elems.

Definition in_set (d : json) (set : list json) : bool := existsb (py_eq d) set.

(** The loop [for new_f in new_forecast].  [can_append] tells whether
    [forecast_list] is a list object, the only kind that has [append]. *)
Fixpoint merge_new (can_append : bool) (new_forecast forecast_list existing : list json)
  : result (list json) :=
  match new_forecast with
  | [] => Ok forecast_list
  | new_f :: rest =>
      d ← get_ new_f "date";
      d ← hashed d;
      if in_set d existing then merge_new can_append rest forecast_list existing
      else if can_append
           then merge_new can_append rest (forecast_list ++ [new_f]) (existing ++ [d])
           else Raise AttributeError
  end.

(** Stable insertion into a list sorted by its string keys: [x] goes behind
    every entry whose key is not greater. *)
Fixpoint insert_by_key (x : string * json) (l : list (string * json))
  : list (string * json) :=
  match l with
  | [] => [x]
  | y :: l' =>
      if String.leb y.1 x.1 then y :: insert_by_key x l' else x :: y :: l'
  end.

(** [list.sort] is stable, so a stable insertion sort computes its result. *)
Definition sort_keyed (l : list (string * json)) : list (string * json) :=
  fold_left (λ acc x, insert_by_key x acc) l [].

Definition str_key (p : json * json) : result (string * json) :=
  match p.1 with
  | JStr s => Ok (s, p.2)
  | _ => Raise TypeError
  end.

(** [forecast_list.sort(key=lambda x: x.get('date', ''))].  All keys are
    computed first; a list of two or more entries is then compared by key.
    The forecast adapters produce string dates, and the model compares string
    keys only: a key of another type is a [TypeError] (Python would still
    order keys that are all numbers). *)
Definition sort_by_date (l : list json) : result (list json) :=
  keyed ← mapM (λ x, k ← get x "date" (JStr ""); Ok (k, x)) l;
  match keyed with
  | [] | [_] => Ok l
  | _ =>
      skeyed ← mapM str_key keyed;
      Ok (snd <$> sort_keyed skeyed)
  end.

(** The merge of lines 173 to 184: the dates already present, the loop over
    the supplementary forecast, the final sort. *)
Definition merge_forecast (forecast_list new_forecast : json) : result json :=
  elems ← iter forecast_list;
  existing ← date_set elems;
  news ← iter new_forecast;
  match forecast_list with
  | JArr l =>
      merged ← merge_new true news l existing;
      sorted ← sort_by_date merged;
      Ok (JArr sorted)
  | _ =>
      _ ← merge_new false news [] existing;
      Raise AttributeError
  end.

End Weather.

(** ** The agents' entry points ([agents/planner.py], [agents/reviewer.py]) *)

Module Agents.
Import Py.

(** What the orchestrator uses of an agent object: [process] and
    [generate_response].  The agents are initialised (their client is set):
    [generate_response] then catches every error of the model call and
    returns a text in all cases. *)
Record agent : Type := {
  process : json -> result json;
  generate_response : string -> string;
}.

Section Agents.
(** [json.loads]: the parser is not modelled; [None] is a
    [JSONDecodeError]. *)
Variable json_loads : string -> option json.
(** The language model behind [generate_response], from the prompt to the
    reply. *)
Variable llm : string -> string.

(** *** [PlannerAgent.process] *)

(** Template choice (which draws at random) and prompt text are not
    modelled; either can raise. *)
Variable find_similar_template : json -> result json.
Variable create_prompt :
  json -> json -> json -> json -> json -> json -> result string.

(** The stub returned by the [json.JSONDecodeError] handler. *)
Definition stub_itinerary (query : json) : result json :=
  destination ← get query "destination" (JStr "Unknown");
  days ← get query "days" (JInt 3);
  people ← get query "people" (JInt 2);
  budget ← get query "budget" (JInt 2000000);
  Ok (JObj [ ("destination", destination); ("days", days);
             ("people", people); ("estimated_cost", budget);
             ("itinerary", JArr []); ("budget_breakdown", JObj []) ]).

Definition planner_process (request : json) : result json :=
  query ← get request "query" (JObj []);
  hotel_info ← get_ request "hotel_info";
  flight_info ← get_ request "flight_info";
  places_info ← get_ request "places_info";
  style_info ← get request "style_info" (JObj []);
  template ← find_similar_template query;
  prompt ← create_prompt query template hotel_info flight_info places_info style_info;
  let response := llm prompt in
  if String.prefix "Error:" response then
    (* [raise Exception(response)], caught by [except Exception] *)
    Ok (JObj [ ("status", JStr "error"); ("message", JStr response) ])
  else
    match json_loads response with
    | Some result =>
        (* [template.get("query", "unknown")] raising is caught as well *)
        match get template "query" (JStr "unknown") with
        | Ok used =>
            Ok (JObj [ ("status", JStr "success"); ("itinerary", result);
                       ("template_used", used) ])
        | Raise _ =>
            Ok (JObj [ ("status", JStr "error");
                       ("message", JStr "template has no get") ])
        end
    | None =>
        stub ← stub_itinerary query;
        Ok (JObj [ ("status", JStr "error");
                   ("message", JStr "Failed to parse GPT response");
                   ("raw_response", JStr (String.substring 0 500 response));
                   ("itinerary", stub) ])
    end.

Definition planner : agent :=
  {| process := planner_process; generate_response := llm |}.

(** *** [ReviewerAgent.process] *)

(** The review search of the vector store, by query text. *)
Variable search_reviews : string -> list json.
Variable create_review_prompt : json -> list json -> json -> result string.
Variable float_repr : Q -> string.

Definition reviewer_process (request : json) : result json :=
  hotels ← get request "hotels" (JArr []);
  preferences ← get request "preferences" (JObj []);
  destination ← get request "destination" (JStr "");
  if negb (truthy hotels) then
    Ok (JObj [ ("status", JStr "error");
               ("message", JStr "No hotels to analyze") ])
  else
    hs ← iter hotels;
    let all_reviews :=
      mjoin ((λ hotel, search_reviews
                        (str float_repr hotel +:+ " " +:+ str float_repr destination))
             <$> hs) in
    if bool_decide (all_reviews = []) then
      Ok (JObj [ ("status", JStr "error"); ("message", JStr "No reviews found") ])
    else
      prompt ← create_review_prompt hotels all_reviews preferences;
      let response := llm prompt in
      match json_loads response with
      | Some result =>
          match get result "analysis" (JArr []), get result "recommendations" (JArr []) with
          | Ok analysis, Ok recommendations =>
              Ok (JObj [ ("status", JStr "success"); ("analysis", analysis);
                         ("recommendations", recommendations);
                         ("total_reviews_analyzed",
                           JInt (Z.of_nat (length all_reviews))) ])
          | _, _ =>
              Ok (JObj [ ("status", JStr "error");
                         ("message", JStr "result has no get") ])
          end
      | None =>
          Ok (JObj [ ("status", JStr "error");
                     ("message", JStr "Failed to parse GPT response");
                     ("raw_response", JStr (String.substring 0 500 response)) ])
      end.

Definition reviewer : agent :=
  {| process := reviewer_process; generate_response := llm |}.
End Agents.

End Agents.

(** ** The collaboration server ([mcp_server/server.py]) *)

Module Server.
Import Py Agents.

(** The four status texts the server writes. *)
Inductive status : Type :=
| pending | completed | failed | completed_with_warning.

(** One entry of [command_history] (without its two time stamps). *)
Record command : Type := {
  cmd_id : nat;
  cmd_from : string;
  cmd_to : string;
  cmd_command : string;
  cmd_params : json;
  cmd_status : status;
  cmd_result : json;
}.

(** What calling a method of a tool object does. *)
Inductive call_outcome : Type :=
| Returns (v : json)
| Throws (attribute_error : bool) (msg : string).

(** A tool object: its methods, found by name as [getattr] does, and the
    [api_key] attribute that the places step reads. *)
Record tool : Type := {
  method : string -> option (json -> call_outcome);
  api_key : string;
}.

(** Calls that leave the server, recorded in the order they are made.  The
    record is an instrument of the model; the source keeps no such list. *)
Inductive event : Type :=
| ToolCall (tool_name method_name : string) (kwargs : json)
| AgentProcess (agent_name : string) (request : json)
| AgentGenerate (agent_name : string) (prompt : string).

(** [collaboration_log["mcp_commands"]] starts as a list of its own and is
    bound, at the end of a request, to the very list object
    [self.command_history]. *)
Inductive history_ref : Type :=
| OwnList (l : list command)
| ServerHistory.

Record collaboration_log : Type := {
  log_fields : list (string * json);
  log_mcp_commands : history_ref;
}.

Record server : Type := {
  agents : gmap string agent;
  tools : gmap string tool;
  command_history : list command;
  collaboration_history : list collaboration_log;
  trace : list event;
}.

(** [MCPServer()] *)
Definition new_server : server :=
  {| agents := ∅; tools := ∅; command_history := [];
     collaboration_history := []; trace := [] |}.

Definition register_agent (agent_name : string) (a : agent) (s : server) : server :=
  {| agents := <[agent_name := a]> (agents s); tools := tools s;
     command_history := command_history s;
     collaboration_history := collaboration_history s; trace := trace s |}.

Definition register_tool (tool_name : string) (t : tool) (s : server) : server :=
  {| agents := agents s; tools := <[tool_name := t]> (tools s);
     command_history := command_history s;
     collaboration_history := collaboration_history s; trace := trace s |}.

Definition set_history (h : list command) (s : server) : server :=
  {| agents := agents s; tools := tools s; command_history := h;
     collaboration_history := collaboration_history s; trace := trace s |}.

Definition add_event (e : event) (s : server) : server :=
  {| agents := agents s; tools := tools s; command_history := command_history s;
     collaboration_history := collaboration_history s; trace := trace s ++ [e] |}.

Definition add_log (l : collaboration_log) (s : server) : server :=
  {| agents := agents s; tools := tools s; command_history := command_history s;
     collaboration_history := collaboration_history s ++ [l]; trace := trace s |}.

(** The list a [history_ref] stands for, in a given server state. *)
Definition mcp_commands (s : server) (l : collaboration_log) : list command :=
  match log_mcp_commands l with
  | OwnList h => h
  | ServerHistory => command_history s
  end.

(** *** Computations on the server object

    A method either returns or raises; in both cases the changes it made to
    the server object so far remain. *)
Definition M (A : Type) : Type := server -> result A * server.

#[global] Instance M_ret : MRet M := λ A a s, (Ok a, s).
#[global] Instance M_bind : MBind M := λ A B f m s,
  match m s with
  | (Ok a, s') => f a s'
  | (Raise e, s') => (Raise e, s')
  end.

(** A computation that does not touch the server. *)
Definition L {A} (r : result A) : M A := λ s, (r, s).
Definition state : M server := λ s, (Ok s, s).
Definition update (f : server -> server) : M unit := λ s, (Ok tt, f s).

(** [send_command] *)
Definition send_command (from_agent to_agent command_name : string) (params : json)
  : M command :=
  λ s,
    let cmd := {| cmd_id := length (command_history s) + 1;
                  cmd_from := from_agent; cmd_to := to_agent;
                  cmd_command := command_name; cmd_params := params;
                  cmd_status := pending; cmd_result := JNull |} in
    (Ok cmd, set_history (command_history s ++ [cmd]) s).

(** [complete_command]: the first entry with the given id is updated. *)
Fixpoint complete_in (command_id : nat) (st : status) (res : json)
    (h : list command) : list command :=
  match h with
  | [] => []
  | cmd :: h' =>
      if (cmd_id cmd =? command_id)%nat
      then {| cmd_id := cmd_id cmd; cmd_from := cmd_from cmd; cmd_to := cmd_to cmd;
              cmd_command := cmd_command cmd; cmd_params := cmd_params cmd;
              cmd_status := st; cmd_result := res |} :: h'
      else cmd :: complete_in command_id st res h'
  end.

Definition complete_command (command_id : nat) (st : status) (res : json) : M unit :=
  update (λ s, set_history (complete_in command_id st res (command_history s)) s).

Definition failure (msg : string) : json :=
  JObj [ ("success", JBool false); ("error", JStr msg) ].

(** What [call_api_tool] answers, given the registered tools. *)
Definition tool_answer (registered : gmap string tool)
    (tool_name method_name : string) (kwargs : json) : json :=
  match registered !! tool_name with
  | None => failure ("Tool '" +:+ tool_name +:+ "' not found")
  | Some t =>
      let no_method :=
        failure ("Method '" +:+ method_name +:+ "' not found in tool '"
                 +:+ tool_name +:+ "'") in
      match method t method_name with
      | None => no_method
      | Some f =>
          match f kwargs with
          | Returns v => v
          | Throws true _ => no_method
          | Throws false msg => failure ("Tool execution error: " +:+ msg)
          end
      end
  end.

(** [call_api_tool]: never raises. *)
Definition call_api_tool (tool_name method_name : string) (kwargs : json) : M json :=
  _ ← update (add_event (ToolCall tool_name method_name kwargs));
  s ← state;
  mret (tool_answer (tools s) tool_name method_name kwargs).

(** [agent.process(request)] and [agent.generate_response(prompt, ...)] *)
Definition agent_process (agent_name : string) (a : agent) (request : json) : M json :=
  _ ← update (add_event (AgentProcess agent_name request));
  L (process a request).

Definition agent_generate (agent_name : string) (a : agent) (prompt : string) : M string :=
  _ ← update (add_event (AgentGenerate agent_name prompt));
  mret (generate_response a prompt).

(** What [process_travel_request] returns. *)
Record collaboration : Type := {
  r_query : json;
  r_style_analysis : json;
  r_initial_itinerary : json;
  r_hotel_analysis : json;
  r_final_itinerary : json;
  r_weather_info : json;
  r_places_info : json;
  r_hotel_info : json;
  r_flight_info : json;
  r_collaboration_log : collaboration_log;
}.

Inductive response : Type :=
| ErrorResponse (msg : string)
| Collaboration (c : collaboration).

Section Process.
Variable float_repr : Q -> string.
Variable json_loads : string -> option json.
(** [_create_refinement_prompt]: the text is not modelled; building it can
    raise. *)
Variable create_refinement_prompt :
  json -> json -> json -> json -> json -> json -> result string.

Definition fstr (x : json) : string := str float_repr x.
Definition count_text (n : nat) (what : string) : json :=
  JStr (str_of_Z (Z.of_nat n) +:+ what).

(** The fields set so far in [collaboration_log]. *)
Definition log_get (log : list (string * json)) (k : string) : json :=
  default JNull (dict_lookup k log).

(** [min(days_to_request, 5)] *)
Definition min5 (days : json) : result json :=
  d ← number days;
  Ok (if Qgtb d 5 then JInt 5 else days).

(** The supplementary forecast, lines 158 to 184. *)
Definition complete_forecast (query : json) (city : string) (forecast_list : json)
  : M json :=
  days_of_trip ← L (get query "days" (JInt 0));
  d ← L (number days_of_trip);
  short ← L (if Qgtb d 0
             then n ← len forecast_list; Ok (Qgtb d (inject_Z (Z.of_nat n)))
             else Ok false);
  if (short : bool) then
    days ← L (min5 days_of_trip);
    weather_forecast_result ←
      call_api_tool "weather" "get_forecast"
        (JObj [ ("city", JStr city); ("days", days) ]);
    ok ← L (get_ weather_forecast_result "success");
    if truthy ok then
      new_forecast ← L (get weather_forecast_result "forecast" (JArr []));
      L (Weather.merge_forecast forecast_list new_forecast)
    else mret forecast_list
  else mret forecast_list.

(** Command 0: the weather step. *)
Definition weather_step (query : json) (destination city : string)
    (departure_date return_date : json) (log : list (string * json))
  : M (list (string * json)) :=
  s ← state;
  if negb (String.eqb destination "") && bool_decide (is_Some (tools s !! "weather"))
  then
    cmd_weather ←
      send_command "system" "weather_api" "GET_WEATHER_INFO"
        (JObj [ ("city", JStr destination);
                ("dates", JStr (fstr departure_date +:+ " ~ " +:+ fstr return_date)) ]);
    weather_result ←
      (if truthy departure_date && truthy return_date
       then call_api_tool "weather" "get_weather_for_dates"
              (JObj [ ("city", JStr city); ("departure_date", departure_date);
                      ("return_date", return_date) ])
       else call_api_tool "weather" "get_current_weather"
              (JObj [ ("city", JStr city) ]));
    ok ← L (get_ weather_result "success");
    if truthy ok then
      forecast_list ← L (get weather_result "forecast" (JArr []));
      forecast_list ← complete_forecast query city forecast_list;
      weather_result ← L (setitem weather_result "forecast" forecast_list);
      _ ← complete_command (cmd_id cmd_weather) completed (JStr "Weather data retrieved");
      let log := dict_set "weather_info" weather_result log in
      (* the console line evaluates [len(weather_result.get('forecast', []))] *)
      _ ← L (len forecast_list);
      mret log
    else mret log
  else mret log.

(** The parameters of the flight search command. *)
Definition flight_params (query : json) (city : string)
  : result (list (string * json)) :=
  origin ← get_ query "origin";
  departure_date ← get_ query "departure_date";
  return_date ← get_ query "return_date";
  adults ← get query "people" (JInt 2);
  Ok [ ("origin", origin); ("destination", JStr city);
       ("departure_date", departure_date);
       ("return_date", return_date); ("adults", adults) ].

(** The flight step; returns the log and [flights_data]. *)
Definition flight_step (query : json) (city : string) (log : list (string * json))
  : M (list (string * json) * json) :=
  s ← state;
  if bool_decide (is_Some (tools s !! "flight")) then
    params ← L (flight_params query city);
    cmd_flight ← send_command "system" "flight_api" "SEARCH_FLIGHTS" (JObj params);
    flight_result ←
      call_api_tool "flight" "search_flights"
        (JObj (params ++ [ ("max_results", JInt 3) ]));
    ok ← L (get_ flight_result "success");
    if truthy ok then
      flights ← L (get flight_result "flights" (JArr []));
      n ← L (len flights);
      _ ← complete_command (cmd_id cmd_flight) completed (count_text n " flights found");
      mret (dict_set "flights_data" flight_result log, flight_result)
    else mret (log, JObj [])
  else mret (log, JObj []).

(** The parameters of the hotel search command. *)
Definition hotel_params (query : json) (city : string)
  : result (list (string * json)) :=
  check_in ← get_ query "departure_date";
  check_out ← get_ query "return_date";
  adults ← get query "people" (JInt 2);
  Ok [ ("city", JStr city); ("check_in_date", check_in);
       ("check_out_date", check_out); ("adults", adults) ].

(** The hotel step; returns the log and [hotels_data]. *)
Definition hotel_step (query : json) (city : string) (log : list (string * json))
  : M (list (string * json) * json) :=
  s ← state;
  if bool_decide (is_Some (tools s !! "hotel")) then
    params ← L (hotel_params query city);
    cmd_hotel ← send_command "system" "hotel_api" "SEARCH_HOTELS" (JObj params);
    hotel_result ←
      call_api_tool "hotel" "search_hotels"
        (JObj (params ++ [ ("max_results", JInt 5) ]));
    ok ← L (get_ hotel_result "success");
    if truthy ok then
      hotels ← L (get hotel_result "hotels" (JArr []));
      n ← L (len hotels);
      _ ← complete_command (cmd_id cmd_hotel) completed (count_text n " hotels found");
      mret (dict_set "hotels_data" hotel_result log, hotel_result)
    else mret (log, JObj [])
  else mret (log, JObj []).

(** The style step; returns [style_analysis]. *)
Definition style_step (query : json) : M json :=
  cmd_style ←
    send_command "system" "stylist" "ANALYZE_TRAVEL_STYLE" (JObj [ ("query", query) ]);
  s ← state;
  match agents s !! "stylist" with
  | Some stylist =>
      style_result ← agent_process "stylist" stylist query;
      ok ← L (get_ style_result "success");
      if truthy ok then
        style_analysis ← L (getitem style_result "data");
        (* the console line evaluates [style_analysis.get('style_name', 'Unknown')] *)
        style_name ← L (get_ style_analysis "style_name");
        _ ← complete_command (cmd_id cmd_style) completed
              (JStr ("Style: " +:+ fstr style_name));
        mret style_analysis
      else
        _ ← complete_command (cmd_id cmd_style) failed (JStr "Style analysis failed");
        mret (JObj [])
  | None =>
      _ ← complete_command (cmd_id cmd_style) failed (JStr "Stylist agent not found");
      mret (JObj [])
  end.

(** Command 1.5: the places step.  The loop changes the place and
    restaurant dictionaries in place, so the changes show in
    [places_result]. *)
Definition photo_url (photo_ref : json) (key : string) : json :=
  JStr ("https://maps.googleapis.com/maps/api/place/photo?maxwidth=400&photo_reference="
        +:+ fstr photo_ref +:+ "&key=" +:+ key).

Definition add_photo_url (key : string) (restaurant : json) : result json :=
  photos ← get_ restaurant "photos";
  has ← (if truthy photos then n ← len photos; Ok (0 <? n)%nat else Ok false);
  if (has : bool) then
    first ← index photos 0;
    photo_ref ← get_ first "photo_reference";
    if truthy photo_ref
    then setitem restaurant "photo_url" (photo_url photo_ref key)
    else Ok restaurant
  else Ok restaurant.

Definition with_restaurants (key : string) (place : json) : M json :=
  place_id ← L (get_ place "place_id");
  if truthy place_id then
    restaurants ←
      call_api_tool "places" "search_restaurants_near_place"
        (JObj [ ("place_id", place_id); ("radius", JInt 500) ]);
    rs ← L (get_ restaurants "restaurants");
    restaurants ←
      L (if truthy rs then
           elems ← iter rs;
           elems ← mapM (add_photo_url key) elems;
           match rs with
           | JArr _ => setitem restaurants "restaurants" (JArr elems)
           | _ => Ok restaurants
           end
         else Ok restaurants);
    nearby ← L (get restaurants "restaurants" (JArr []));
    L (setitem place "nearby_restaurants" nearby)
  else mret place.

Fixpoint for_each {A B} (f : A -> M B) (l : list A) : M (list B) :=
  match l with
  | [] => mret []
  | x :: l' =>
      y ← f x;
      ys ← for_each f l';
      mret (y :: ys)
  end.

Definition places_step (destination : string) (log : list (string * json))
  : M (list (string * json)) :=
  s ← state;
  match tools s !! "places" with
  | Some places_tool =>
      cmd_places ←
        send_command "system" "places_api" "SEARCH_ATTRACTIONS"
          (JObj [ ("query", JStr destination); ("destination", JStr destination) ]);
      places_result ←
        call_api_tool "places" "search_places"
          (JObj [ ("query", JStr ("tourist attractions in " +:+ destination)) ]);
      ok ← L (get_ places_result "success");
      if truthy ok then
        places ← L (get places_result "places" (JArr []));
        first5 ← L (slice_to 5 places);
        elems ← L (iter first5);
        elems ← for_each (with_restaurants (api_key places_tool)) elems;
        places_info ←
          L (match places, get_ places_result "places" with
             | JArr l, Ok (JArr _) =>
                 setitem places_result "places" (JArr (elems ++ drop 5 l))
             | _, _ => Ok places_result
             end);
        _ ← complete_command (cmd_id cmd_places) completed
              (JStr "Places and restaurants retrieved");
        let log := dict_set "places_info" places_info log in
        (* the console line evaluates [len(places)] *)
        _ ← L (len places);
        mret log
      else
        err ← L (get_ places_result "error");
        _ ← complete_command (cmd_id cmd_places) failed err;
        mret log
  | None => mret log
  end.

(** [hotel_analysis], built from the reviewer's answer. *)
Definition hotel_analysis_of (reviewer_response : json) : result json :=
  analysis ← get reviewer_response "analysis" (JArr []);
  recommendations ← get reviewer_response "recommendations" (JArr []);
  recs ← get reviewer_response "recommendations" (JArr [JObj []]);
  first ← index recs 0;
  top_pick ← get first "hotel" (JStr "N/A");
  Ok (JObj [ ("analysis", analysis); ("recommendations", recommendations);
             ("top_pick", top_pick) ]).

(** Command 3: the refinement request and the parse of its answer. *)
Definition refinement_step (planner : agent)
    (initial_itinerary hotel_analysis hotels_data flights_data : json)
    (log : list (string * json)) : M json :=
  top_pick ← L (get hotel_analysis "top_pick" (JStr "N/A"));
  recommendations ← L (get hotel_analysis "recommendations" (JArr []));
  n ← L (len recommendations);
  recs ← L (iter recommendations);
  names ← L (mapM (λ r, getitem r "hotel") recs);
  cmd3 ←
    send_command "reviewer" "planner" "REQUEST_REFINEMENT"
      (JObj [ ("analysis_summary",
                JObj [ ("top_pick", top_pick);
                       ("total_analyzed", JInt (Z.of_nat n));
                       ("recommendations", JArr names) ]);
              ("full_analysis", hotel_analysis);
              ("weather_info", log_get log "weather_info");
              ("places_info", log_get log "places_info") ]);
  refinement_prompt ←
    L (create_refinement_prompt initial_itinerary hotel_analysis
         (log_get log "weather_info") (log_get log "places_info")
         hotels_data flights_data);
  final_response ← agent_generate "planner" planner refinement_prompt;
  match json_loads final_response with
  | Some final_itinerary =>
      _ ← complete_command (cmd_id cmd3) completed (JStr "Itinerary refined");
      mret final_itinerary
  | None =>
      _ ← complete_command (cmd_id cmd3) completed_with_warning
            (JStr "Used initial itinerary");
      mret initial_itinerary
  end.

(** Command 2 and what follows it. *)
Definition review_and_refine (query : json) (planner : agent)
    (style_analysis initial_itinerary hotels_data flights_data : json)
    (log : list (string * json)) : M response :=
  hotels ← L (get hotels_data "hotels" (JArr []));
  preferences ← L (get query "preferences" (JObj []));
  cmd2 ←
    send_command "planner" "reviewer" "ANALYZE_HOTELS"
      (JObj [ ("hotels", hotels); ("preferences", preferences);
              ("requester", JStr "planner") ]);
  (* the console line evaluates [len(hotels)] *)
  _ ← L (len hotels);
  s ← state;
  match agents s !! "reviewer" with
  | None =>
      _ ← complete_command (cmd_id cmd2) failed (JStr "Reviewer agent not found");
      mret (ErrorResponse "Reviewer agent not found")
  | Some reviewer =>
      preferences ← L (get_ query "preferences");
      destination ← L (get_ query "destination");
      reviewer_response ←
        agent_process "reviewer" reviewer
          (JObj [ ("hotels", hotels); ("preferences", preferences);
                  ("destination", destination) ]);
      hotel_analysis ← L (hotel_analysis_of reviewer_response);
      recommendations ← L (get hotel_analysis "recommendations" (JArr []));
      n ← L (len recommendations);
      _ ← complete_command (cmd_id cmd2) completed (count_text n " hotels analyzed");
      final_itinerary ←
        refinement_step planner initial_itinerary hotel_analysis
          hotels_data flights_data log;
      let collaboration_log :=
        {| log_fields := log; log_mcp_commands := ServerHistory |} in
      _ ← update (add_log collaboration_log);
      mret (Collaboration
              {| r_query := query;
                 r_style_analysis := style_analysis;
                 r_initial_itinerary := initial_itinerary;
                 r_hotel_analysis := hotel_analysis;
                 r_final_itinerary := final_itinerary;
                 r_weather_info := log_get log "weather_info";
                 r_places_info := log_get log "places_info";
                 r_hotel_info := hotels_data;
                 r_flight_info := flights_data;
                 r_collaboration_log := collaboration_log |})
  end.

(** Command 1 and what follows it. *)
Definition draft_and_refine (query : json) (destination : string)
    (style_analysis hotels_data flights_data : json)
    (log : list (string * json)) : M response :=
  origin ← L (get_ query "origin");
  dest ← L (get_ query "destination");
  days ← L (get_ query "days");
  people ← L (get_ query "people");
  budget ← L (get_ query "budget");
  cmd1 ←
    send_command "user" "planner" "CREATE_ITINERARY"
      (JObj [ ("origin", origin); ("destination", dest); ("days", days);
              ("people", people); ("budget", budget);
              ("weather_info", log_get log "weather_info") ]);
  s ← state;
  match agents s !! "planner" with
  | None =>
      _ ← complete_command (cmd_id cmd1) failed (JStr "Planner agent not found");
      mret (ErrorResponse "Planner agent not found")
  | Some planner =>
      planner_response ←
        agent_process "planner" planner
          (JObj [ ("query", query); ("style_info", style_analysis);
                  ("context", log_get log "weather_info");
                  ("hotel_info", hotels_data); ("flight_info", flights_data);
                  ("places_info", default (JObj []) (dict_lookup "places_info" log)) ]);
      initial_itinerary ← L (get planner_response "itinerary" (JObj []));
      _ ← complete_command (cmd_id cmd1) completed (JStr "Initial itinerary created");
      log ← places_step destination log;
      review_and_refine query planner style_analysis initial_itinerary
        hotels_data flights_data log
  end.

(** [process_travel_request] *)
Definition process_travel_request (query : json) : M response :=
  destination ← L (get query "destination" (JStr ""));
  departure_date ← L (get_ query "departure_date");
  return_date ← L (get_ query "return_date");
  destination ← L (as_str destination);
  let city := strip (split_first destination) in
  let log := [ ("query", query); ("api_calls", JArr []) ] in
  log ← weather_step query destination city departure_date return_date log;
  '(log, flights_data) ← flight_step query city log;
  '(log, hotels_data) ← hotel_step query city log;
  style_analysis ← style_step query;
  let log := dict_set "style_analysis" style_analysis log in
  draft_and_refine query destination style_analysis hotels_data flights_data log.
End Process.

End Server.

(** ** Repairs of the final itinerary and the budget summary ([app.py]) *)

Module Reconcile.
Import Py.

(** [Config.EXCHANGE_RATES] *)
Definition EXCHANGE_RATES : list (string * Q) :=
    [
      ("KRW", (1 # 1)); ("USD", (1380 # 1)); ("EUR", (1480 # 1));
      ("GBP", (1760 # 1)); ("JPY", (46 # 5)); ("CNY", (190 # 1));
      ("HKD", (177 # 1)); ("TWD", (85 # 2)); ("SGD", (1025 # 1));
      ("MYR", (310 # 1)); ("THB", (38 # 1)); ("PHP", (24 # 1));
      ("VND", (11 # 200)); ("IDR", (87 # 1000)); ("INR", (163 # 10));
      ("PKR", (49 # 10)); ("BDT", (23 # 2)); ("LKR", (21 # 5));
      ("NPR", (51 # 5)); ("AUD", (890 # 1)); ("NZD", (810 # 1));
      ("CAD", (985 # 1)); ("CHF", (1565 # 1)); ("SEK", (127 # 1));
      ("NOK", (125 # 1)); ("DKK", (198 # 1)); ("PLN", (340 # 1));
      ("CZK", (60 # 1)); ("HUF", (19 # 5)); ("RUB", (71 # 5));
      ("TRY", (40 # 1)); ("ZAR", (75 # 1)); ("BRL", (270 # 1));
      ("MXN", (68 # 1)); ("ARS", (7 # 5)); ("CLP", (7 # 5));
      ("COP", (33 # 100)); ("PEN", (365 # 1)); ("AED", (376 # 1));
      ("SAR", (368 # 1)); ("QAR", (379 # 1)); ("KWD", (4500 # 1));
      ("BHD", (3660 # 1)); ("OMR", (3585 # 1)); ("JOD", (1945 # 1));
      ("ILS", (375 # 1)); ("EGP", (28 # 1)); ("MAD", (138 # 1));
      ("TND", (440 # 1)); ("KES", (107 # 10)); ("NGN", (22 # 25));
      ("GHS", (88 # 1)); ("ETB", (11 # 1)); ("TZS", (13 # 25));
      ("UGX", (37 # 100)); ("ZMW", (50 # 1)); ("BWP", (100 # 1));
      ("MUR", (30 # 1)); ("SCR", (101 # 1)) ].

Fixpoint rate_lookup (k : string) (table : list (string * Q)) : option Q :=
  match table with
  | [] => None
  | (k', r) :: table' => if String.eqb k k' then Some r else rate_lookup k table'
  end.

(** [convert_to_krw]: a currency that cannot be hashed makes the table
    lookup raise; one that is not in the table converts at rate 1. *)
Definition convert_to_krw (amount : Q) (currency : json) : result Z :=
  c ← Weather.hashed currency;
  let rate := match c with
              | JStr k => default 1%Q (rate_lookup k EXCHANGE_RATES)
              | _ => 1%Q
              end in
  Ok (trunc (amount * rate)).

Section Reconcile.
Variable float_repr : Q -> string.
(** [float(s)] for a text [s]: the parser is not modelled; [None] is a
    [ValueError]. *)
Variable float_of_string : string -> option Q.
(** [(fromisoformat(b) - fromisoformat(a)).days]; [None] when either text
    is not a date. *)
Variable days_between : string -> string -> option Z.

Definition fstr (x : json) : string := str float_repr x.

(** [float(v)] *)
Definition to_float (v : json) : result Q :=
  match v with
  | JStr s => match float_of_string s with Some q => Ok q | None => Raise ValueError end
  | _ => number v
  end.

(** [format_price_with_krw] *)
Definition format_price_with_krw (amount : Q) (currency : json) : result string :=
  if negb (truthy currency) || py_eq currency (JStr "KRW") then
    Ok (commas (trunc amount) +:+ "원")
  else
    krw_amount ← convert_to_krw amount currency;
    Ok (commas (trunc amount) +:+ " " +:+ fstr currency +:+ " (약 "
        +:+ commas krw_amount +:+ "원)").

(** *** Restaurant placeholder repair (the one step inside [try]) *)

Definition placeholder_patterns : list string :=
  [ "레스토랑 A"; "레스토랑 B"; "레스토랑 C"; "레스토랑 D";
    "Restaurant A"; "Restaurant B"; "Restaurant C"; "Restaurant D";
    "레스토랑 "; "Restaurant " ].

(** An entry of [all_restaurants]. *)
Record restaurant : Type := {
  place_name : json;
  rest_name : json;
  rest_rating : json;
  rest_photo_url : json;
}.

Definition restaurants_near (place : json) : result (list restaurant) :=
  pname ← get place "name" (JStr "");
  nearby ← get_ place "nearby_restaurants";
  rs ← iter (or_else nearby (JArr []));
  mapM (λ r,
          n ← get r "name" (JStr "식당");
          rating ← get r "rating" (JStr "N/A");
          photo ← get r "photo_url" (JStr "");
          Ok {| place_name := pname; rest_name := n;
                rest_rating := rating; rest_photo_url := photo |}) rs.

Definition all_restaurants (places_info : json) : result (list restaurant) :=
  places ← getitem places_info "places";
  ps ← iter places;
  rss ← mapM restaurants_near ps;
  Ok (concat rss).

(** One meal: the new meal and the next [rest_idx].  Nothing is changed
    before the last point that can raise. *)
Definition fix_meal (rs : list restaurant) (rest_idx : nat) (meal : json)
  : result (json * nat) :=
  sg ← get_ meal "suggestion";
  sg ← as_str (or_else sg (JStr ""));
  let suggestion := strip sg in
  if existsb (λ pat, contains pat suggestion) placeholder_patterns then
    match rs !! rest_idx with
    | Some r =>
        meal ← setitem meal "suggestion"
                 (JStr (fstr (rest_name r) +:+ " - 추천 메뉴 ( "
                        +:+ fstr (place_name r) +:+ " 근처 )"));
        meal ← setitem meal "photo_url" (rest_photo_url r);
        Ok (meal, S rest_idx)
    | None => Ok (meal, rest_idx)
    end
  else Ok (meal, rest_idx).

(** A loop that changes list elements in place and may stop on an exception:
    the elements, the loop state and the exception, if any. *)
Fixpoint loop_in_place {S} (body : S -> json -> json * S * option exn)
    (st : S) (l : list json) : list json * S * option exn :=
  match l with
  | [] => ([], st, None)
  | x :: l' =>
      match body st x with
      | (x', st', Some e) => (x' :: l', st', Some e)
      | (x', st', None) =>
          let '(l'', st'', e) := loop_in_place body st' l' in
          (x' :: l'', st'', e)
      end
  end.

Definition fix_meal_step (rs : list restaurant) (rest_idx : nat) (meal : json)
  : json * nat * option exn :=
  match fix_meal rs rest_idx meal with
  | Ok (meal', idx') => (meal', idx', None)
  | Raise e => (meal, rest_idx, Some e)
  end.

(** One day of the loop over [final_plan['itinerary']]. *)
Definition fix_day (rs : list restaurant) (rest_idx : nat) (day : json)
  : json * nat * option exn :=
  match get_ day "meals" with
  | Raise e => (day, rest_idx, Some e)
  | Ok m =>
      match or_else m (JArr []) with
      | JArr meals =>
          let '(meals', idx', e) := loop_in_place (fix_meal_step rs) rest_idx meals in
          (* [m] is truthy here, or [meals] is empty *)
          (if truthy m then catch (setitem day "meals" (JArr meals')) day else day,
           idx', e)
      | other =>
          (* the elements of a dictionary or a text have no [get] *)
          match iter other with
          | Ok [] => (day, rest_idx, None)
          | Ok (_ :: _) => (day, rest_idx, Some AttributeError)
          | Raise e => (day, rest_idx, Some e)
          end
      end
  end.

(** The body of the [try] block: the plan as the body left it, and the
    exception that ended it, if any. *)
Definition restaurant_body (places_info final_plan : json) : json * option exn :=
  match
    (ok ← get_ places_info "success";
     ps ← (if truthy ok then get_ places_info "places" else Ok JNull);
     it ← (if truthy ok && truthy ps then get_ final_plan "itinerary" else Ok JNull);
     if truthy ok && truthy ps && truthy it
     then rs ← all_restaurants places_info; Ok (Some (rs, it))
     else Ok None)
  with
  | Raise e => (final_plan, Some e)
  | Ok None => (final_plan, None)
  | Ok (Some (rs, JArr days)) =>
      let '(days', _, e) := loop_in_place (fix_day rs) 0%nat days in
      (catch (setitem final_plan "itinerary" (JArr days')) final_plan, e)
  | Ok (Some (rs, other)) =>
      match iter other with
      | Ok [] => (final_plan, None)
      | Ok (_ :: _) => (final_plan, Some AttributeError)
      | Raise e => (final_plan, Some e)
      end
  end.

(** [try: ... except Exception as e: print(...)] *)
Definition restaurant_repair (places_info final_plan : json) : json :=
  (restaurant_body places_info final_plan).1.

(** *** Flight repair (lines 488 to 510) *)

(** [flight[leg][end]['time'][11:16]] *)
Definition leg_time (flight : json) (leg point : string) : result json :=
  l ← getitem flight leg;
  p ← getitem l point;
  t ← getitem p "time";
  slice 11 16 t.

Definition leg_airport (flight : json) (leg point : string) : result json :=
  l ← getitem flight leg;
  p ← getitem l point;
  getitem p "airport".

(** [flights_data.get('flights', [{}])[0].get('booking_url', '#')] *)
Definition top_booking_url (flights_data : json) : result json :=
  fl ← get flights_data "flights" (JArr [JObj []]);
  top ← index fl 0;
  get top "booking_url" (JStr "#").

Definition leg_summary (flight : json) (leg : string) (dep_time arr_time : json)
  : result json :=
  dep_airport ← leg_airport flight leg "departure";
  arr_airport ← leg_airport flight leg "arrival";
  Ok (JStr (fstr dep_airport +:+ " " +:+ fstr dep_time +:+ " → "
            +:+ fstr arr_airport +:+ " " +:+ fstr arr_time)).

Definition flight_repair (flights_data final_plan : json) : result json :=
  selected_flight ← get final_plan "selected_flight" (JObj []);
  ok ← get_ flights_data "success";
  fl ← (if truthy ok then get_ flights_data "flights" else Ok JNull);
  if truthy ok && truthy fl then
    api_top_flight ← index fl 0;
    ob ← get_ selected_flight "outbound";
    missing ← (if negb (truthy ob) then Ok true
               else ib ← get_ selected_flight "inbound"; Ok (negb (truthy ib)));
    if (missing : bool) then
      out_dep_time ← leg_time api_top_flight "outbound" "departure";
      out_arr_time ← leg_time api_top_flight "outbound" "arrival";
      in_dep_time ← leg_time api_top_flight "inbound" "departure";
      in_arr_time ← leg_time api_top_flight "inbound" "arrival";
      codes ← get api_top_flight "validating_airline_codes" (JArr [JStr "N/A"]);
      airline ← str_join ", " codes;
      price ← getitem api_top_flight "price";
      total ← getitem price "total";
      outbound ← leg_summary api_top_flight "outbound" out_dep_time out_arr_time;
      inbound ← leg_summary api_top_flight "inbound" in_dep_time in_arr_time;
      booking_url ← top_booking_url flights_data;
      setitem final_plan "selected_flight"
        (JObj [ ("airline", JStr airline); ("price", total);
                ("outbound", outbound); ("inbound", inbound);
                ("booking_url", booking_url) ])
    else Ok final_plan
  else Ok final_plan.

(** *** Hotel repair (lines 514 to 589) *)

(** The loop [for key in ['total', 'base']]: the first value that is truthy
    and converts. *)
Fixpoint first_float (price_info : json) (keys : list string) : result Q :=
  match keys with
  | [] => Ok 0%Q
  | key :: keys' =>
      v ← get_ price_info key;
      if truthy v then
        match to_float v with
        | Ok q => Ok q
        | Raise _ => first_float price_info keys'
        end
      else first_float price_info keys'
  end.

(** [max((d2 - d1).days, 1)], or [None] on any exception. *)
Definition nights_between (check_in check_out : json) : option Z :=
  match check_in, check_out with
  | JStr a, JStr b => Z.max 1 <$> days_between a b
  | _, _ => None
  end.

Definition per_night_of (hotels_data price_info : json) (hotel_total : Q) : result Q :=
  v ← get_ price_info "per_night";
  let hotel_per_night := if truthy v then catch (to_float v) 0%Q else 0%Q in
  if Qeq_bool hotel_per_night 0 && Qgtb hotel_total 0 then
    sp ← get hotels_data "search_params" (JObj []);
    let search_params := or_else sp (JObj []) in
    check_in ← get_ search_params "check_in";
    check_out ← get_ search_params "check_out";
    if truthy check_in && truthy check_out then
      match nights_between check_in check_out with
      | Some nights => Ok (hotel_total / inject_Z nights)%Q
      | None => Ok hotel_total
      end
    else Ok hotel_per_night
  else Ok hotel_per_night.

(** [x not in [None, 'N/A']] *)
Definition is_rated (x : json) : bool :=
  negb (py_eq x JNull || py_eq x (JStr "N/A")).

Definition normalize_hotel (hotels_data api_top_hotel : json) : result (json * Q) :=
  p ← get api_top_hotel "price" (JObj []);
  let price_info := or_else p (JObj []) in
  hotel_total ← first_float price_info ["total"; "base"];
  hotel_per_night ← per_night_of hotels_data price_info hotel_total;
  hname ← get api_top_hotel "name" (JStr "추천 호텔");
  address ← get api_top_hotel "address" (JStr "주소 정보 없음");
  rating ← get_ api_top_hotel "rating";
  let type := if is_rated rating then JStr (fstr rating +:+ "성급 호텔") else JStr "호텔" in
  currency ← get price_info "currency" (JStr "KRW");
  estimated_cost_krw ← convert_to_krw hotel_total currency;
  per_night_cost_krw ← convert_to_krw hotel_per_night currency;
  price_display ← format_price_with_krw hotel_total currency;
  per_night_display ← format_price_with_krw hotel_per_night currency;
  booking_url ← get api_top_hotel "booking_url" (JStr "#");
  Ok (JObj [ ("name", hname); ("address", address); ("type", type);
             ("estimated_cost", JFloat hotel_total);
             ("per_night_cost", JFloat hotel_per_night);
             ("currency", currency);
             ("estimated_cost_krw", JInt estimated_cost_krw);
             ("per_night_cost_krw", JInt per_night_cost_krw);
             ("price_display", JStr price_display);
             ("per_night_display", JStr per_night_display);
             ("booking_url", booking_url) ],
      hotel_per_night).

(** One day of the loop that copies the hotel into the itinerary. *)
Definition sync_accommodation (normalized_hotel : json) (hotel_per_night : Q)
    (day : json) : result json :=
  acc ← get day "accommodation" (JObj []);
  skip ← (if negb (truthy acc) then Ok true
          else n ← get_ acc "name"; Ok (py_eq n (JStr "N/A")));
  if (skip : bool) then Ok day
  else
    hname ← getitem normalized_hotel "name";
    address ← getitem normalized_hotel "address";
    type ← getitem normalized_hotel "type";
    booking_url ← getitem normalized_hotel "booking_url";
    setitem day "accommodation"
      (JObj [ ("name", hname); ("address", address); ("type", type);
              ("estimated_cost", JFloat hotel_per_night);
              ("booking_url", booking_url) ]).

(** A loop over the days that changes each day in place. *)
Definition for_days (f : json -> result json) (final_plan itinerary : json)
  : result json :=
  days ← iter itinerary;
  days ← mapM f days;
  match itinerary with
  | JArr _ => setitem final_plan "itinerary" (JArr days)
  | _ => Ok final_plan
  end.

Definition hotel_repair (hotels_data final_plan : json) : result json :=
  ok ← get_ hotels_data "success";
  hs ← (if truthy ok then get_ hotels_data "hotels" else Ok JNull);
  if truthy ok && truthy hs then
    api_top_hotel ← index hs 0;
    '(normalized_hotel, hotel_per_night) ← normalize_hotel hotels_data api_top_hotel;
    final_plan ← setitem final_plan "selected_hotel" normalized_hotel;
    it ← get_ final_plan "itinerary";
    if truthy it
    then for_days (sync_accommodation normalized_hotel hotel_per_night) final_plan it
    else Ok final_plan
  else Ok final_plan.

(** *** Day 1 and last day transport, booking links (lines 591 to 685) *)

(** [x[i] = f(x[i])] for a day [x[i]] that is changed in place. *)
Definition update_at (itinerary : json) (i : nat) (f : json -> result json)
  : result json :=
  match itinerary with
  | JArr l =>
      match l !! i with
      | Some d => d' ← f d; Ok (JArr (<[i := d']> l))
      | None => Raise IndexError
      end
  | _ => d ← index itinerary i; _ ← f d; Raise TypeError
  end.

Definition untimed (x : json) : json :=
  match x with
  | JStr s => JStr (replace_char "T" " " s)
  | _ => x
  end.

(** [details_text] and [booking_url] of the outbound flight. *)
Definition outbound_details (selected_flight outbound : json)
  : result (string * json) :=
  booking_url ← get_ selected_flight "booking_url";
  match outbound with
  | JObj _ =>
      a ← get_ outbound "airline";
      airline ← (if truthy a then Ok a else get selected_flight "airline" (JStr ""));
      route ← get outbound "route" (JStr "");
      dep ← get_ outbound "departure_time";
      arr ← get_ outbound "arrival_time";
      time_part ← str_join " ~ " (JArr (List.filter truthy [untimed dep; untimed arr]));
      let parts :=
        (if truthy airline then [airline] else [])
        ++ (if truthy route then [route] else [])
        ++ (if String.eqb time_part "" then [] else [JStr time_part]) in
      joined ← str_join " / " (JArr parts);
      booking_url ← get outbound "booking_url" booking_url;
      Ok ("출국편: " +:+ joined, booking_url)
  | _ =>
      if truthy outbound
      then Ok ("출국편: " +:+ fstr outbound, booking_url)
      else Ok ("출국편 정보가 없습니다.", booking_url)
  end.

Definition inject_outbound (selected_flight : json) (day1 : json) : result json :=
  day1_transport ← getitem day1 "transportation";
  outbound ← get_ selected_flight "outbound";
  '(details_text, booking_url) ← outbound_details selected_flight outbound;
  ty ← get_ day1_transport "type";
  if py_eq ty (JStr "비행기") then
    price ← get selected_flight "price" (JInt 0);
    cost ← get day1_transport "cost" price;
    airline ← get_ selected_flight "airline";
    flight_number ← get selected_flight "flight_number" (JStr "N/A");
    setitem day1 "transportation"
      (JObj [ ("type", JStr "비행기"); ("cost", cost);
              ("details", JStr details_text); ("airline", airline);
              ("flight_number", flight_number); ("booking_url", booking_url) ])
  else Ok day1.

(** The marker written into the last day's accommodation. *)
Definition no_accommodation : json :=
  JObj [ ("name", JStr "N/A"); ("type", JStr "N/A");
         ("estimated_cost", JInt 0); ("address", JStr "N/A") ].

Definition inject_inbound (selected_flight : json) (last_day : json) : result json :=
  tr ← get last_day "transportation" (JObj []);
  cost ← get tr "cost" (JInt 0);
  inbound ← getitem selected_flight "inbound";
  airline ← getitem selected_flight "airline";
  flight_number ← get selected_flight "flight_number" (JStr "N/A");
  booking_url ← getitem selected_flight "booking_url";
  last_day ← setitem last_day "transportation"
    (JObj [ ("type", JStr "비행기"); ("cost", cost);
            ("details", JStr ("귀국편: " +:+ fstr inbound)); ("airline", airline);
            ("flight_number", flight_number); ("booking_url", booking_url) ]);
  setitem last_day "accommodation" no_accommodation.

Definition hotel_search_url (hotel_name : json) (city : string) : json :=
  JStr ("https://www.google.com/search?q="
        +:+ quote (fstr hotel_name +:+ " " +:+ city +:+ " hotel booking")
        +:+ "&hl=ko&ibp=htl").

Definition link_accommodation (hotel_name booking_url : json) (day_data : json)
  : result json :=
  acc ← get day_data "accommodation" (JObj []);
  n ← get_ acc "name";
  if py_eq n hotel_name then
    acc ← getitem day_data "accommodation";
    acc ← setitem acc "booking_url" booking_url;
    setitem day_data "accommodation" acc
  else Ok day_data.

(** The booking link of the selected hotel, written into the plan and into
    every day that stays there. *)
Definition link_hotel (final_plan itinerary : json) : result (json * json) :=
  selected_hotel ← get final_plan "selected_hotel" (JObj []);
  hotel_name ← get_ selected_hotel "name";
  if truthy hotel_name then
    dest ← get final_plan "destination" (JStr "");
    dest ← as_str dest;
    let booking_url := hotel_search_url hotel_name (strip (split_first dest)) in
    selected_hotel ← setitem selected_hotel "booking_url" booking_url;
    final_plan ← setitem final_plan "selected_hotel" selected_hotel;
    days ← iter itinerary;
    days ← mapM (link_accommodation hotel_name booking_url) days;
    Ok (final_plan, match itinerary with JArr _ => JArr days | _ => itinerary end)
  else Ok (final_plan, itinerary).

(** [itinerary[days - 1]]: only an [int] indexes a list. *)
Definition last_day_index (days : json) : result nat :=
  match days with
  | JInt z => Ok (Z.to_nat (z - 1))
  | _ => Raise TypeError
  end.

(** *** Daily cost (lines 689 to 716) *)

Definition add_cost (total : Q) (cost : json) : Q :=
  match num_val cost with
  | Some q => (total + q)%Q
  | None => total
  end.

(** [current_day_cost] before it is compared with the reported cost. *)
Definition line_items (day : json) : result Q :=
  tr ← get day "transportation" (JObj []);
  transport_cost ← get tr "cost" (JInt 0);
  ac ← get day "accommodation" (JObj []);
  accommodation_cost ← get ac "estimated_cost" (JInt 0);
  attractions ← get day "attractions" (JArr []);
  activities ← iter attractions;
  costs ← mapM (λ activity, get activity "estimated_cost" (JInt 0)) activities;
  Ok (fold_left add_cost costs (add_cost (add_cost 0 transport_cost) accommodation_cost)).

Definition recompute_daily_cost (day : json) : result json :=
  current_day_cost ← line_items day;
  day_total_from_llm ← get day "daily_cost" (JFloat current_day_cost);
  reported ← number day_total_from_llm;
  let current_day_cost :=
    if Qgtb reported current_day_cost then reported else current_day_cost in
  setitem day "daily_cost" (JInt (trunc current_day_cost)).

Definition transport_and_cost (flights_data final_plan : json) : result json :=
  days ← get final_plan "days" (JInt 0);
  d ← number days;
  it ← (if Qgtb d 1 then get_ final_plan "itinerary" else Ok JNull);
  sf ← (if Qgtb d 1 && truthy it then get_ final_plan "selected_flight" else Ok JNull);
  if Qgtb d 1 && truthy it && truthy sf then
    url ← top_booking_url flights_data;
    selected_flight ← setitem sf "booking_url" url;
    final_plan ← setitem final_plan "selected_flight" selected_flight;
    (* day 1 *)
    n ← len it;
    ob ← (if (0 <? n)%nat then get_ selected_flight "outbound" else Ok JNull);
    it ← (if (0 <? n)%nat && truthy ob
          then update_at it 0 (inject_outbound selected_flight)
          else Ok it);
    (* last day *)
    let fits := Qgtb (inject_Z (Z.of_nat n)) (d - 1) in
    ib ← (if fits then get_ selected_flight "inbound" else Ok JNull);
    '(final_plan, it) ←
      (if fits && truthy ib then
         i ← match it with
             | JObj _ => Raise KeyError
             | _ => last_day_index days
             end;
         it ← update_at it i (inject_inbound selected_flight);
         link_hotel final_plan it
       else Ok (final_plan, it));
    final_plan ← setitem final_plan "itinerary" it;
    for_days recompute_daily_cost final_plan it
  else Ok final_plan.

(** The four repairs in the order [plan] applies them.  The image searches
    that come before them (lines 407 to 444) add [photo_url] fields to
    attractions and meals and are left out: [final_plan] is the plan as
    they leave it. *)
Definition reconcile (places_info flights_data hotels_data final_plan : json)
  : result json :=
  let final_plan := restaurant_repair places_info final_plan in
  final_plan ← flight_repair flights_data final_plan;
  final_plan ← hotel_repair hotels_data final_plan;
  transport_and_cost flights_data final_plan.

(** *** The coordinates loop (lines 722 to 737)

    The geocoder catches its own errors and the coordinates go to the map
    only; what can still raise is kept. *)
Definition scan_day (day : json) : result unit :=
  match day with
  | JObj kv =>
      if has_key "attractions" kv then
        attractions ← getitem day "attractions";
        places ← iter attractions;
        _ ← mapM (λ place, get place "name" (JStr "")) places;
        Ok tt
      else Ok tt
  | JArr l =>
      if existsb (py_eq (JStr "attractions")) l then Raise TypeError else Ok tt
  | JStr s =>
      if contains "attractions" s then Raise TypeError else Ok tt
  | _ => Raise TypeError
  end.

Definition scan_attractions (final_plan : json) : result unit :=
  match final_plan with
  | JObj kv =>
      if truthy final_plan && has_key "itinerary" kv then
        itinerary ← getitem final_plan "itinerary";
        days ← iter itinerary;
        _ ← mapM scan_day days;
        Ok tt
      else Ok tt
  | _ => Ok tt
  end.

(** *** Budget summary (lines 744 to 807) *)

Record budget_summary : Type := {
  user_budget : Z;
  total_cost : Z;
  flight_total : Z;
  hotel_total : Z;
  hotel_total_krw : Z;
  hotel_currency : json;
  diff : Z;
  is_over : bool;
  over_rate : Q;
}.

(** [round(q, 1)]: to the nearest tenth, a tie to the even one. *)
Definition round_half_even (q : Q) : Z :=
  let f := Qfloor q in
  let r := (q - inject_Z f)%Q in
  if Qgtb r (1 # 2) then f + 1
  else if Qgtb (1 # 2) r then f
  else if Z.even f then f else f + 1.

Definition round1 (q : Q) : Q := (inject_Z (round_half_even (q * 10)) / 10)%Q.

(** [float(flights_data['flights'][0]['price']['total'])], inside [try]. *)
Definition top_flight_total (flights : json) : result Q :=
  top ← index flights 0;
  price ← getitem top "price";
  total ← getitem price "total";
  to_float total.

Definition raw_flight_total (flights_data : json) : result Q :=
  if truthy flights_data then
    ok ← get_ flights_data "success";
    fl ← (if truthy ok then get_ flights_data "flights" else Ok JNull);
    if truthy ok && truthy fl
    then Ok (catch (top_flight_total fl) 0%Q)
    else Ok 0%Q
  else Ok 0%Q.

(** The loop [for value in [price_info.get("total"), estimated_cost]]. *)
Fixpoint first_value (values : list json) : Q :=
  match values with
  | [] => 0%Q
  | value :: values' =>
      if truthy value then
        match to_float value with
        | Ok q => q
        | Raise _ => first_value values'
        end
      else first_value values'
  end.

(** The loop [for key in ["total", "base"]] of the fallback; it runs inside
    a [try] that resets the total to zero. *)
Fixpoint first_priced (pinfo : list (string * json)) (keys : list string) : result Q :=
  match keys with
  | [] => Ok 0%Q
  | key :: keys' =>
      match dict_lookup key pinfo with
      | Some v => if truthy v then to_float v else first_priced pinfo keys'
      | None => first_priced pinfo keys'
      end
  end.

Definition fallback_hotel_total (hotels : json) : result Q :=
  first_hotel ← index hotels 0;
  pinfo ← get first_hotel "price" (JObj []);
  match pinfo with
  | JObj kv => first_priced kv ["total"; "base"]
  | _ => Ok 0%Q
  end.

Definition raw_hotel_total (hotels_data final_plan : json) : result (Q * json) :=
  sh ← get_ final_plan "selected_hotel";
  let selected_hotel := or_else sh (JObj []) in
  p ← get_ selected_hotel "price";
  let price_info := or_else p (JObj []) in
  estimated_cost ← get_ selected_hotel "estimated_cost";
  total ← get_ price_info "total";
  let hotel_total := first_value [total; estimated_cost] in
  hotel_total ←
    (if Qeq_bool hotel_total 0 && truthy hotels_data then
       ok ← get_ hotels_data "success";
       hs ← (if truthy ok then get_ hotels_data "hotels" else Ok JNull);
       if truthy ok && truthy hs
       then Ok (catch (fallback_hotel_total hs) 0%Q)
       else Ok hotel_total
     else Ok hotel_total);
  Ok (hotel_total, selected_hotel).

Definition summarize (budget : Z) (flights_data hotels_data final_plan : json)
  : result budget_summary :=
  let user_budget := budget in
  flight_total ← raw_flight_total flights_data;
  '(hotel_total, selected_hotel) ← raw_hotel_total hotels_data final_plan;
  currency ← get selected_hotel "currency" (JStr "KRW");
  hotel_total_krw ← convert_to_krw hotel_total currency;
  let budget_base := (flight_total + inject_Z hotel_total_krw)%Q in
  let is_over := Qgtb budget_base (inject_Z user_budget) in
  Ok {| user_budget := user_budget;
        total_cost := trunc budget_base;
        flight_total := trunc flight_total;
        hotel_total := trunc hotel_total;
        hotel_total_krw := hotel_total_krw;
        hotel_currency := currency;
        diff := user_budget - trunc budget_base;
        is_over := is_over;
        over_rate :=
          if is_over && (0 <? user_budget)
          then round1 ((budget_base - inject_Z user_budget)
                       / inject_Z user_budget * 100)
          else 0%Q |}.

(** *** The end of the request handler, from line 447 on

    Any exception that leaves a step reaches the handler's outer
    [except Exception], which answers with an error page. *)
Inductive page : Type :=
| Rendered (final_plan : json) (summary : budget_summary)
| ErrorPage.

Definition plan_tail (budget : Z)
    (places_info flights_data hotels_data final_plan : json) : page :=
  match
    (final_plan ← reconcile places_info flights_data hotels_data final_plan;
     _ ← scan_attractions final_plan;
     summary ← summarize budget flights_data hotels_data final_plan;
     Ok (final_plan, summary))
  with
  | Ok (final_plan, summary) => Rendered final_plan summary
  | Raise _ => ErrorPage
  end.
End Reconcile.

End Reconcile.

(** ** The planner's choice of a template ([agents/planner.py]) *)

Module Planner.
Import Py.

(** [_load_fallback_templates]: the templates used when the data set cannot
    be loaded. *)
Definition fallback_templates : list json :=
  [ JObj [ ("org", JStr "Seoul"); ("dest", JStr "Tokyo"); ("days", JInt 3);
           ("people", JInt 2);
           ("query", JStr "Plan a 3-day trip to Tokyo from Seoul for 2 people");
           ("reference", JObj []); ("level", JStr "easy") ];
    JObj [ ("org", JStr "Seoul"); ("dest", JStr "Osaka"); ("days", JInt 5);
           ("people", JInt 2);
           ("query", JStr "Plan a 5-day trip to Osaka from Seoul for 2 people");
           ("reference", JObj []); ("level", JStr "medium") ] ].

(** [x.lower()]: only a text has it. *)
Definition lower_text (x : json) : result string :=
  s ← as_str x; Ok (lower s).

(** [abs(template_days - days) <= 1] *)
Definition days_close (template_days days : json) : result bool :=
  a ← number template_days;
  b ← number days;
  Ok (Qle_bool (Qabs (a - b)) 1).

(** The test of the loop over [self.templates]: the destinations contain one
    another, or else the lengths differ by one day at most. *)
Definition similar_to (dest : string) (days : json) (t : json) : result bool :=
  td ← get t "dest" (JStr "");
  template_dest ← lower_text td;
  template_days ← get t "days" (JInt 3);
  if negb (String.eqb dest "")
     && (contains dest template_dest || contains template_dest dest)
  then Ok true
  else days_close template_days days.

Fixpoint select (dest : string) (days : json) (ts : list json) : result (list json) :=
  match ts with
  | [] => Ok []
  | t :: ts' =>
      b ← similar_to dest days t;
      rest ← select dest days ts';
      Ok (if (b : bool) then t :: rest else rest)
  end.

Section Templates.
(** [self.templates] *)
Variable templates : list json.
(** [random.choice] on a list that is not empty: which element it draws is
    not modelled. *)
Variable choice : list json -> json.

(** [_find_similar_template] *)
Definition find_similar_template (query : json) : result json :=
  d ← get query "destination" (JStr "");
  dest ← lower_text d;
  days ← get query "days" (JInt 3);
  similar ← select dest days templates;
  let similar := match similar with [] => templates | _ => similar end in
  Ok (match similar with [] => JObj [] | _ => choice similar end).
End Templates.

End Planner.

(** ** The request handler before the repairs ([app.py], [plan]) *)

Module Handler.
Import Py.

(** What the handler does with a form: an error page with a fixed text, the
    error page of its [except Exception], or a request for the server. *)
Inductive checked : Type :=
| Refused (error : string)
| Crashed
| Accepted (query : json).

Section Check.
(** [datetime.strptime(s, "%Y-%m-%d")] as the number of the day; [None] is
    a [ValueError]. *)
Variable day_number : string -> option Z.
(** [int(s)] for a text [s]; [None] is a [ValueError]. *)
Variable int_of_string : string -> option Z.
(** What [init_system()] returns. *)
Variable init_system : bool.

(** Lines 166 to 206: the form is read, the dates are checked and the
    request is built. *)
Definition check_form (form : gmap string string) : checked :=
  let origin := default "Seoul" (form !! "origin") in
  let destination := default "Tokyo" (form !! "destination") in
  let people := default "2" (form !! "people") in
  let budget := default "2000000" (form !! "budget") in
  let travel_style := default "" (form !! "travel_style") in
  let departure_date := default "" (form !! "departure_date") in
  let return_date := default "" (form !! "return_date") in
  if String.eqb departure_date "" || String.eqb return_date "" then
    Refused "출발일과 도착일을 모두 선택해주세요."
  else
    match day_number departure_date with
    | None => Crashed
    | Some dep_date =>
        match day_number return_date with
        | None => Crashed
        | Some ret_date =>
            let days := ret_date - dep_date + 1 in
            if days <=? 0 then Refused "도착일은 출발일보다 이후여야 합니다."
            else if 14 <? days then Refused "최대 14일까지만 계획할 수 있습니다."
            else if negb init_system then Refused "시스템 초기화 실패."
            else
              match int_of_string people with
              | None => Crashed
              | Some people =>
                  match int_of_string budget with
                  | None => Crashed
                  | Some budget =>
                      Accepted
                        (JObj [ ("origin", JStr origin);
                                ("destination", JStr destination);
                                ("departure_date", JStr departure_date);
                                ("return_date", JStr return_date);
                                ("days", JInt days);
                                ("people", JInt people);
                                ("budget", JInt budget);
                                ("travel_style", JStr travel_style);
                                ("preferences",
                                  JObj [ ("location", JStr "central location preferred");
                                         ("room_quality", JStr "high");
                                         ("service", JStr "friendly staff") ]) ])
                  end
              end
        end
    end.
End Check.

Section Links.
Variable float_repr : Q -> string.

(** The Google Flights link of lines 395 to 400. *)
Definition flights_url (params : json) : result json :=
  origin_code ← get_ params "origin";
  destination_code ← get_ params "destination";
  departure_date ← get_ params "departure";
  return_date ← get_ params "return";
  let q := "flights from " +:+ str float_repr origin_code
           +:+ " to " +:+ str float_repr destination_code
           +:+ " on " +:+ str float_repr departure_date in
  let q := if truthy return_date
           then q +:+ " return on " +:+ str float_repr return_date
           else q in
  Ok (JStr ("https://www.google.com/flights?q=" +:+ quote (strip q))).

(** Lines 389 to 404: every flight of a successful search gets the same
    link.  The flights are changed in place, so the change shows in
    [flights_data]. *)
Definition link_flights (flights_data : json) : result json :=
  ok ← get_ flights_data "success";
  if truthy ok then
    params ← get flights_data "search_params" (JObj []);
    booking_url ← flights_url params;
    flights ← get flights_data "flights" (JArr []);
    fs ← iter flights;
    fs ← mapM (λ flight, setitem flight "booking_url" booking_url) fs;
    match flights with
    | JArr (_ :: _) => setitem flights_data "flights" (JArr fs)
    | _ => Ok flights_data
    end
  else Ok flights_data.
End Links.

End Handler.

(** ** The daily forecast of the weather adapter ([tools/weather_tool.py]) *)

Module Forecast.
Import Py.

(** An entry of [day_data]. *)
Record reading : Type := {
  temp : json;
  description : json;
  main : json;
}.

(** [round(x, 1)]: an [int] stays as it is, a [float] is rounded to a
    tenth. *)
Definition round_to_tenth (x : json) : result json :=
  match x with
  | JInt z => Ok (JInt z)
  | JBool b => Ok (JInt (if b then 1 else 0))
  | JFloat q => Ok (JFloat (Reconcile.round1 q))
  | _ => Raise TypeError
  end.

(** [min] and [max] of a list of numbers: the first element that no other
    one beats. *)
Fixpoint pick (beats : Q -> Q -> bool) (best : json * Q) (l : list (json * Q)) : json :=
  match l with
  | [] => best.1
  | x :: l' => pick beats (if beats x.2 best.2 then x else best) l'
  end.

Definition Qltb (a b : Q) : bool := Qgtb b a.

(** The dictionary appended to [daily_forecast] for a day with at least one
    reading.  [sum(temps)] comes first and needs every reading to be a
    number. *)
Definition day_summary (current_date : json) (first : reading) (rest : list reading)
  : result json :=
  temps ← mapM (λ d, q ← number (temp d); Ok (temp d, q)) (first :: rest);
  match temps with
  | [] => Raise IndexError
  | t0 :: ts =>
      let total := fold_left Qplus (snd <$> temps) 0%Q in
      let temp_avg := Reconcile.round1 (total / inject_Z (Z.of_nat (length temps))) in
      temp_min ← round_to_tenth (pick Qltb t0 ts);
      temp_max ← round_to_tenth (pick Qgtb t0 ts);
      Ok (JObj [ ("date", current_date); ("temp_avg", JFloat temp_avg);
                 ("temp_min", temp_min); ("temp_max", temp_max);
                 ("description", description first); ("main", main first) ])
  end.

(** [if day_data: daily_forecast.append(...)] *)
Definition flush (current_date : json) (day_data : list reading) (daily : list json)
  : result (list json) :=
  match day_data with
  | [] => Ok daily
  | first :: rest =>
      day ← day_summary current_date first rest;
      Ok (daily ++ [day])
  end.

Section GetForecast.
(** [datetime.fromtimestamp(dt).strftime('%Y-%m-%d')]: the local date of
    a time stamp is not modelled. *)
Variable date_of_timestamp : json -> result string.

(** The state of the loop: [daily_forecast], [current_date], [day_data]. *)
Definition loop_state : Type := list json * json * list reading.

(** One round of the loop over [data['list']]. *)
Definition group_item (st : loop_state) (item : json) : result loop_state :=
  let '(daily, current_date, day_data) := st in
  dt ← getitem item "dt";
  date ← date_of_timestamp dt;
  '(daily, current_date, day_data) ←
    (if negb (py_eq current_date (JStr date)) then
       daily ← flush current_date day_data daily;
       Ok (daily, JStr date, [])
     else Ok (daily, current_date, day_data)) : result loop_state;
  m ← getitem item "main";
  t ← getitem m "temp";
  w ← getitem item "weather";
  w0 ← index w 0;
  d ← getitem w0 "description";
  w ← getitem item "weather";
  w0 ← index w 0;
  mn ← getitem w0 "main";
  Ok (daily, current_date,
      day_data ++ [ {| temp := t; description := d; main := mn |} ]).

Fixpoint group_items (st : loop_state) (items : list json) : result loop_state :=
  match items with
  | [] => Ok st
  | item :: items' => st ← group_item st item; group_items st items'
  end.

(** [get_forecast] from the parsed answer of the provider on: the body of
    its [try].  Whatever is raised in it is caught, and the adapter then
    answers with [success: False] and a text that is not modelled.  The
    number of days that is asked for plays no part. *)
Definition daily_forecast (data : json) : result json :=
  l ← getitem data "list";
  items ← iter l;
  '(daily, current_date, day_data) ← group_items ([], JNull, []) items;
  daily ← flush current_date day_data daily;
  city ← getitem data "city";
  city_name ← getitem city "name";
  city ← getitem data "city";
  country ← getitem city "country";
  Ok (JObj [ ("success", JBool true); ("city", city_name); ("country", country);
             ("forecast", JArr daily) ]).
End GetForecast.

End Forecast.


(** ** Notions used in the statements *)

Module Notions.
Import Py Agents Server.

(** *** Readers *)

(** The entries of the plan's itinerary. *)
Definition day_entries (final_plan : json) : list json :=
  match final_plan with
  | JObj kv =>
      match dict_lookup "itinerary" kv with
      | Some (JArr days) => days
      | _ => []
      end
  | _ => []
  end.

(** The list an itinerary value stands for. *)
Definition days_of (itinerary : json) : list json :=
  match itinerary with
  | JArr days => days
  | _ => []
  end.

(** The date of a forecast entry ([None] when it has none). *)
Definition date_of (entry : json) : json :=
  match entry with
  | JObj kv => default JNull (dict_lookup "date" kv)
  | _ => JNull
  end.

(** The text by which the final sort orders a forecast entry. *)
Definition date_key (entry : json) : string :=
  match get entry "date" (JStr "") with
  | Ok (JStr s) => s
  | _ => ""
  end.

(** What a run returned, if it returned a collaboration result. *)
Definition returned (run : result response * server) : option collaboration :=
  match run.1 with
  | Ok (Collaboration c) => Some c
  | _ => None
  end.

(** One entry of a printed dictionary. *)
Definition item (float_repr : Q -> string) (p : string * json) : string :=
  repr_str p.1 +:+ ": " +:+ repr float_repr p.2.

(** *** Orders of the final sort *)

Definition key_le (a b : string * json) : Prop := String.le a.1 b.1.

(** Entries in ascending order of their dates. *)
Definition by_date (a b : json) : Prop := String.le (date_key a) (date_key b).

(** *** Command histories and runs *)

(** The id of a command is its position, counted from one. *)
Definition wf (h : list command) : Prop :=
  ∀ i cmd, h !! i = Some cmd -> cmd_id cmd = S i.

Definition with_status (st : status) (res : json) (cmd : command) : command :=
  {| cmd_id := cmd_id cmd; cmd_from := cmd_from cmd; cmd_to := cmd_to cmd;
     cmd_command := cmd_command cmd; cmd_params := cmd_params cmd;
     cmd_status := st; cmd_result := res |}.

(** A run that only makes calls: nothing but the record of calls grows. *)
Record quiet (s s' : server) : Prop := {
  q_agents : agents s' = agents s;
  q_tools : tools s' = tools s;
  q_history : command_history s' = command_history s;
  q_logs : collaboration_history s' = collaboration_history s;
  q_trace : trace s `prefix_of` trace s';
}.

(** Any run: agents and tools stay; the lists only grow, and a well-formed
    command history stays well-formed. *)
Record extends (s s' : server) : Prop := {
  e_agents : agents s' = agents s;
  e_tools : tools s' = tools s;
  e_logs : collaboration_history s `prefix_of` collaboration_history s';
  e_history : wf (command_history s) ->
              command_history s `prefix_of` command_history s'
              ∧ wf (command_history s');
  e_trace : trace s `prefix_of` trace s';
}.

(** What the hotel step hands on as [hotels_data]: the adapter's answer when
    the adapter is registered and the answer is a success, the empty
    dictionary otherwise. *)
Definition hotel_search (registered : gmap string tool) (query : json) (city : string)
  : result json :=
  if bool_decide (is_Some (registered !! "hotel")) then
    params ← hotel_params query city;
    let hotel_result :=
      tool_answer registered "hotel" "search_hotels"
        (JObj (params ++ [ ("max_results", JInt 5) ])) in
    ok ← get_ hotel_result "success";
    Ok (if truthy ok then hotel_result else JObj [])
  else Ok (JObj []).

(** *** The last day and the hotel of each day *)

(** A day that ends the trip: no accommodation, and a flight home with the
    given text. *)
Definition closed_day (details : string) (day : json) : Prop :=
  ∃ acc tr,
    get_ day "accommodation" = Ok acc ∧
    get_ acc "name" = Ok (JStr "N/A") ∧
    get_ acc "estimated_cost" = Ok (JInt 0) ∧
    get_ day "transportation" = Ok tr ∧
    get_ tr "type" = Ok (JStr "비행기") ∧
    get_ tr "details" = Ok (JStr details).

(** An accommodation entry that is empty or named N/A. *)
Definition no_stay (acc : json) : bool :=
  negb (truthy acc)
  || match get_ acc "name" with
     | Ok n => py_eq n (JStr "N/A")
     | Raise _ => false
     end.

(** What the hotel repair does to one day: a day with an empty accommodation
    or one named N/A is left alone, any other gets the selected hotel. *)
Definition synced_day (selected_hotel : json) (day day' : json) : Prop :=
  ∃ acc,
    get day "accommodation" (JObj []) = Ok acc ∧
    if no_stay acc then day' = day
    else
      ∃ acc',
        get_ day' "accommodation" = Ok acc' ∧
        get_ acc' "name" = get_ selected_hotel "name" ∧
        get_ acc' "address" = get_ selected_hotel "address" ∧
        get_ acc' "type" = get_ selected_hotel "type" ∧
        get_ acc' "booking_url" = get_ selected_hotel "booking_url" ∧
        ∃ per_night, get_ acc' "estimated_cost" = Ok (JFloat per_night) ∧
                     get_ selected_hotel "per_night_cost" = Ok (JFloat per_night).

End Notions.

Module NotionsX.
Import Py Agents Server Notions.

(** *** Counting commands *)

(** [grows n s s']: the run recorded [n] commands and no log. *)
Definition grows (n : nat) (s s' : server) : Prop :=
  length (command_history s') = (length (command_history s) + n)%nat ∧
  collaboration_history s' = collaboration_history s.

(** The commands of a request that is served to the end: four for the
    agents, and one for each adapter that is registered (the weather adapter
    counts only when the request names a destination). *)
Definition commands_of_request (registered : gmap string tool) (destination : string)
  : nat :=
  (if negb (String.eqb destination "") && bool_decide (is_Some (registered !! "weather"))
   then 1 else 0)
  + (if bool_decide (is_Some (registered !! "flight")) then 1 else 0)
  + (if bool_decide (is_Some (registered !! "hotel")) then 1 else 0)
  + (if bool_decide (is_Some (registered !! "places")) then 1 else 0)
  + 4.

(** *** Commands that stay pending *)

(** The commands that ask the weather, flight and hotel adapters. *)
Definition search_commands : list string :=
  [ "GET_WEATHER_INFO"; "SEARCH_FLIGHTS"; "SEARCH_HOTELS" ].

(** A command that was completed in some way, or a search left pending. *)
Definition settled_or_search (cmd : command) : bool :=
  match cmd_status cmd with
  | pending => bool_decide (cmd_command cmd ∈ search_commands)
  | _ => true
  end.

(** [records P s s']: on a well-formed history, the run added commands at the
    end, each with the property [P], and left the history well-formed. *)
Definition records (P : command -> Prop) (s s' : server) : Prop :=
  wf (command_history s) ->
  wf (command_history s') ∧
  ∃ new, command_history s' = command_history s ++ new ∧ Forall P new.

(** *** Readers *)

(** The value of a key of a dictionary, if it has the key. *)
Definition field (d : json) (k : string) : option json :=
  match d with
  | JObj kv => dict_lookup k kv
  | _ => None
  end.

(** *** The grouping of readings by date *)

(** No two neighbours of the list are equal. *)
Definition no_repeat (l : list json) : Prop :=
  ∀ i a b, l !! i = Some a -> l !! S i = Some b -> a ≠ b.

(** The dates of the days that the loop has closed, and the date of the day
    it is collecting. *)
Definition open_dates (st : Forecast.loop_state) : list json :=
  (date_of <$> st.1.1) ++ match st.2 with [] => [] | _ => [st.1.2] end.

(** The state of the loop after the items with the dates [seen]. *)
Definition grouped (seen : list string) (st : Forecast.loop_state) : Prop :=
  no_repeat (open_dates st) ∧
  (∀ d, JStr d ∈ open_dates st <-> d ∈ seen) ∧
  Forall (λ x, ∃ d, x = JStr d) (open_dates st) ∧
  (st.2 = [] -> st.1.1 = [] ∧ st.1.2 = JNull).

(** The number that a key of a dictionary holds. *)
Definition number_at (d : json) (k : string) : result Q :=
  v ← get_ d k; number v.

(** A day whose average temperature lies between its lowest and its
    highest. *)
Definition ordered_day (day : json) : Prop :=
  ∃ temp_min temp_avg temp_max,
    number_at day "temp_min" = Ok temp_min ∧
    number_at day "temp_avg" = Ok temp_avg ∧
    number_at day "temp_max" = Ok temp_max ∧
    (temp_min <= temp_avg)%Q ∧ (temp_avg <= temp_max)%Q.

End NotionsX.


(** ** Sample data *)

Module Examples.
Import Py.

(** Stand-ins for the parts of Python that the model takes as parameters. *)
Definition show_float (q : Q) : string :=
  str_of_Z (Qnum q) +:+ "/" +:+ str_of_Z (Zpos (Qden q)).
Definition no_float (s : string) : option Q := None.
Definition two_nights (check_in check_out : string) : option Z := Some 2.

(** A day as the model writes it. *)
Definition sample_day (n : Z) (transport hotel : string) (reported : Z) : json :=
  JObj [ ("day", JInt n);
         ("transportation", JObj [ ("type", JStr transport); ("cost", JInt 10000) ]);
         ("accommodation", JObj [ ("name", JStr hotel); ("estimated_cost", JInt 90000) ]);
         ("attractions",
           JArr [ JObj [ ("name", JStr "센소지"); ("estimated_cost", JInt 1000) ] ]);
         ("meals",
           JArr [ JObj [ ("type", JStr "점심"); ("suggestion", JStr "Restaurant A") ] ]);
         ("daily_cost", JInt reported) ].

(** A two-day plan with no selected flight. *)
Definition sample_plan : json :=
  JObj [ ("destination", JStr "Tokyo, Japan"); ("days", JInt 2);
         ("itinerary",
           JArr [ sample_day 1 "비행기" "Hotel X" 11000;
                  sample_day 2 "지하철" "Hotel X" 11000 ]) ].

Definition sample_leg (from_ at_ to_ until : string) : json :=
  JObj [ ("departure", JObj [ ("airport", JStr from_); ("time", JStr at_) ]);
         ("arrival", JObj [ ("airport", JStr to_); ("time", JStr until) ]) ].

(** A flight search result with one round trip. *)
Definition sample_flights : json :=
  JObj [ ("success", JBool true);
         ("flights",
           JArr [ JObj [ ("price", JObj [ ("total", JFloat 500000); ("currency", JStr "KRW") ]);
                         ("outbound",
                           sample_leg "ICN" "2025-11-10T15:40:00" "NRT" "2025-11-10T18:05:00");
                         ("inbound",
                           sample_leg "NRT" "2025-11-11T20:00:00" "ICN" "2025-11-11T22:30:00");
                         ("validating_airline_codes", JArr [ JStr "KE" ]) ] ]) ].

(** A flight search result whose only offer is one way: the flight tool
    stores [None] as its inbound leg. *)
Definition one_way_flights : json :=
  JObj [ ("success", JBool true);
         ("flights",
           JArr [ JObj [ ("price", JObj [ ("total", JFloat 250000); ("currency", JStr "KRW") ]);
                         ("outbound",
                           sample_leg "ICN" "2025-11-10T15:40:00" "NRT" "2025-11-10T18:05:00");
                         ("inbound", JNull);
                         ("validating_airline_codes", JArr [ JStr "KE" ]) ] ]) ].

(** A hotel search result: 301 dollars for two nights. *)
Definition sample_hotels : json :=
  JObj [ ("success", JBool true);
         ("hotels",
           JArr [ JObj [ ("name", JStr "Hotel Y"); ("address", JStr "1-1 Asakusa");
                         ("rating", JStr "4");
                         ("price", JObj [ ("total", JFloat 301); ("currency", JStr "USD") ]) ] ]);
         ("search_params",
           JObj [ ("check_in", JStr "2025-11-10"); ("check_out", JStr "2025-11-12") ]) ].

Definition sample_places : json :=
  JObj [ ("success", JBool true);
         ("places",
           JArr [ JObj [ ("name", JStr "센소지");
                         ("nearby_restaurants",
                           JArr [ JObj [ ("name", JStr "스시 젠"); ("rating", JFloat (9 # 2)) ] ]) ] ]) ].

(** A flight search result with a fare of 1000.6. *)
Definition fractional_fare : json :=
  JObj [ ("success", JBool true);
         ("flights", JArr [ JObj [ ("price", JObj [ ("total", JFloat (5003 # 5)) ]) ] ]) ].

(** A two-day plan whose first day has an empty accommodation entry. *)
Definition unhoused_plan : json :=
  JObj [ ("destination", JStr "Tokyo, Japan"); ("days", JInt 2);
         ("itinerary",
           JArr [ JObj [ ("day", JInt 1);
                         ("transportation",
                           JObj [ ("type", JStr "비행기"); ("cost", JInt 10000) ]);
                         ("accommodation", JObj []);
                         ("daily_cost", JInt 11000) ];
                  sample_day 2 "지하철" "Hotel X" 11000 ]) ].

(** A search result that is a success with a number where the places
    belong. *)
Definition broken_places : json :=
  JObj [ ("success", JBool true); ("places", JInt 5) ].

(** *** A server for the examples *)

(** A parser that knows one text. *)
Definition parse_sample (text : string) : option json :=
  if String.eqb text "{}" then Some (JObj []) else None.

Definition refinement_text
    (initial_itinerary hotel_analysis weather_info places_info
       hotels_data flights_data : json) : result string :=
  Ok "refine".

(** A planner whose model always gives the same reply. *)
Definition sample_planner (reply : string) : Agents.agent :=
  Agents.planner parse_sample (λ _, reply) (λ _, Ok (JObj []))
    (λ _ _ _ _ _ _, Ok "draft").

(** A reviewer with an empty review store. *)
Definition sample_reviewer : Agents.agent :=
  Agents.reviewer parse_sample (λ _, "{}") (λ _, []) (λ _ _ _, Ok "review") show_float.

(** A hotel adapter whose search always fails. *)
Definition failing_hotel_tool : Server.tool :=
  {| Server.method := λ method_name,
       if String.eqb method_name "search_hotels"
       then Some (λ _, Server.Returns (Server.failure "no hotel found"))
       else None;
     Server.api_key := "" |}.

Definition sample_server (reply : string) : Server.server :=
  Server.register_tool "hotel" failing_hotel_tool
    (Server.register_agent "reviewer" sample_reviewer
       (Server.register_agent "planner" (sample_planner reply) Server.new_server)).

(** [process_travel_request] with the stand-ins above. *)
Definition serve (query : json) : Server.M Server.response :=
  Server.process_travel_request show_float parse_sample refinement_text query.

(** *** A weather adapter for the examples *)

Definition forecast_entry (date : string) (temp_avg : Z) : json :=
  JObj [ ("date", JStr date); ("temp_avg", JInt temp_avg) ].

(** The forecast of three days that the adapter gives, whatever is asked. *)
Definition sample_forecast : list json :=
  [ forecast_entry "2025-11-12" 9; forecast_entry "2025-11-10" 8;
    forecast_entry "2025-11-11" 7 ].

Definition sample_weather_tool : Server.tool :=
  {| Server.method := λ method_name,
       if String.eqb method_name "get_forecast"
       then Some (λ _, Server.Returns
                         (JObj [ ("success", JBool true);
                                 ("forecast", JArr sample_forecast) ]))
       else None;
     Server.api_key := "" |}.

Definition weather_server : Server.server :=
  Server.register_tool "weather" sample_weather_tool Server.new_server.

End Examples.

Module ExamplesX.
Import Py Examples.

(** A server with a planner and no reviewer. *)
Definition planner_only_server : Server.server :=
  Server.register_agent "planner" (sample_planner "{}") Server.new_server.

(** A choice that always draws the first element. *)
Definition first_choice (l : list json) : json := default (JObj []) (head l).

(** The form of scenario A, with no number of people and no budget, and
    stand-ins for the two parsers that know the texts of the form. *)
Definition scenario_form : gmap string string :=
  {[ "origin" := "Seoul"; "destination" := "Tokyo, Japan";
     "departure_date" := "2025-11-10"; "return_date" := "2025-11-13" ]}.

Definition sample_day_number (s : string) : option Z :=
  if String.eqb s "2025-11-10" then Some 20402
  else if String.eqb s "2025-11-13" then Some 20405
  else None.

Definition sample_int (s : string) : option Z :=
  if String.eqb s "2" then Some 2
  else if String.eqb s "2000000" then Some 2000000
  else None.

(** The sample flight search with the parameters of the search. *)
Definition searched_flights : json :=
  JObj [ ("success", JBool true);
         ("flights",
           JArr [ JObj [ ("price", JObj [ ("total", JFloat 500000); ("currency", JStr "KRW") ]);
                         ("outbound",
                           sample_leg "ICN" "2025-11-10T15:40:00" "NRT" "2025-11-10T18:05:00");
                         ("inbound",
                           sample_leg "NRT" "2025-11-11T20:00:00" "ICN" "2025-11-11T22:30:00");
                         ("validating_airline_codes", JArr [ JStr "KE" ]) ];
                  JObj [ ("price", JObj [ ("total", JFloat 520000); ("currency", JStr "KRW") ]) ] ]);
         ("search_params",
           JObj [ ("origin", JStr "ICN"); ("destination", JStr "NRT");
                  ("departure", JStr "2025-11-10"); ("return", JStr "2025-11-13") ]) ].

(** An answer of the forecast provider with three readings, and a stand-in
    for the local date of a time stamp: one day has 86400 seconds. *)
Definition provider_item (dt : Z) (temperature : json) (text : string) : json :=
  JObj [ ("dt", JInt dt);
         ("main", JObj [ ("temp", temperature) ]);
         ("weather", JArr [ JObj [ ("description", JStr text); ("main", JStr "Clouds") ] ]) ].

Definition provider_answer : json :=
  JObj [ ("list",
           JArr [ provider_item 0 (JFloat (41 # 4)) "cloudy";
                  provider_item 10800 (JInt 13) "clear";
                  provider_item 86400 (JFloat (15 # 2)) "rain" ]);
         ("city", JObj [ ("name", JStr "Tokyo"); ("country", JStr "JP") ]) ].

Definition sample_date (dt : json) : result string :=
  match dt with
  | JInt z => Ok (if z <? 86400 then "2025-11-10" else "2025-11-11")
  | _ => Raise TypeError
  end.

End ExamplesX.

(** * Properties *)

(** ** Arithmetic of [int(...)] *)

Module NumFacts.
Import Py.

Lemma Qgtb_lt (a b : Q) : Qgtb a b = true <-> (b < a)%Q.
Proof.
  unfold Qgtb. rewrite negb_true_iff. split.
  - intros H. apply Qnot_le_lt. intros Hle. apply Qle_bool_iff in Hle. congruence.
  - intros H. destruct (Qle_bool a b) eqn:E; [|done].
    apply Qle_bool_iff in E. exfalso. by apply (Qlt_not_le b a).
Qed.

Lemma Qgtb_le (a b : Q) : Qgtb a b = false <-> (a <= b)%Q.
Proof.
  unfold Qgtb. rewrite negb_false_iff. apply Qle_bool_iff.
Qed.

(** Truncation loses less than one. *)
Lemma trunc_above (q : Q) : (q - 1 < inject_Z (trunc q))%Q.
Proof.
  destruct q as [n d]. unfold trunc, Qlt, Qminus, Qplus, Qopp, inject_Z. simpl.
  pose proof (Pos2Z.is_pos d). Z.quot_rem_to_equations. nia.
Qed.

(** Truncation never exceeds a non-negative number. *)
Lemma trunc_below (q : Q) : (0 <= q)%Q -> (inject_Z (trunc q) <= q)%Q.
Proof.
  destruct q as [n d]. unfold trunc, Qle, inject_Z. simpl.
  pose proof (Pos2Z.is_pos d). Z.quot_rem_to_equations. nia.
Qed.

(** Truncation keeps every integer lower bound. *)
Lemma trunc_lower_bound (z : Z) (q : Q) :
  (inject_Z z <= q)%Q -> z <= trunc q.
Proof.
  destruct q as [n d]. unfold trunc, Qle, inject_Z. simpl.
  pose proof (Pos2Z.is_pos d). Z.quot_rem_to_equations. nia.
Qed.

Lemma trunc_inject (z : Z) : trunc (inject_Z z) = z.
Proof. unfold trunc, inject_Z. simpl. apply Z.quot_1_r. Qed.

Lemma trunc_add_int (q : Q) (z : Z) :
  (0 <= q)%Q -> 0 <= z -> trunc (q + inject_Z z) = trunc q + z.
Proof.
  destruct q as [n d]. unfold trunc, Qle, Qplus, inject_Z. simpl.
  intros Hn Hz. rewrite Pos.mul_1_r, Z.mul_1_r in *.
  pose proof (Pos2Z.is_pos d).
  rewrite !Z.quot_div_nonneg by nia.
  rewrite Z.div_add by lia. done.
Qed.

End NumFacts.

(** ** The error monad and dictionaries *)

Module PyFacts.
Import Py.

Lemma bind_Ok {A B} (m : result A) (f : A -> result B) (b : B) :
  m ≫= f = Ok b <-> ∃ a, m = Ok a ∧ f a = Ok b.
Proof.
  destruct m as [a|e]; simpl; split.
  - intros H. by exists a.
  - by intros (a' & [= ->] & H).
  - done.
  - by intros (a' & [=] & _).
Qed.

Lemma bind_Raise {A B} (m : result A) (f : A -> result B) (e : exn) :
  m = Raise e -> m ≫= f = Raise e.
Proof. by intros ->. Qed.

(** Splits [H : (x ← m; k) = Ok b] into the two runs. *)
Tactic Notation "inv_bind" hyp(H) "as" ident(a) ident(Ha) :=
  apply bind_Ok in H as (a & Ha & H).

Lemma mapM_length {A B} (f : A -> result B) (l : list A) (l' : list B) :
  mapM f l = Ok l' -> length l' = length l.
Proof.
  revert l'. induction l as [|x l IH]; intros l' H; simpl in H.
  - by injection H as <-.
  - inv_bind H as y Hy. inv_bind H as ys Hys. injection H as <-.
    simpl. f_equal. by apply IH.
Qed.

Lemma mapM_lookup {A B} (f : A -> result B) (l : list A) (l' : list B) (i : nat) (y : B) :
  mapM f l = Ok l' -> l' !! i = Some y -> ∃ x, l !! i = Some x ∧ f x = Ok y.
Proof.
  revert l' i. induction l as [|x l IH]; intros l' i H Hy; simpl in H.
  - injection H as <-. done.
  - inv_bind H as y' Hy'. inv_bind H as ys Hys. injection H as <-.
    destruct i as [|i]; simpl in *.
    + injection Hy as <-. by exists x.
    + by apply (IH ys).
Qed.

Lemma mapM_Forall2 {A B} (f : A -> result B) (l : list A) (l' : list B) :
  mapM f l = Ok l' <-> Forall2 (λ x y, f x = Ok y) l l'.
Proof.
  revert l'. induction l as [|x l IH]; intros l'; simpl.
  - split; [intros [= <-]; constructor|]. by intros ->%Forall2_nil_inv_l.
  - split.
    + intros H. inv_bind H as y Hy. inv_bind H as ys Hys. injection H as <-.
      constructor; [done|]. by apply IH.
    + intros (y & k & Hy & Hk & ->)%Forall2_cons_inv_l.
      rewrite Hy. simpl. apply IH in Hk. rewrite Hk. done.
Qed.

Lemma dict_lookup_set_eq (k : string) (v : json) (kv : list (string * json)) :
  dict_lookup k (dict_set k v kv) = Some v.
Proof.
  induction kv as [|[k' v'] kv IH]; simpl.
  - by rewrite String.eqb_refl.
  - destruct (String.eqb_spec k k') as [->|Hne]; simpl.
    + by rewrite String.eqb_refl.
    + destruct (String.eqb_spec k k'); [done|]. apply IH.
Qed.

Lemma dict_lookup_set_ne (k k' : string) (v : json) (kv : list (string * json)) :
  k ≠ k' -> dict_lookup k (dict_set k' v kv) = dict_lookup k kv.
Proof.
  intros Hne. induction kv as [|[k0 v0] kv IH]; simpl.
  - destruct (String.eqb_spec k k'); done.
  - destruct (String.eqb_spec k' k0) as [->|Hne']; simpl.
    + destruct (String.eqb_spec k k0); done.
    + destruct (String.eqb_spec k k0); [done|]. apply IH.
Qed.

Lemma get_Ok (d : json) (k : string) (dflt v : json) :
  get d k dflt = Ok v -> ∃ kv, d = JObj kv ∧ v = default dflt (dict_lookup k kv).
Proof. destruct d; try done. intros [= <-]. by eexists. Qed.

Lemma setitem_Ok (d : json) (k : string) (v d' : json) :
  setitem d k v = Ok d' -> ∃ kv, d = JObj kv ∧ d' = JObj (dict_set k v kv).
Proof. destruct d; try done. intros [= <-]. by eexists. Qed.

Lemma get_setitem_ne (kv : list (string * json)) (k k' : string) (v dflt : json) :
  k ≠ k' -> get (JObj (dict_set k' v kv)) k dflt = get (JObj kv) k dflt.
Proof. intros H. simpl. by rewrite dict_lookup_set_ne. Qed.

Lemma get_setitem_eq (kv : list (string * json)) (k : string) (v dflt : json) :
  get (JObj (dict_set k v kv)) k dflt = Ok v.
Proof. simpl. by rewrite dict_lookup_set_eq. Qed.

End PyFacts.

(** * Properties *)

(** ** Substring search and printing *)

Module StringFacts.
Import Py Notions.

Lemma app_nil_s (a : string) : "" +:+ a = a.
Proof. reflexivity. Qed.

Lemma app_cons_s (x : ascii) (a b : string) :
  String x a +:+ b = String x (a +:+ b).
Proof. reflexivity. Qed.

Lemma app_assoc_s (a b c : string) : (a +:+ b) +:+ c = a +:+ (b +:+ c).
Proof. induction a as [|x a IH]; [done|]. by rewrite !app_cons_s, IH. Qed.

Lemma prefix_app (n b : string) : String.prefix n (n +:+ b) = true.
Proof.
  induction n as [|c n IH].
  - by destruct b.
  - rewrite app_cons_s. simpl. rewrite IH. by destruct (Ascii.ascii_dec c c).
Qed.

Lemma prefix_split (n h : string) :
  String.prefix n h = true -> ∃ b, h = n +:+ b.
Proof.
  revert h. induction n as [|c n IH]; intros h H.
  - by exists h.
  - destruct h as [|c' h]; [done|]. simpl in H.
    destruct (Ascii.ascii_dec c c') as [->|]; [|done].
    destruct (IH h H) as [b ->]. by exists b.
Qed.

Lemma contains_prefix (n h : string) :
  String.prefix n h = true -> contains n h = true.
Proof. intros H. destruct h; unfold contains; fold contains; by rewrite H. Qed.

(** [needle in hay] holds exactly when [hay] can be cut around [needle]. *)
Lemma contains_split (n h : string) :
  contains n h = true <-> ∃ a b, h = a +:+ n +:+ b.
Proof.
  split.
  - induction h as [|c h IH]; unfold contains; fold contains; intros H.
    + rewrite orb_false_r in H. destruct (prefix_split _ _ H) as [b Hb].
      by exists "", b.
    + apply orb_true_iff in H as [H|H].
      * destruct (prefix_split _ _ H) as [b Hb]. by exists "", b.
      * destruct (IH H) as (a & b & ->). by exists (String c a), b.
  - intros (a & b & ->). induction a as [|c a IH].
    + rewrite app_nil_s. apply contains_prefix, prefix_app.
    + rewrite app_cons_s. unfold contains; fold contains.
      rewrite IH. apply orb_true_r.
Qed.

Lemma contains_app_r (n a b : string) :
  contains n b = true -> contains n (a +:+ b) = true.
Proof.
  rewrite !contains_split. intros (x & y & ->).
  exists (a +:+ x), y. by rewrite app_assoc_s.
Qed.

Lemma contains_app_l (n a b : string) :
  contains n a = true -> contains n (a +:+ b) = true.
Proof.
  rewrite !contains_split. intros (x & y & ->).
  exists x, (y +:+ b). by rewrite !app_assoc_s.
Qed.

Lemma contains_trans (a b c : string) :
  contains a b = true -> contains b c = true -> contains a c = true.
Proof.
  rewrite !contains_split. intros (x & y & ->) (u & v & ->).
  exists (u +:+ x), (y +:+ v). by rewrite !app_assoc_s.
Qed.

Lemma lower_app (a b : string) : lower (a +:+ b) = lower a +:+ lower b.
Proof.
  induction a as [|c a IH]; [done|]. rewrite app_cons_s. simpl. by rewrite IH.
Qed.

Lemma contains_lower (n h : string) :
  contains n h = true -> contains (lower n) (lower h) = true.
Proof.
  rewrite !contains_split. intros (a & b & ->).
  exists (lower a), (lower b). by rewrite !lower_app.
Qed.

Lemma contains_join (n sep x : string) (pre post : list string) :
  contains n x = true -> contains n (join sep (pre ++ x :: post)) = true.
Proof.
  intros H. induction pre as [|y pre IH].
  - destruct post; [done|]. by apply contains_app_l.
  - change (contains n (join sep (y :: (pre ++ x :: post))) = true).
    destruct (pre ++ x :: post) eqn:E; [by destruct pre|].
    by apply contains_app_r, contains_app_r.
Qed.

Section Repr.
Variable float_repr : Q -> string.

Lemma repr_obj (kv : list (string * json)) :
  repr float_repr (JObj kv) = "{" +:+ join ", " (item float_repr <$> kv) +:+ "}".
Proof.
  simpl. do 3 f_equal. induction kv as [|[k v] kv IH]; [done|].
  simpl. by rewrite IH.
Qed.

(** The printed form of a dictionary shows each of its keys, quoted. *)
Lemma repr_has_key (k : string) (kv : list (string * json)) :
  is_Some (dict_lookup k kv) ->
  contains (repr_str k) (repr float_repr (JObj kv)) = true.
Proof.
  intros Hk. rewrite repr_obj.
  assert (∃ pre v post, kv = pre ++ (k, v) :: post) as (pre & v & post & ->).
  { induction kv as [|[k' v'] kv IH]; [by destruct Hk|]. simpl in Hk.
    destruct (String.eqb_spec k k') as [->|Hne].
    - by exists [], v', kv.
    - destruct (IH Hk) as (pre & v & post & ->).
      by exists ((k', v') :: pre), v, post. }
  rewrite fmap_app, fmap_cons.
  apply contains_app_r, contains_app_l, contains_join.
  apply contains_prefix, prefix_app.
Qed.
End Repr.

End StringFacts.

(** ** The style classifier *)

Module StylistFacts.
Import Py Stylist Notions StringFacts.

(** The fold over the keywords only ever adds to the score. *)
Lemma match_keywords_mono (text : string) (kws : list string) (acc : nat * list string) :
  (acc.1 <= (fold_left (λ acc keyword,
                          if contains keyword text
                          then (S acc.1, acc.2 ++ [keyword])
                          else acc) kws acc).1)%nat.
Proof.
  revert acc. induction kws as [|k kws IH]; intros acc; simpl; [lia|].
  destruct (contains k text).
  - etrans; [|apply IH]. simpl. lia.
  - apply IH.
Qed.

Lemma match_keywords_hit (text k : string) (kws : list string) :
  k ∈ kws -> contains k text = true ->
  (1 <= (match_keywords text kws).1)%nat.
Proof.
  unfold match_keywords. generalize (0%nat, @nil string).
  induction kws as [|k' kws IH]; intros acc Hin Hc.
  - by apply not_elem_of_nil in Hin.
  - apply elem_of_cons in Hin as [->|Hin]; simpl.
    + rewrite Hc. etrans; [|apply match_keywords_mono]. simpl. lia.
    + by apply IH.
Qed.

Lemma max_by_ge_best {A} (key : A -> nat) (best : A) (l : list A) :
  (key best <= key (max_by key best l))%nat.
Proof.
  revert best. induction l as [|y l IH]; intros best; simpl; [lia|].
  destruct (key best <? key y)%nat eqn:E.
  - apply Nat.ltb_lt in E. etrans; [|apply IH]. lia.
  - apply IH.
Qed.

Lemma max_by_ge {A} (key : A -> nat) (best : A) (l : list A) (x : A) :
  x ∈ l -> (key x <= key (max_by key best l))%nat.
Proof.
  revert best. induction l as [|y l IH]; intros best Hin.
  - by apply not_elem_of_nil in Hin.
  - apply elem_of_cons in Hin as [->|Hin]; simpl.
    + etrans; [|apply max_by_ge_best].
      destruct (key best <? key y)%nat eqn:E; [lia|].
      apply Nat.ltb_ge in E. lia.
    + by apply IH.
Qed.

Section Facts.
Variable float_repr : Q -> string.

(** A request that carries a budget always matches the keyword "budget" of
    the backpacker style: its printed form shows the key. *)
Lemma budget_key_scores (kv : list (string * json)) :
  is_Some (dict_lookup "budget" kv) ->
  (1 <= score (scores_of (style_scores float_repr (JObj kv)) backpacker))%nat.
Proof.
  intros Hk.
  change (scores_of (style_scores float_repr (JObj kv)) backpacker)
    with (score_style (lower (repr float_repr (JObj kv))) backpacker_info).
  apply (match_keywords_hit _ "budget"); [set_solver|].
  apply (contains_trans _ (lower (repr_str "budget"))); [done|].
  apply contains_lower, repr_has_key, Hk.
Qed.

(** So the fallback, and with it a "cultural" or "luxury" answer with no
    matched keyword, is out of reach for every request with a budget. *)
Lemma budget_key_confident (kv : list (string * json)) (r : style_analysis) :
  is_Some (dict_lookup "budget" kv) ->
  analyze_travel_style float_repr (JObj kv) = Ok r ->
  (1 <= confidence r)%nat.
Proof.
  intros Hk. unfold analyze_travel_style.
  pose proof (budget_key_scores kv Hk) as Hs.
  assert ((backpacker, scores_of (style_scores float_repr (JObj kv)) backpacker)
            ∈ style_scores float_repr (JObj kv)) as Hin.
  { apply list_elem_of_fmap. exists (backpacker, backpacker_info).
    split; [reflexivity|]. unfold travel_styles. set_solver. }
  set (e := scores_of (style_scores float_repr (JObj kv)) backpacker) in Hs, Hin.
  clearbody e. revert Hin.
  generalize (style_scores float_repr (JObj kv)). intros scores Hin.
  destruct scores as [|p rest]; [by apply not_elem_of_nil in Hin|].
  cbv zeta. set (primary := max_by _ p rest).
  assert (1 <= score primary.2)%nat as Hp.
  { etrans; [exact Hs|]. apply elem_of_cons in Hin as [Heq|Hin].
    - subst p. exact (max_by_ge_best (λ p, score p.2) (backpacker, e) rest).
    - exact (max_by_ge (λ p, score p.2) p rest _ Hin). }
  destruct (score primary.2 =? 0)%nat eqn:E; [apply Nat.eqb_eq in E; lia|].
  intros [= <-]. done.
Qed.

(** The fallback itself follows the order of the specification. *)
Lemma fallback_order (kv : list (string * json)) (people budget : Z) :
  default (JInt 1) (dict_lookup "people" kv) = JInt people ->
  default (JInt 0) (dict_lookup "budget" kv) = JInt budget ->
  fallback_style (JObj kv) =
    Ok (if (3 <=? people)%Z then family
        else if (3000000 <=? budget)%Z then luxury
        else if (budget <=? 1000000)%Z then backpacker
        else cultural).
Proof.
  intros Hp Hb. unfold fallback_style. simpl. rewrite Hp, Hb. simpl.
  unfold Qgeb, Qle_bool. simpl. rewrite !Z.mul_1_r.
  destruct (3 <=? people)%Z; [done|]. simpl.
  destruct (3000000 <=? budget)%Z; [done|]. simpl.
  by destruct (budget <=? 1000000)%Z.
Qed.
End Facts.

(** C6 (what the code does on the request of the claim).  The text that is
    searched for keywords is the printed dictionary, and it holds the key
    ['budget'], a keyword of the backpacker style.  A request of two people
    with a budget of 2,000,000 therefore scores one for that style: the
    answer is backpacker with confidence 1 and the matched keyword "budget",
    not the fallback's cultural with no matched keyword.  The same holds for
    the full request of scenario A. *)
Theorem C6_budget_request_is_backpacker (float_repr : Q -> string) :
  let answer query :=
    r ← analyze_travel_style float_repr query;
    Ok (primary_style r, style_name r, confidence r, matched r) in
  answer (JObj [ ("people", JInt 2); ("budget", JInt 2000000) ])
  = Ok (backpacker, "백패킹", 1%nat, [ "budget" ]) ∧
  answer scenario_A = Ok (backpacker, "백패킹", 1%nat, [ "budget" ]).
Proof. split; vm_compute; reflexivity. Qed.

End StylistFacts.

(** ** Daily cost and budget summary *)

Module CostFacts.
Import Py PyFacts NumFacts Reconcile Notions Examples.

Section Facts.
Variable float_of_string : string -> option Q.

(** [line_items] does not read the key that the recomputation writes. *)
Lemma line_items_daily_cost (kv : list (string * json)) (v : json) :
  line_items (JObj (dict_set "daily_cost" v kv)) = line_items (JObj kv).
Proof.
  unfold line_items. by rewrite !get_setitem_ne.
Qed.

Lemma recompute_daily_cost_inv (day day' : json) :
  recompute_daily_cost day = Ok day' ->
  ∃ kv sum reported,
    day = JObj kv ∧ line_items day = Ok sum ∧
    get day "daily_cost" (JFloat sum) ≫= number = Ok reported ∧
    day' = JObj (dict_set "daily_cost"
                   (JInt (trunc (if Qgtb reported sum then reported else sum))) kv).
Proof.
  unfold recompute_daily_cost. intros H.
  inv_bind H as sum Hsum. inv_bind H as llm Hllm. inv_bind H as reported Hrep.
  apply setitem_Ok in H as (kv & -> & ->).
  exists kv, sum, reported. split_and!; [done|done| |done].
  rewrite Hllm. simpl. done.
Qed.
End Facts.

(** What the recomputation does to one day. *)
Lemma recompute_daily_cost_spec (day day' : json) :
  recompute_daily_cost day = Ok day' ->
  ∃ (sum reported : Q) (daily : Z),
    line_items day = Ok sum ∧
    line_items day' = Ok sum ∧
    get day "daily_cost" (JFloat sum) ≫= number = Ok reported ∧
    get_ day' "daily_cost" = Ok (JInt daily) ∧
    daily = trunc (if Qgtb reported sum then reported else sum) ∧
    (sum - 1 < inject_Z daily)%Q ∧
    (∀ z : Z, (sum == inject_Z z)%Q -> z <= daily) ∧
    ((sum < reported)%Q -> daily = trunc reported).
Proof.
  intros H. apply recompute_daily_cost_inv in H as (kv & sum & reported & -> & Hs & Hr & ->).
  exists sum, reported, (trunc (if Qgtb reported sum then reported else sum)).
  split_and!; try done.
  - by rewrite line_items_daily_cost.
  - unfold get_. by rewrite get_setitem_eq.
  - destruct (Qgtb reported sum) eqn:E.
    + apply Qgtb_lt in E. eapply Qlt_trans; [|apply trunc_above].
      unfold Qminus. apply Qplus_lt_l. done.
    + apply trunc_above.
  - intros z Hz. apply trunc_lower_bound. rewrite <- Hz.
    destruct (Qgtb reported sum) eqn:E; [|apply Qle_refl].
    apply Qgtb_lt in E. by apply Qlt_le_weak.
  - intros Hlt. apply Qgtb_lt in Hlt. by rewrite Hlt.
Qed.




Section Budget.
Variable float_of_string : string -> option Q.

(** [raw_hotel_total] reads nothing of the plan but its selected hotel. *)
Lemma raw_hotel_total_breakdown (hotels_data bb : json) (kv : list (string * json)) :
  raw_hotel_total float_of_string hotels_data (JObj (dict_set "budget_breakdown" bb kv))
  = raw_hotel_total float_of_string hotels_data (JObj kv).
Proof. unfold raw_hotel_total, get_. by rewrite get_setitem_ne. Qed.

End Budget.



End CostFacts.

(** ** Merging forecasts *)

Module WeatherFacts.
Import Py PyFacts Weather Notions Examples.

Lemma hashed_Ok (d d' : json) : hashed d = Ok d' -> d' = d ∧ hashable d = true.
Proof. unfold hashed. destruct (hashable d); [by intros [= <-]|done]. Qed.

(** [==] holds between a hashable value and itself. *)
Lemma py_eq_refl (d : json) : hashable d = true -> py_eq d d = true.
Proof.
  destruct d as [|b|z|q|s|l|kv]; try done; intros _.
  - by destruct b.
  - apply (proj2 (Qeq_bool_iff (inject_Z z) (inject_Z z))). reflexivity.
  - apply (proj2 (Qeq_bool_iff q q)). reflexivity.
  - apply String.eqb_refl.
Qed.

Lemma not_in_set (d : json) (set : list json) :
  hashable d = true -> in_set d set = false -> d ∉ set.
Proof.
  intros Hd Hin Hel. unfold in_set in Hin.
  assert (existsb (py_eq d) set = true) as H; [|congruence].
  apply existsb_exists. exists d. split; [by apply list_elem_of_In|by apply py_eq_refl].
Qed.

Lemma getitem_date (f d : json) : getitem f "date" = Ok d -> date_of f = d.
Proof.
  destruct f; try done. simpl. destruct (dict_lookup "date" kv); [|done].
  by intros [= ->].
Qed.

Lemma get_date (f d : json) : get_ f "date" = Ok d -> date_of f = d.
Proof. destruct f; try done. simpl. by intros [= ->]. Qed.

Lemma date_set_spec (elems existing : list json) :
  date_set elems = Ok existing -> existing = date_of <$> elems.
Proof.
  unfold date_set. revert existing.
  induction elems as [|f elems IH]; intros existing H; simpl in H.
  - by injection H as <-.
  - inv_bind H as d Hd. inv_bind H as ds Hds. injection H as <-.
    inv_bind Hd as d0 Hd0.
    apply hashed_Ok in Hd as [-> _]. apply getitem_date in Hd0.
    rewrite fmap_cons, Hd0. f_equal. by apply IH.
Qed.

(** The loop over the supplementary forecast only appends, and only entries
    whose date is new. *)
Lemma merge_new_spec (news fl existing result : list json) :
  merge_new true news fl existing = Ok result ->
  existing = date_of <$> fl ->
  ∃ added,
    result = fl ++ added ∧ added `sublist_of` news ∧
    Forall (λ a, date_of a ∉ existing) added ∧
    (NoDup existing -> NoDup (date_of <$> result)).
Proof.
  revert fl existing. induction news as [|new_f news IH]; intros fl existing H He.
  - simpl in H. injection H as <-. exists []. rewrite app_nil_r.
    split_and!; [done|done|constructor|by rewrite He].
  - simpl in H. inv_bind H as a Ha. inv_bind H as a' Ha'.
    apply hashed_Ok in Ha' as [-> Hh]. apply get_date in Ha.
    destruct (in_set a existing) eqn:Hin.
    + destruct (IH _ _ H He) as (added & -> & Hsub & Hnew & Hnd).
      exists added. split_and!; [done| |done|done]. by apply sublist_cons.
    + apply not_in_set in Hin; [|done].
      destruct (IH (fl ++ [new_f]) (existing ++ [a]) H) as (added & -> & Hsub & Hnew & Hnd).
      { rewrite fmap_app, He. simpl. by rewrite Ha. }
      exists (new_f :: added). split_and!.
      * by rewrite <- app_assoc.
      * by apply sublist_skip.
      * constructor; [by rewrite Ha|].
        eapply Forall_impl; [exact Hnew|]. intros x Hx Hin'. apply Hx.
        apply elem_of_app. by left.
      * intros Hex. apply Hnd. apply NoDup_app. split_and!; [done| |apply NoDup_singleton].
        intros x Hx ->%list_elem_of_singleton. done.
Qed.

(** *** The final sort *)

Lemma insert_by_key_perm (x : string * json) (l : list (string * json)) :
  insert_by_key x l ≡ₚ x :: l.
Proof.
  induction l as [|y l IH]; simpl; [done|].
  destruct (String.leb y.1 x.1); [|done].
  rewrite IH. apply Permutation_swap.
Qed.

Lemma insert_by_key_sorted (x : string * json) (l : list (string * json)) :
  Sorted key_le l -> Sorted key_le (insert_by_key x l).
Proof.
  induction 1 as [|y l Hs IH Hhd]; simpl.
  - repeat constructor.
  - destruct (String.leb y.1 x.1) eqn:E.
    + constructor; [done|].
      destruct l as [|z l]; simpl.
      * constructor. unfold key_le, String.le. by rewrite E.
      * destruct (String.leb z.1 x.1).
        -- constructor. by apply HdRel_inv in Hhd.
        -- constructor. unfold key_le, String.le. by rewrite E.
    + constructor; [by constructor|]. constructor.
      unfold key_le, String.le.
      destruct (String.leb_total x.1 y.1) as [->|H]; [done|congruence].
Qed.

Lemma sort_keyed_perm (l : list (string * json)) : sort_keyed l ≡ₚ l.
Proof.
  unfold sort_keyed.
  assert (∀ acc, fold_left (λ acc x, insert_by_key x acc) l acc ≡ₚ acc ++ l) as H.
  { induction l as [|x l IH]; intros acc; simpl; [by rewrite app_nil_r|].
    rewrite IH, insert_by_key_perm. simpl. apply Permutation_middle. }
  by rewrite H.
Qed.

Lemma sort_keyed_sorted (l : list (string * json)) : Sorted key_le (sort_keyed l).
Proof.
  unfold sort_keyed.
  assert (∀ acc, Sorted key_le acc ->
                 Sorted key_le (fold_left (λ acc x, insert_by_key x acc) l acc)) as H.
  { induction l as [|x l IH]; intros acc Hacc; simpl; [done|].
    by apply IH, insert_by_key_sorted. }
  apply H. constructor.
Qed.

#[local] Instance by_date_trans : Transitive by_date.
Proof. intros a b c. unfold by_date. apply transitivity. Qed.

Lemma keyed_of (l : list json) (keyed : list (json * json)) (skeyed : list (string * json)) :
  mapM (λ x, k ← get x "date" (JStr ""); Ok (k, x)) l = Ok keyed ->
  mapM str_key keyed = Ok skeyed ->
  skeyed = (λ x, (date_key x, x)) <$> l.
Proof.
  revert keyed skeyed. induction l as [|x l IH]; intros keyed skeyed Hk Hs; simpl in Hk.
  - injection Hk as <-. simpl in Hs. by injection Hs as <-.
  - inv_bind Hk as p Hp. inv_bind Hk as ps Hps. injection Hk as <-.
    inv_bind Hp as k Hget. injection Hp as <-.
    simpl in Hs. inv_bind Hs as q Hq. inv_bind Hs as qs Hqs. injection Hs as <-.
    rewrite fmap_cons. f_equal; [|by eapply IH].
    unfold str_key in Hq. simpl in Hq. unfold date_key. rewrite Hget.
    destruct k; try done. by injection Hq as <-.
Qed.

Lemma sorted_fmap_snd (l : list (string * json)) :
  Forall (λ p, p.1 = date_key p.2) l ->
  Sorted key_le l -> Sorted by_date (snd <$> l).
Proof.
  intros Hall Hs. induction Hs as [|y l Hs IH Hhd]; simpl; [constructor|].
  apply Forall_cons in Hall as [Hy Hall].
  constructor; [by apply IH|].
  destruct Hhd as [|z l Hyz]; simpl; constructor.
  apply Forall_cons in Hall as [Hz _].
  unfold by_date. rewrite <- Hy, <- Hz. done.
Qed.

Lemma sort_by_date_spec (l sorted : list json) :
  sort_by_date l = Ok sorted ->
  sorted ≡ₚ l ∧ StronglySorted by_date sorted.
Proof.
  unfold sort_by_date. intros H. inv_bind H as keyed Hk.
  destruct keyed as [|p [|p' keyed]].
  - injection H as <-. apply mapM_length in Hk. destruct l; [|done].
    split; [done|constructor].
  - injection H as <-. apply mapM_length in Hk.
    destruct l as [|x [|y l]]; try done. split; [done|].
    repeat constructor.
  - inv_bind H as skeyed Hsk. injection H as <-.
    pose proof (keyed_of _ _ _ Hk Hsk) as ->.
    split.
    + rewrite sort_keyed_perm, <- list_fmap_compose.
      by rewrite list_fmap_id.
    + apply Sorted_StronglySorted; [apply by_date_trans|].
      apply sorted_fmap_snd; [|apply sort_keyed_sorted].
      rewrite sort_keyed_perm. apply Forall_fmap, Forall_forall. done.
Qed.

(** The merge of an original forecast with a supplementary one. *)
Lemma merge_forecast_spec (orig : list json) (new_forecast r : json) :
  merge_forecast (JArr orig) new_forecast = Ok r ->
  ∃ news added l,
    iter new_forecast = Ok news ∧ r = JArr l ∧
    l ≡ₚ orig ++ added ∧ added `sublist_of` news ∧
    Forall (λ a, date_of a ∉ date_of <$> orig) added ∧
    StronglySorted by_date l ∧
    (NoDup (date_of <$> orig) -> NoDup (date_of <$> l)).
Proof.
  unfold merge_forecast. intros H. simpl in H.
  inv_bind H as existing Hex. inv_bind H as news Hnews.
  inv_bind H as merged Hm. inv_bind H as sorted Hsort. injection H as <-.
  apply date_set_spec in Hex as ->.
  destruct (merge_new_spec _ _ _ _ Hm eq_refl) as (added & -> & Hsub & Hnew & Hnd).
  destruct (sort_by_date_spec _ _ Hsort) as [Hperm Hs].
  exists news, added, sorted. split_and!; try done.
  intros Ho. rewrite Hperm. by apply Hnd.
Qed.

End WeatherFacts.

(** ** Runs of the server *)

Module ServerFacts.
Import Py PyFacts Agents Server Notions Examples WeatherFacts.

(** *** The monad of server computations *)

Lemma bindM_inv {A B} (m : M A) (f : A -> M B) (s s' : server) (r : result B) :
  (m ≫= f) s = (r, s') ->
  (∃ a s1, m s = (Ok a, s1) ∧ f a s1 = (r, s'))
  ∨ (∃ e, m s = (Raise e, s') ∧ r = Raise e).
Proof.
  unfold mbind, M_bind. destruct (m s) as [[a|e] s1]; intros H.
  - left. by exists a, s1.
  - right. injection H as <- <-. by exists e.
Qed.

Lemma bindM_Ok {A B} (m : M A) (f : A -> M B) (s s' : server) (b : B) :
  (m ≫= f) s = (Ok b, s') ->
  ∃ a s1, m s = (Ok a, s1) ∧ f a s1 = (Ok b, s').
Proof.
  intros [H|(e & _ & [=])]%bindM_inv. done.
Qed.

Lemma L_inv {A} (x r : result A) (s s' : server) :
  L x s = (r, s') -> r = x ∧ s' = s.
Proof. by intros [= <- <-]. Qed.

(** Splits [H : (x ← m; k) s = (Ok b, s')] into the two runs. *)
Tactic Notation "inv_run" hyp(H) "as" ident(a) ident(s1) ident(Ha) :=
  apply bindM_Ok in H as (a & s1 & Ha & H).

(** Splits a run of [x ← L r; k], which leaves the server as it is. *)
Tactic Notation "inv_pure" hyp(H) "as" ident(a) ident(Ha) :=
  let s1 := fresh "s" in
  apply bindM_Ok in H as (a & s1 & Ha & H);
  apply L_inv in Ha as [Ha ->]; symmetry in Ha.

(** *** Well-formed command histories *)

Lemma wf_nil : wf [].
Proof. intros i cmd H. done. Qed.

Lemma wf_snoc (h : list command) (cmd : command) :
  wf h -> cmd_id cmd = S (length h) -> wf (h ++ [cmd]).
Proof.
  intros Hh Hc i c Hi. apply lookup_app_Some in Hi as [Hi|[Hlen Hi]].
  - by apply Hh.
  - apply list_lookup_singleton_Some in Hi as [Hi ->]. rewrite Hc. lia.
Qed.

Lemma complete_in_app (id : nat) (st : status) (res : json) (h l : list command) :
  Forall (λ c, cmd_id c ≠ id) h ->
  complete_in id st res (h ++ l) = h ++ complete_in id st res l.
Proof.
  induction 1 as [|c h Hc Hh IH]; simpl; [done|].
  destruct (cmd_id c =? id)%nat eqn:E; [by apply Nat.eqb_eq in E|].
  by rewrite IH.
Qed.

Lemma wf_ids (h : list command) : wf h -> Forall (λ c, cmd_id c ≠ S (length h)) h.
Proof.
  intros Hh. apply Forall_lookup. intros i c Hi.
  rewrite (Hh i c Hi). apply lookup_lt_Some in Hi. lia.
Qed.

(** Completing the command that was sent last changes that entry alone. *)
Lemma complete_in_last (h : list command) (cmd : command) (st : status) (res : json) :
  wf h -> cmd_id cmd = S (length h) ->
  complete_in (cmd_id cmd) st res (h ++ [cmd]) = h ++ [with_status st res cmd].
Proof.
  intros Hh Hc. rewrite complete_in_app by (rewrite Hc; by apply wf_ids).
  simpl. by rewrite Nat.eqb_refl.
Qed.

(** *** What a run may change *)

#[local] Instance quiet_refl : Reflexive quiet.
Proof. intros s. by split. Qed.

#[local] Instance quiet_trans : Transitive quiet.
Proof.
  intros s1 s2 s3 [] []. split; try congruence. by etrans.
Qed.

#[local] Instance extends_refl : Reflexive extends.
Proof. intros s. by split. Qed.

#[local] Instance extends_trans : Transitive extends.
Proof.
  intros s1 s2 s3 [Ha1 Ht1 Hl1 Hh1 Hr1] [Ha2 Ht2 Hl2 Hh2 Hr2].
  split; try congruence; try (by etrans).
  intros Hwf. destruct (Hh1 Hwf) as [Hp1 Hwf2]. destruct (Hh2 Hwf2) as [Hp2 Hwf3].
  split; [by etrans|done].
Qed.

Lemma quiet_extends (s s' : server) : quiet s s' -> extends s s'.
Proof. intros []. split; try done. - by rewrite q_logs0. - by rewrite q_history0. Qed.

Lemma quiet_event (e : event) (s : server) : quiet s (add_event e s).
Proof. split; try done. simpl. by apply prefix_app_r. Qed.

Lemma extends_log (l : collaboration_log) (s : server) : extends s (add_log l s).
Proof. split; try done. simpl. by apply prefix_app_r. Qed.

(** A command is sent and, after calls only, possibly completed. *)
Lemma extends_sent (s s1 : server) (cmd : command) :
  quiet (set_history (command_history s ++ [cmd]) s) s1 ->
  cmd_id cmd = (length (command_history s) + 1)%nat ->
  extends s s1.
Proof.
  intros [] Hid. simpl in *. split; try done.
  - by rewrite q_logs0.
  - intros Hwf. rewrite q_history0. split; [by apply prefix_app_r|].
    apply wf_snoc; [done|]. lia.
Qed.

Lemma extends_completed (s s1 s2 : server) (id : nat) (cmd : command)
    (st : status) (res : json) (h1 : list command) :
  quiet (set_history (complete_in id st res h1) s1) s2 ->
  h1 = command_history s1 ->
  quiet (set_history (command_history s ++ [cmd]) s) s1 ->
  cmd_id cmd = (length (command_history s) + 1)%nat ->
  id = cmd_id cmd ->
  extends s s2.
Proof.
  intros [] -> [] Hid ->. simpl in *. split; try congruence.
  - rewrite q_logs0, q_logs1. done.
  - intros Hwf. rewrite q_history0, q_history1.
    rewrite complete_in_last by (done || lia).
    split; [by apply prefix_app_r|]. apply wf_snoc; [done|]. simpl. lia.
  - by etrans.
Qed.

(** *** Runs of the primitive operations *)

Lemma call_api_tool_run (tool_name method_name : string) (kwargs : json) (s : server) :
  call_api_tool tool_name method_name kwargs s
  = (Ok (tool_answer (tools s) tool_name method_name kwargs),
     add_event (ToolCall tool_name method_name kwargs) s).
Proof. reflexivity. Qed.

Lemma agent_process_run (agent_name : string) (a : agent) (request : json) (s : server) :
  agent_process agent_name a request s
  = (process a request, add_event (AgentProcess agent_name request) s).
Proof. reflexivity. Qed.

Lemma agent_generate_run (agent_name : string) (a : agent) (prompt : string) (s : server) :
  agent_generate agent_name a prompt s
  = (Ok (generate_response a prompt), add_event (AgentGenerate agent_name prompt) s).
Proof. reflexivity. Qed.

Lemma send_command_run (from_agent to_agent command_name : string) (params : json)
    (s : server) :
  send_command from_agent to_agent command_name params s
  = (Ok {| cmd_id := length (command_history s) + 1;
           cmd_from := from_agent; cmd_to := to_agent;
           cmd_command := command_name; cmd_params := params;
           cmd_status := pending; cmd_result := JNull |},
     set_history
       (command_history s
        ++ [ {| cmd_id := length (command_history s) + 1;
                cmd_from := from_agent; cmd_to := to_agent;
                cmd_command := command_name; cmd_params := params;
                cmd_status := pending; cmd_result := JNull |} ]) s).
Proof. reflexivity. Qed.

Lemma complete_command_run (command_id : nat) (st : status) (res : json) (s : server) :
  complete_command command_id st res s
  = (Ok tt, set_history (complete_in command_id st res (command_history s)) s).
Proof. reflexivity. Qed.

(** One step of a run: the first operation of a sequence is taken apart; an
    operation of the server is replaced by what it does. *)
Ltac run_prim Hm :=
  lazymatch type of Hm with
  | (if ?c then _ else _) _ = _ => destruct c eqn:?; run_prim Hm
  | L _ _ = _ => apply L_inv in Hm as [Hm ->]; symmetry in Hm
  | state _ = _ => first [discriminate Hm | injection Hm as <- <-]
  | update _ _ = _ => first [discriminate Hm | injection Hm as <- <-]
  | mret _ _ = _ => first [discriminate Hm | injection Hm as <- <-]
  | send_command _ _ _ _ _ = _ =>
      rewrite send_command_run in Hm; first [discriminate Hm | injection Hm as <- <-]
  | complete_command _ _ _ _ = _ =>
      rewrite complete_command_run in Hm; first [discriminate Hm | injection Hm as <- <-]
  | call_api_tool _ _ _ _ = _ =>
      rewrite call_api_tool_run in Hm; first [discriminate Hm | injection Hm as <- <-]
  | agent_generate _ _ _ _ = _ =>
      rewrite agent_generate_run in Hm; first [discriminate Hm | injection Hm as <- <-]
  | agent_process _ _ _ _ = _ =>
      rewrite agent_process_run in Hm; injection Hm as Hm <-; symmetry in Hm
  | _ => idtac
  end.

Ltac run_step H :=
  lazymatch type of H with
  | (mbind _ _) _ = _ =>
      let a := fresh "a" in
      let s1 := fresh "s" in
      let Hm := fresh "Hm" in
      let e := fresh "e" in
      let Hr := fresh "Hr" in
      apply bindM_inv in H as [(a & s1 & Hm & H)|(e & Hm & Hr)];
      [run_prim Hm | first [discriminate Hr | subst; run_prim Hm]]
  | mret _ _ = _ => first [discriminate H | injection H as <- <-]
  | (if ?c then _ else _) _ = _ => destruct c eqn:?
  | (match ?x with _ => _ end) _ = _ => destruct x eqn:?
  | L _ _ = _ => apply L_inv in H as [-> ->]
  | _ => progress run_prim H
  end.

Ltac run H := repeat run_step H.

Create HintDb run.
#[local] Hint Resolve quiet_event quiet_extends : run.
#[local] Hint Extern 1 (quiet _ _) => reflexivity : run.
#[local] Hint Extern 2 (quiet _ (add_event _ _)) => (etrans; [|apply quiet_event]) : run.
#[local] Hint Extern 3 (quiet _ ?s) =>
  match goal with H : quiet _ s |- _ => etrans; [|exact H] end : run.

(** The end of a run of a step: the server it leaves extends the one it
    started from. *)
Ltac ext_leaf :=
  first [ reflexivity
        | by (apply quiet_extends; eauto 10 with run)
        | by (eapply extends_completed;
              [eauto 10 with run | reflexivity | eauto 10 with run
              | reflexivity | reflexivity])
        | by (eapply extends_sent; [eauto 10 with run | reflexivity]) ].

Section Steps.
Variable float_repr : Q -> string.
Variable json_loads : string -> option json.
Variable create_refinement_prompt :
  json -> json -> json -> json -> json -> json -> result string.

(** The supplementary forecast makes calls only. *)
Lemma complete_forecast_quiet (query : json) (city : string) (forecast_list : json)
    (s s' : server) (r : result json) :
  complete_forecast query city forecast_list s = (r, s') -> quiet s s'.
Proof.
  unfold complete_forecast. intros H. run H; auto with run.
Qed.

Lemma weather_step_extends (query : json) (destination city : string)
    (departure_date return_date : json) (log : list (string * json))
    (s s' : server) (r : result (list (string * json))) :
  weather_step float_repr query destination city departure_date return_date log s
  = (r, s') -> extends s s'.
Proof.
  unfold weather_step. intros H. run H;
    repeat match goal with
           | H : complete_forecast _ _ _ _ = _ |- _ =>
               apply complete_forecast_quiet in H
           end; ext_leaf.
Qed.

Lemma flight_step_extends (query : json) (city : string) (log : list (string * json))
    (s s' : server) (r : result (list (string * json) * json)) :
  flight_step query city log s = (r, s') -> extends s s'.
Proof. unfold flight_step. intros H. run H; ext_leaf. Qed.

Lemma hotel_step_extends (query : json) (city : string) (log : list (string * json))
    (s s' : server) (r : result (list (string * json) * json)) :
  hotel_step query city log s = (r, s') -> extends s s'.
Proof. unfold hotel_step. intros H. run H; ext_leaf. Qed.

Lemma style_step_extends (query : json) (s s' : server) (r : result json) :
  style_step float_repr query s = (r, s') -> extends s s'.
Proof. unfold style_step. intros H. run H; ext_leaf. Qed.

Lemma with_restaurants_quiet (key : string) (place : json) (s s' : server)
    (r : result json) :
  with_restaurants float_repr key place s = (r, s') -> quiet s s'.
Proof. unfold with_restaurants. intros H. run H; auto with run. Qed.

Lemma for_each_quiet {A B} (f : A -> M B) (l : list A) :
  (∀ x s s' r, f x s = (r, s') -> quiet s s') ->
  ∀ s s' r, for_each f l s = (r, s') -> quiet s s'.
Proof.
  intros Hf. induction l as [|x l IH]; intros s s' r H; simpl in H.
  - run H. reflexivity.
  - run H.
    + apply Hf in Hm. apply IH in Hm0. by etrans.
    + apply Hf in Hm. apply IH in Hm0. by etrans.
    + by apply Hf in Hm.
Qed.

Lemma places_step_extends (destination : string) (log : list (string * json))
    (s s' : server) (r : result (list (string * json))) :
  places_step float_repr destination log s = (r, s') -> extends s s'.
Proof.
  unfold places_step. intros H. run H;
    repeat match goal with
           | H : for_each _ _ _ = _ |- _ =>
               apply (for_each_quiet _ _ (with_restaurants_quiet _)) in H
           end; ext_leaf.
Qed.

(** *** The refinement step *)

(** What the run of a completed refinement step leaves behind. *)
Lemma refinement_step_run (planner : agent)
    (initial_itinerary hotel_analysis hotels_data flights_data : json)
    (log : list (string * json)) (s s' : server) (final_itinerary : json) :
  refinement_step json_loads create_refinement_prompt planner initial_itinerary
    hotel_analysis hotels_data flights_data log s = (Ok final_itinerary, s') ->
  wf (command_history s) ->
  ∃ prompt cmd3,
    trace s' = trace s ++ [AgentGenerate "planner" prompt] ∧
    command_history s' = command_history s ++ [cmd3] ∧
    cmd_command cmd3 = "REQUEST_REFINEMENT" ∧
    cmd_id cmd3 = S (length (command_history s)) ∧
    match json_loads (generate_response planner prompt) with
    | None =>
        final_itinerary = initial_itinerary ∧
        cmd_status cmd3 = completed_with_warning
    | Some parsed =>
        final_itinerary = parsed ∧ cmd_status cmd3 = completed
    end.
Proof.
  unfold refinement_step. intros H Hwf. run H.
  - eexists _, _. simpl. split; [done|]. split.
    { apply (complete_in_last _
               {| cmd_id := length (command_history s) + 1;
                  cmd_command := "REQUEST_REFINEMENT" |}); [done|simpl; lia]. }
    simpl. rewrite Heqo. split_and!; [done|lia|done|done].
  - eexists _, _. simpl. split; [done|]. split.
    { apply (complete_in_last _
               {| cmd_id := length (command_history s) + 1;
                  cmd_command := "REQUEST_REFINEMENT" |}); [done|simpl; lia]. }
    simpl. rewrite Heqo. split_and!; [done|lia|done|done].
Qed.

Lemma refinement_step_extends (planner : agent)
    (initial_itinerary hotel_analysis hotels_data flights_data : json)
    (log : list (string * json)) (s s' : server) (r : result json) :
  refinement_step json_loads create_refinement_prompt planner initial_itinerary
    hotel_analysis hotels_data flights_data log s = (r, s') ->
  extends s s'.
Proof. unfold refinement_step. intros H. run H; ext_leaf. Qed.

(** *** The review and what follows it *)

(** What the run of a completed review leaves behind: the reviewer was
    handed the hotels of [hotels_data], the planner was asked once more, and
    two commands were recorded. *)
Lemma review_and_refine_run (query : json) (planner : agent)
    (style_analysis initial_itinerary hotels_data flights_data : json)
    (log : list (string * json)) (s s' : server) (c : collaboration) :
  review_and_refine json_loads create_refinement_prompt query planner style_analysis
    initial_itinerary hotels_data flights_data log s = (Ok (Collaboration c), s') ->
  wf (command_history s) ->
  ∃ reviewer hotels preferences destination prompt cmd2 cmd3,
    agents s !! "reviewer" = Some reviewer ∧
    get hotels_data "hotels" (JArr []) = Ok hotels ∧
    get_ query "preferences" = Ok preferences ∧
    get_ query "destination" = Ok destination ∧
    trace s' = trace s ++
      [ AgentProcess "reviewer"
          (JObj [ ("hotels", hotels); ("preferences", preferences);
                  ("destination", destination) ]);
        AgentGenerate "planner" prompt ] ∧
    command_history s' = command_history s ++ [cmd2; cmd3] ∧
    cmd_command cmd2 = "ANALYZE_HOTELS" ∧
    cmd_command cmd3 = "REQUEST_REFINEMENT" ∧
    r_initial_itinerary c = initial_itinerary ∧
    r_hotel_info c = hotels_data ∧
    log_mcp_commands (r_collaboration_log c) = ServerHistory ∧
    match json_loads (generate_response planner prompt) with
    | None =>
        r_final_itinerary c = initial_itinerary ∧
        cmd_status cmd3 = completed_with_warning
    | Some parsed =>
        r_final_itinerary c = parsed ∧ cmd_status cmd3 = completed
    end.
Proof.
  unfold review_and_refine. intros H Hwf. run H.
  match goal with
  | Hs : refinement_step _ _ _ _ _ _ _ _ _ = _ |- _ =>
      apply refinement_step_run in Hs as (prompt & cmd3 & Ht & Hh & Hc & Hid & Hj)
  end.
  - simpl in *. rewrite Ht, Hh.
    rewrite (complete_in_last _
               {| cmd_id := length (command_history s) + 1;
                  cmd_command := "ANALYZE_HOTELS" |}) by (done || simpl; lia).
    rewrite <- !(assoc_L (++)). simpl.
    eexists _, _, _, _, prompt, _, cmd3.
    split_and!; try eassumption; try reflexivity.
  - simpl.
    rewrite (complete_in_last _
               {| cmd_id := length (command_history s) + 1;
                  cmd_command := "ANALYZE_HOTELS" |}) by (done || simpl; lia).
    apply wf_snoc; [done|]. simpl. lia.
Qed.

Lemma review_and_refine_extends (query : json) (planner : agent)
    (style_analysis initial_itinerary hotels_data flights_data : json)
    (log : list (string * json)) (s s' : server) (r : result response) :
  review_and_refine json_loads create_refinement_prompt query planner style_analysis
    initial_itinerary hotels_data flights_data log s = (r, s') ->
  extends s s'.
Proof.
  unfold review_and_refine. intros H. run H;
    try match goal with
        | Hs : refinement_step _ _ _ _ _ _ _ _ _ = _ |- _ =>
            apply refinement_step_extends in Hs
        end;
    try ext_leaf;
    try (etrans; [|apply extends_log]);
    (etrans; [|eassumption]); ext_leaf.
Qed.

(** *** The hotel search *)

(** What a completed hotel step hands on as [hotels_data]. *)
Lemma hotel_step_data (query : json) (city : string) (log log' : list (string * json))
    (hotels_data : json) (s s' : server) :
  hotel_step query city log s = (Ok (log', hotels_data), s') ->
  hotel_search (tools s) query city = Ok hotels_data.
Proof.
  unfold hotel_step, hotel_search. intros H. run H; try done;
    match goal with
    | Hp : hotel_params _ _ = _, Hok : get_ _ "success" = _, Ht : truthy _ = _ |- _ =>
        rewrite Hp; simpl; rewrite Hok; simpl; by rewrite Ht
    end.
Qed.

(** *** The whole request *)

Lemma draft_and_refine_extends (query : json) (destination : string)
    (style_analysis hotels_data flights_data : json) (log : list (string * json))
    (s s' : server) (r : result response) :
  draft_and_refine float_repr json_loads create_refinement_prompt query destination
    style_analysis hotels_data flights_data log s = (r, s') ->
  extends s s'.
Proof.
  unfold draft_and_refine. intros H. run H;
    repeat match goal with
           | Hs : places_step _ _ _ _ = _ |- _ => apply places_step_extends in Hs
           | Hs : review_and_refine _ _ _ _ _ _ _ _ _ _ = _ |- _ =>
               apply review_and_refine_extends in Hs
           end;
    try ext_leaf;
    repeat (etrans; [|eassumption]); ext_leaf.
Qed.

(** A completed request went through the review, from a server that
    extends the one the request started on. *)
Lemma draft_and_refine_run (query : json) (destination : string)
    (style_analysis hotels_data flights_data : json) (log : list (string * json))
    (s s' : server) (c : collaboration) :
  draft_and_refine float_repr json_loads create_refinement_prompt query destination
    style_analysis hotels_data flights_data log s = (Ok (Collaboration c), s') ->
  ∃ planner initial_itinerary log' s1,
    agents s !! "planner" = Some planner ∧
    extends s s1 ∧
    review_and_refine json_loads create_refinement_prompt query planner
      style_analysis initial_itinerary hotels_data flights_data log' s1
    = (Ok (Collaboration c), s').
Proof.
  unfold draft_and_refine. intros H. run H.
  match goal with
  | Hs : places_step _ _ _ _ = _ |- _ => apply places_step_extends in Hs
  end.
  eexists _, _, _, _. split; [eassumption|]. split; [|eassumption].
  etrans; [|eassumption]. ext_leaf.
Qed.

Lemma process_travel_request_extends (query : json) (s s' : server)
    (r : result response) :
  process_travel_request float_repr json_loads create_refinement_prompt query s
  = (r, s') ->
  extends s s'.
Proof.
  unfold process_travel_request. intros H. run H;
    repeat match goal with
           | Hs : weather_step _ _ _ _ _ _ _ _ = _ |- _ =>
               apply weather_step_extends in Hs
           | Hs : flight_step _ _ _ _ = _ |- _ => apply flight_step_extends in Hs
           | Hs : hotel_step _ _ _ _ = _ |- _ => apply hotel_step_extends in Hs
           | Hs : style_step _ _ _ = _ |- _ => apply style_step_extends in Hs
           | Hs : draft_and_refine _ _ _ _ _ _ _ _ _ _ = _ |- _ =>
               apply draft_and_refine_extends in Hs
           end;
    try reflexivity; repeat (etrans; [|eassumption]); try reflexivity; eassumption.
Qed.

(** A completed request: the hotel data is what the hotel search gave, and
    the run ends with the review, started on a server that extends the
    first one. *)
Lemma process_travel_request_run (query : json) (s s' : server) (c : collaboration) :
  process_travel_request float_repr json_loads create_refinement_prompt query s
  = (Ok (Collaboration c), s') ->
  ∃ destination planner style_analysis initial_itinerary hotels_data flights_data
    log s1,
    get query "destination" (JStr "") ≫= as_str = Ok destination ∧
    hotel_search (tools s) query (strip (split_first destination)) = Ok hotels_data ∧
    agents s !! "planner" = Some planner ∧
    extends s s1 ∧
    review_and_refine json_loads create_refinement_prompt query planner
      style_analysis initial_itinerary hotels_data flights_data log s1
    = (Ok (Collaboration c), s').
Proof.
  unfold process_travel_request. intros H. run H.
  apply draft_and_refine_run in H
    as (planner & initial_itinerary & log' & s_review & Hp & He & H).
  repeat match goal with
         | Hs : weather_step _ _ _ _ _ _ _ _ = _ |- _ =>
             apply weather_step_extends in Hs
         | Hs : flight_step _ _ _ _ = _ |- _ => apply flight_step_extends in Hs
         | Hs : style_step _ _ _ = _ |- _ => apply style_step_extends in Hs
         end.
  match goal with
  | Hs : hotel_step _ _ _ ?s1 = (_, ?s2) |- _ =>
      assert (extends s s1) as Hs1 by (by etrans);
      assert (extends s1 s2) as Hs2 by (by apply hotel_step_extends in Hs);
      apply hotel_step_data in Hs; rewrite (e_tools _ _ Hs1) in Hs
  end.
  match goal with
  | Hd : get query "destination" _ = _, Ha : as_str _ = Ok ?d |- _ =>
      exists d; eexists planner, _, initial_itinerary, _, _, log', s_review;
      split; [by rewrite Hd|]
  end.
  split; [eassumption|].
  split; [|split; [|exact H]].
  - assert (extends s s3) as Hs3 by (by do 2 (etrans; [|eassumption])).
    by rewrite <- (e_agents _ _ Hs3).
  - by do 3 (etrans; [|eassumption]).
Qed.

(** *** The claims about the whole request *)

(** C1.  On every run that returns a result, the last call is the
    planner's refinement and the last command is REQUEST_REFINEMENT.  When
    the planner's reply does not parse, the final itinerary is the initial
    itinerary and the command is completed with a warning; when it parses,
    the final itinerary is the parsed reply and the command is completed. *)
Theorem C1_refinement_falls_back_to_draft (query : json) (s s' : server)
    (c : collaboration) :
  process_travel_request float_repr json_loads create_refinement_prompt query s
  = (Ok (Collaboration c), s') ->
  wf (command_history s) ->
  ∃ planner prompt cmd3,
    agents s !! "planner" = Some planner ∧
    last (trace s') = Some (AgentGenerate "planner" prompt) ∧
    last (command_history s') = Some cmd3 ∧
    cmd_command cmd3 = "REQUEST_REFINEMENT" ∧
    match json_loads (generate_response planner prompt) with
    | None =>
        r_final_itinerary c = r_initial_itinerary c ∧
        cmd_status cmd3 = completed_with_warning
    | Some parsed =>
        r_final_itinerary c = parsed ∧ cmd_status cmd3 = completed
    end.
Proof.
  intros H Hwf.
  apply process_travel_request_run in H
    as (destination & planner & style & initial & hotels_data & flights_data
        & log & s1 & _ & _ & Hp & He & H).
  apply review_and_refine_run in H
    as (reviewer & hotels & preferences & dest & prompt & cmd2 & cmd3
        & _ & _ & _ & _ & Ht & Hh & _ & Hc & Hi & _ & _ & Hj);
    [|by apply (e_history _ _ He)].
  exists planner, prompt, cmd3. split; [done|].
  split; [rewrite Ht; by rewrite (last_app_cons _ [_])|].
  split; [rewrite Hh; by rewrite (last_app_cons _ [_])|].
  split; [done|]. by rewrite Hi.
Qed.


(** C10.  The command history belongs to the server: over two successive
    requests it only grows, the id of every command stays its position in
    the history (counted from one), so the commands of the second request
    are numbered after all those of the first, and the command list of
    each returned log is the list the server holds, with the records of
    both requests. *)
Theorem C10_history_is_kept_across_requests (query1 query2 : json)
    (s0 s1 s2 : server) (c1 c2 : collaboration) :
  process_travel_request float_repr json_loads create_refinement_prompt query1 s0
  = (Ok (Collaboration c1), s1) ->
  process_travel_request float_repr json_loads create_refinement_prompt query2 s1
  = (Ok (Collaboration c2), s2) ->
  wf (command_history s0) ->
  ∃ first second,
    command_history s1 = command_history s0 ++ first ∧
    command_history s2 = command_history s1 ++ second ∧
    first ≠ [] ∧ second ≠ [] ∧
    wf (command_history s2) ∧
    Forall (λ cmd, length (command_history s1) < cmd_id cmd)%nat second ∧
    mcp_commands s1 (r_collaboration_log c1) = command_history s1 ∧
    mcp_commands s2 (r_collaboration_log c2) = command_history s2 ∧
    mcp_commands s2 (r_collaboration_log c1) = command_history s2.
Proof.
  intros H1 H2 Hwf.
  pose proof (process_travel_request_extends _ _ _ _ H1) as He1.
  pose proof (process_travel_request_extends _ _ _ _ H2) as He2.
  destruct (e_history _ _ He1 Hwf) as [[first Hf] Hwf1].
  destruct (e_history _ _ He2 Hwf1) as [[second Hs] Hwf2].
  assert (∀ q s s' c,
            process_travel_request float_repr json_loads create_refinement_prompt q s
            = (Ok (Collaboration c), s') ->
            wf (command_history s) ->
            length (command_history s) < length (command_history s')
            ∧ log_mcp_commands (r_collaboration_log c) = ServerHistory)%nat as Hrun.
  { intros q s s' c H Hw.
    apply process_travel_request_run in H
      as (destination & planner & style & initial & hotels_data & flights_data
          & log & s3 & _ & _ & _ & He & H).
    destruct (e_history _ _ He Hw) as [[l Hl] Hw3].
    apply review_and_refine_run in H
      as (reviewer & hotels & preferences & dest & prompt & cmd2 & cmd3
          & _ & _ & _ & _ & _ & Hh & _ & _ & _ & _ & Hm & _); [|done].
    split; [|done]. rewrite Hh, Hl, !length_app. simpl. lia. }
  destruct (Hrun _ _ _ _ H1 Hwf) as [Hlt1 Hm1].
  destruct (Hrun _ _ _ _ H2 Hwf1) as [Hlt2 Hm2].
  exists first, second. unfold mcp_commands. rewrite Hm1, Hm2.
  split_and!; try done.
  - intros ->. rewrite Hf, app_nil_r in Hlt1. lia.
  - intros ->. rewrite Hs, app_nil_r in Hlt2. lia.
  - apply Forall_lookup. intros i cmd Hi.
    rewrite (Hwf2 (length (command_history s1) + i)%nat cmd); [lia|].
    rewrite Hs. by rewrite lookup_app_r, Nat.add_comm, Nat.add_sub by lia.
Qed.

(** *** The supplementary forecast *)

End Steps.

(** The statement of C1 on the sample server, whose planner replies with a
    text that does not parse. *)
Lemma C1_witness :
  ∃ c s' planner prompt cmd3,
    serve Stylist.scenario_A (sample_server "no json")
    = (Ok (Collaboration c), s') ∧
    agents (sample_server "no json") !! "planner" = Some planner ∧
    last (trace s') = Some (AgentGenerate "planner" prompt) ∧
    last (command_history s') = Some cmd3 ∧
    cmd_command cmd3 = "REQUEST_REFINEMENT" ∧
    match parse_sample (generate_response planner prompt) with
    | None =>
        r_final_itinerary c = r_initial_itinerary c ∧
        cmd_status cmd3 = completed_with_warning
    | Some parsed =>
        r_final_itinerary c = parsed ∧ cmd_status cmd3 = completed
    end.
Proof.
  pose (run := serve Stylist.scenario_A (sample_server "no json")).
  assert (∃ c, run = (Ok (Collaboration c), run.2)) as [c Hc]
    by (eexists; vm_compute; reflexivity).
  destruct (C1_refinement_falls_back_to_draft _ _ _ _ _ _ c Hc wf_nil)
    as (planner & prompt & cmd3 & H).
  exists c, run.2, planner, prompt, cmd3. exact (conj Hc H).
Defined.



(** The statement of C10 on two requests served one after the other by the
    sample server. *)
Lemma C10_witness :
  ∃ c1 c2 s1 s2 first second,
    serve Stylist.scenario_A (sample_server "{}") = (Ok (Collaboration c1), s1) ∧
    serve Stylist.scenario_A s1 = (Ok (Collaboration c2), s2) ∧
    command_history s1 = command_history (sample_server "{}") ++ first ∧
    command_history s2 = command_history s1 ++ second ∧
    first ≠ [] ∧ second ≠ [] ∧
    wf (command_history s2) ∧
    Forall (λ cmd, length (command_history s1) < cmd_id cmd)%nat second ∧
    mcp_commands s1 (r_collaboration_log c1) = command_history s1 ∧
    mcp_commands s2 (r_collaboration_log c2) = command_history s2 ∧
    mcp_commands s2 (r_collaboration_log c1) = command_history s2.
Proof.
  pose (run1 := serve Stylist.scenario_A (sample_server "{}")).
  pose (run2 := serve Stylist.scenario_A run1.2).
  assert (∃ c, run1 = (Ok (Collaboration c), run1.2)) as [c1 H1]
    by (eexists; vm_compute; reflexivity).
  assert (∃ c, run2 = (Ok (Collaboration c), run2.2)) as [c2 H2]
    by (eexists; vm_compute; reflexivity).
  destruct (C10_history_is_kept_across_requests _ _ _ _ _ _ _ _ c1 c2 H1 H2 wf_nil)
    as (first & second & H).
  exists c1, c2, run1.2, run2.2, first, second. exact (conj H1 (conj H2 H)).
Defined.



End ServerFacts.

(** ** The repairs of the final itinerary *)

Module ReconcileFacts.
Import Py PyFacts NumFacts Reconcile Notions Examples.

(** *** The day entries of a plan *)

Lemma day_entries_get (final_plan itinerary : json) :
  get_ final_plan "itinerary" = Ok itinerary ->
  day_entries final_plan = days_of itinerary.
Proof.
  destruct final_plan; try done. intros [= <-]. simpl.
  by destruct (dict_lookup "itinerary" kv) as [[]|].
Qed.

Lemma day_entries_setitem (final_plan final_plan' itinerary : json) :
  setitem final_plan "itinerary" itinerary = Ok final_plan' ->
  day_entries final_plan' = days_of itinerary.
Proof.
  intros (kv & -> & ->)%setitem_Ok. simpl. rewrite dict_lookup_set_eq.
  by destruct itinerary.
Qed.

Lemma day_entries_setitem_ne (final_plan final_plan' : json) (k : string) (v : json) :
  k ≠ "itinerary" ->
  setitem final_plan k v = Ok final_plan' ->
  day_entries final_plan' = day_entries final_plan.
Proof.
  intros Hk (kv & -> & ->)%setitem_Ok. simpl.
  by rewrite dict_lookup_set_ne.
Qed.

Lemma get_itinerary_setitem_ne (final_plan final_plan' : json) (k : string) (v : json) :
  k ≠ "itinerary" ->
  setitem final_plan k v = Ok final_plan' ->
  get_ final_plan' "itinerary" = get_ final_plan "itinerary".
Proof.
  intros Hk (kv & -> & ->)%setitem_Ok. unfold get_. by rewrite get_setitem_ne.
Qed.

Section Facts.
Variable float_repr : Q -> string.
Variable float_of_string : string -> option Q.
Variable days_between : string -> string -> option Z.

(** *** No repair adds or removes a day *)

Lemma loop_in_place_length {S} (body : S -> json -> json * S * option exn)
    (st : S) (l : list json) :
  length (loop_in_place body st l).1.1 = length l.
Proof.
  revert st. induction l as [|x l IH]; intros st; simpl; [done|].
  destruct (body st x) as [[x' st'] [e|]]; simpl; [done|].
  specialize (IH st'). destruct (loop_in_place body st' l) as [[l'' st''] e].
  simpl in *. by rewrite IH.
Qed.

Lemma restaurant_repair_days (places_info final_plan : json) :
  length (day_entries (restaurant_repair float_repr places_info final_plan))
  = length (day_entries final_plan).
Proof.
  unfold restaurant_repair, restaurant_body.
  destruct (get_ places_info "success") as [ok|e]; simpl; [|done].
  destruct (if truthy ok then get_ places_info "places" else Ok JNull)
    as [ps|e]; simpl; [|done].
  destruct (if truthy ok && truthy ps then get_ final_plan "itinerary" else Ok JNull)
    as [it|e] eqn:Hit; simpl; [|done].
  destruct (truthy ok && truthy ps && truthy it) eqn:Hc; simpl; [|done].
  destruct (all_restaurants places_info) as [rs|e]; simpl; [|done].
  destruct (truthy ok && truthy ps); [|by destruct it].
  destruct it as [| | | | |days|]; simpl;
    try done; try (by repeat case_match).
  pose proof (loop_in_place_length (fix_day float_repr rs) 0%nat days) as Hlen.
  destruct (loop_in_place (fix_day float_repr rs) 0%nat days) as [[days' idx] e].
  simpl in *. rewrite (day_entries_get _ _ Hit). simpl.
  destruct final_plan; try done. simpl. rewrite dict_lookup_set_eq. done.
Qed.

Lemma flight_repair_days (flights_data final_plan final_plan' : json) :
  flight_repair float_repr flights_data final_plan = Ok final_plan' ->
  day_entries final_plan' = day_entries final_plan.
Proof.
  unfold flight_repair. intros H.
  inv_bind H as selected_flight Hsf. inv_bind H as ok Hok. inv_bind H as fl Hfl.
  destruct (truthy ok && truthy fl); [|by injection H as <-].
  inv_bind H as top Htop. inv_bind H as ob Hob. inv_bind H as missing Hmiss.
  destruct missing; [|by injection H as <-].
  repeat (let x := fresh "x" in let Hx := fresh "Hx" in inv_bind H as x Hx).
  by apply day_entries_setitem_ne in H.
Qed.

Lemma for_days_length (f : json -> result json) (final_plan itinerary final_plan' : json) :
  get_ final_plan "itinerary" = Ok itinerary ->
  for_days f final_plan itinerary = Ok final_plan' ->
  length (day_entries final_plan') = length (day_entries final_plan).
Proof.
  unfold for_days. intros Hit H.
  inv_bind H as days Hdays. inv_bind H as days' Hmap.
  rewrite (day_entries_get _ _ Hit).
  destruct itinerary; try (by injection H as <-; rewrite (day_entries_get _ _ Hit)).
  apply day_entries_setitem in H as ->. injection Hdays as <-.
  by apply mapM_length in Hmap.
Qed.

Lemma hotel_repair_days (hotels_data final_plan final_plan' : json) :
  hotel_repair float_repr float_of_string days_between hotels_data final_plan
  = Ok final_plan' ->
  length (day_entries final_plan') = length (day_entries final_plan).
Proof.
  unfold hotel_repair. intros H.
  inv_bind H as ok Hok. inv_bind H as hs Hhs.
  destruct (truthy ok && truthy hs); [|by injection H as <-].
  inv_bind H as top Htop. inv_bind H as nh Hnh. destruct nh as [normalized per_night].
  inv_bind H as plan1 Hplan1. inv_bind H as it Hit.
  apply day_entries_setitem_ne in Hplan1 as <-; [|done].
  destruct (truthy it); [|by injection H as <-].
  by eapply for_days_length.
Qed.

Lemma update_at_inv (itinerary itinerary' : json) (i : nat) (f : json -> result json) :
  update_at itinerary i f = Ok itinerary' ->
  ∃ l d d',
    itinerary = JArr l ∧ l !! i = Some d ∧ f d = Ok d' ∧
    itinerary' = JArr (<[i := d']> l).
Proof.
  unfold update_at. intros H. destruct itinerary as [| | | | |l|];
    try (inv_bind H as d Hd; inv_bind H as d' Hd'; done).
  destruct (l !! i) as [d|] eqn:Hi; [|done].
  inv_bind H as d' Hd'. injection H as <-. by exists l, d, d'.
Qed.

(** The booking links leave each day as it is or add the link to its
    accommodation. *)
Lemma link_hotel_inv (final_plan itinerary final_plan' itinerary' : json) :
  link_hotel float_repr final_plan itinerary = Ok (final_plan', itinerary') ->
  ∃ hotel_name booking_url,
    Forall2 (λ day day',
               day' = day ∨ link_accommodation hotel_name booking_url day = Ok day')
      (days_of itinerary) (days_of itinerary').
Proof.
  unfold link_hotel. intros H.
  inv_bind H as selected_hotel Hsh. inv_bind H as hotel_name Hn.
  exists hotel_name.
  destruct (truthy hotel_name).
  - inv_bind H as dest Hd. inv_bind H as dest' Hd'.
    inv_bind H as sh Hs. inv_bind H as plan1 Hp.
    inv_bind H as days Hdays. inv_bind H as days' Hmap. injection H as <- <-.
    exists (hotel_search_url float_repr hotel_name (strip (split_first dest'))).
    destruct itinerary; simpl; try (by constructor).
    injection Hdays as <-. apply mapM_Forall2 in Hmap.
    eapply Forall2_impl; [exact Hmap|]. intros day day' Hday. by right.
  - injection H as <- <-. exists JNull.
    apply Forall2_same_length_lookup. split; [done|].
    intros i d d' H1 H2. left. congruence.
Qed.

Lemma for_days_inv (f : json -> result json) (final_plan itinerary final_plan' : json) :
  setitem final_plan "itinerary" itinerary = Ok final_plan ->
  for_days f final_plan itinerary = Ok final_plan' ->
  mapM f (days_of itinerary) = Ok (day_entries final_plan').
Proof.
  unfold for_days. intros Hset H.
  inv_bind H as days Hdays. inv_bind H as days' Hmap.
  destruct itinerary;
    try (injection H as <-; by rewrite (day_entries_setitem _ _ _ Hset)).
  injection Hdays as <-. apply day_entries_setitem in H as ->. done.
Qed.

Lemma setitem_idem (d d' : json) (k : string) (v : json) :
  setitem d k v = Ok d' -> setitem d' k v = Ok d'.
Proof.
  intros (kv & -> & ->)%setitem_Ok. simpl. f_equal. f_equal.
  induction kv as [|[k' v'] kv IH]; simpl.
  - by rewrite String.eqb_refl.
  - destruct (String.eqb_spec k k') as [->|Hne]; simpl.
    + by rewrite String.eqb_refl.
    + destruct (String.eqb_spec k k'); [done|]. by rewrite IH.
Qed.

Lemma transport_and_cost_days (flights_data final_plan final_plan' : json) :
  transport_and_cost float_repr flights_data final_plan = Ok final_plan' ->
  length (day_entries final_plan') = length (day_entries final_plan).
Proof.
  unfold transport_and_cost. intros H.
  inv_bind H as days Hdays. inv_bind H as d Hd. inv_bind H as it Hit.
  inv_bind H as sf Hsf.
  destruct (Qgtb d 1) eqn:Hd1; simpl in H; [|by injection H as <-].
  destruct (truthy it && truthy sf) eqn:Hg; [|by injection H as <-].
  inv_bind H as url Hurl. inv_bind H as selected_flight Hsel.
  inv_bind H as plan1 Hplan1. inv_bind H as n Hn. inv_bind H as ob Hob.
  inv_bind H as it1 Hit1. inv_bind H as ib Hib. inv_bind H as p2 Hp2.
  destruct p2 as [plan2 it2]. inv_bind H as plan3 Hplan3.
  apply for_days_inv in H; [|by eapply setitem_idem].
  apply mapM_length in H. rewrite H, (day_entries_get _ _ Hit).
  assert (length (days_of it1) = length (days_of it)) as <-.
  { destruct ((0 <? n)%nat && truthy ob); [|by injection Hit1 as <-].
    apply update_at_inv in Hit1 as (l & d0 & d' & -> & _ & _ & ->).
    simpl. by rewrite length_insert. }
  destruct (Qgtb (inject_Z (Z.of_nat n)) (d - 1) && truthy ib);
    [|by injection Hp2 as <- <-].
  inv_bind Hp2 as i Hi. inv_bind Hp2 as it' Hit'.
  apply link_hotel_inv in Hp2 as (hotel_name & booking_url & Hall).
  apply Forall2_length in Hall. rewrite <- Hall.
  apply update_at_inv in Hit' as (l & d0 & d' & -> & _ & _ & ->).
  simpl. by rewrite length_insert.
Qed.

(** *** The last day *)

Lemma py_eq_str (x : json) (s : string) : py_eq x (JStr s) = true <-> x = JStr s.
Proof.
  destruct x; simpl; try (split; [done|discriminate]).
  destruct (String.eqb_spec s0 s); split; congruence.
Qed.

Lemma inject_inbound_closed (selected_flight inbound day day' : json) :
  inject_inbound float_repr selected_flight day = Ok day' ->
  get_ selected_flight "inbound" = Ok inbound ->
  closed_day ("귀국편: " +:+ str float_repr inbound) day'.
Proof.
  unfold inject_inbound. intros H Hin.
  inv_bind H as tr Htr. inv_bind H as cost Hcost. inv_bind H as ib Hib.
  inv_bind H as airline Ha. inv_bind H as fno Hf. inv_bind H as url Hu.
  inv_bind H as day1 Hd1.
  apply setitem_Ok in Hd1 as (kv & -> & ->). injection H as <-.
  assert (ib = inbound) as ->.
  { destruct selected_flight; try done. simpl in *.
    destruct (dict_lookup "inbound" kv0); simpl in *; congruence. }
  eexists _, _. unfold get_. rewrite get_setitem_eq.
  split; [reflexivity|]. split; [reflexivity|]. split; [reflexivity|].
  rewrite get_setitem_ne, get_setitem_eq by done.
  split_and!; reflexivity.
Qed.

Lemma link_accommodation_closed (hotel_name booking_url : json) (details : string)
    (day day' : json) :
  link_accommodation hotel_name booking_url day = Ok day' ->
  closed_day details day -> closed_day details day'.
Proof.
  unfold link_accommodation. intros H (acc & tr & Hacc & Hn & Hc & Htr & Hty & Hde).
  inv_bind H as acc0 Hacc0. inv_bind H as n Hn0.
  destruct (py_eq n hotel_name); [|by injection H as <-; exists acc, tr].
  inv_bind H as acc1 Hacc1. inv_bind H as acc2 Hacc2.
  apply setitem_Ok in H as (kv & -> & ->).
  apply setitem_Ok in Hacc2 as (kva & -> & ->).
  assert (acc = JObj kva) as ->.
  { simpl in *. destruct (dict_lookup "accommodation" kv); simpl in *; congruence. }
  exists (JObj (dict_set "booking_url" booking_url kva)), tr.
  unfold get_ in *. rewrite get_setitem_eq, !get_setitem_ne by done.
  done.
Qed.

Lemma recompute_daily_cost_closed (details : string) (day day' : json) :
  recompute_daily_cost day = Ok day' ->
  closed_day details day -> closed_day details day'.
Proof.
  unfold recompute_daily_cost. intros H (acc & tr & Hacc & Hn & Hc & Htr & Hty & Hde).
  inv_bind H as sum Hsum. inv_bind H as llm Hllm. inv_bind H as reported Hrep.
  apply setitem_Ok in H as (kv & -> & ->).
  exists acc, tr. unfold get_ in *. by rewrite !get_setitem_ne.
Qed.

(** When the guard of the last-day rewrite holds, entry [days - 1] ends the
    trip. *)
Lemma transport_and_cost_last_day (flights_data final_plan final_plan' : json)
    (d : Z) (l : list json) (selected_flight inbound : json) :
  transport_and_cost float_repr flights_data final_plan = Ok final_plan' ->
  get final_plan "days" (JInt 0) = Ok (JInt d) ->
  1 < d ->
  get_ final_plan "itinerary" = Ok (JArr l) ->
  d <= Z.of_nat (length l) ->
  get_ final_plan "selected_flight" = Ok selected_flight ->
  truthy selected_flight = true ->
  get_ selected_flight "inbound" = Ok inbound ->
  truthy inbound = true ->
  ∃ last,
    day_entries final_plan' !! Z.to_nat (d - 1) = Some last ∧
    closed_day ("귀국편: " +:+ str float_repr inbound) last.
Proof.
  unfold transport_and_cost. intros H Hdays Hd Hit Hlen Hsf Hsft Hin Hint.
  assert (Qgtb (inject_Z d) 1 = true) as Hd1.
  { apply Qgtb_lt. unfold Qlt, inject_Z. simpl. lia. }
  assert (truthy (JArr l) = true) as Hl.
  { destruct l; [simpl in Hlen; lia|done]. }
  inv_bind H as days Hdays'. rewrite Hdays in Hdays'. injection Hdays' as <-.
  inv_bind H as q Hq. injection Hq as <-.
  rewrite Hd1 in H. inv_bind H as it Hit'. rewrite Hit in Hit'. injection Hit' as <-.
  rewrite Hl in H. inv_bind H as sf Hsf'. simpl in Hsf'.
  rewrite Hsf in Hsf'. injection Hsf' as <-.
  rewrite Hsft in H. simpl "&&" in H. cbv iota in H.
  inv_bind H as url Hurl. inv_bind H as sf' Hsel.
  inv_bind H as plan1 Hplan1. inv_bind H as n Hn. injection Hn as <-.
  inv_bind H as ob Hob. inv_bind H as it1 Hit1.
  apply setitem_Ok in Hsel as (kvf & -> & ->).
  assert (get_ (JObj (dict_set "booking_url" url kvf)) "inbound" = Ok inbound) as Hin'.
  { unfold get_ in *. by rewrite get_setitem_ne. }
  assert (Qgtb (inject_Z (Z.of_nat (length l))) (inject_Z d - 1) = true) as Hfits.
  { apply Qgtb_lt. unfold Qlt, Qminus, Qplus, Qopp, inject_Z. simpl. lia. }
  rewrite Hfits in H. inv_bind H as ib Hib. rewrite Hin' in Hib. injection Hib as <-.
  rewrite Hint in H. simpl "&&" in H. cbv iota in H.
  assert (∃ l1, it1 = JArr l1 ∧ length l1 = length l) as (l1 & -> & Hl1).
  { destruct ((0 <? length l)%nat && truthy ob).
    - apply update_at_inv in Hit1 as (l0 & d0 & d' & [= <-] & _ & _ & ->).
      eexists. split; [done|]. by rewrite length_insert.
    - injection Hit1 as <-. by exists l. }
  inv_bind H as p2 Hp2. destruct p2 as [plan2 it2].
  inv_bind Hp2 as i Hi0. injection Hi0 as <-.
  inv_bind Hp2 as it' Hit'. inv_bind H as plan3 Hplan3.
  apply update_at_inv in Hit' as (l0 & last0 & last1 & [= <-] & Hi & Hlast & ->).
  apply inject_inbound_closed with (inbound := inbound) in Hlast; [|done].
  apply link_hotel_inv in Hp2 as (hotel_name & booking_url & Hall).
  apply for_days_inv in H; [|by eapply setitem_idem].
  simpl in Hall.
  assert (<[Z.to_nat (d - 1) := last1]> l1 !! Z.to_nat (d - 1) = Some last1) as Hi1.
  { apply list_lookup_insert_eq. by apply lookup_lt_Some in Hi. }
  destruct (Forall2_lookup_l _ _ _ _ _ Hall Hi1) as (last2 & Hi2 & Hlast2).
  assert (closed_day ("귀국편: " +:+ str float_repr inbound) last2) as Hc2.
  { destruct Hlast2 as [->|Hlink]; [done|].
    by eapply link_accommodation_closed. }
  apply mapM_Forall2 in H.
  destruct (Forall2_lookup_l _ _ _ _ _ H Hi2) as (last3 & Hi3 & Hlast3).
  exists last3. split; [done|]. by eapply recompute_daily_cost_closed.
Qed.

(** When its guard fails, the step changes nothing. *)
Lemma transport_and_cost_skipped (flights_data final_plan final_plan' : json)
    (days itinerary selected_flight : json) (d : Q) :
  transport_and_cost float_repr flights_data final_plan = Ok final_plan' ->
  get final_plan "days" (JInt 0) = Ok days ->
  number days = Ok d ->
  get_ final_plan "itinerary" = Ok itinerary ->
  get_ final_plan "selected_flight" = Ok selected_flight ->
  Qgtb d 1 && truthy itinerary && truthy selected_flight = false ->
  final_plan' = final_plan.
Proof.
  unfold transport_and_cost. intros H Hdays Hd Hit Hsf Hg.
  rewrite Hdays in H. simpl in H. rewrite Hd in H. simpl in H.
  destruct (Qgtb d 1); simpl in *; [|by injection H as <-].
  rewrite Hit in H. simpl in H.
  destruct (truthy itinerary); simpl in *; [|by injection H as <-].
  rewrite Hsf in H. simpl in H. rewrite Hg in H. by injection H as <-.
Qed.

(** *** The hotel of each day *)

Lemma sync_accommodation_synced (normalized_hotel : json) (hotel_per_night : Q)
    (day day' : json) :
  get_ normalized_hotel "per_night_cost" = Ok (JFloat hotel_per_night) ->
  sync_accommodation normalized_hotel hotel_per_night day = Ok day' ->
  synced_day normalized_hotel day day'.
Proof.
  unfold sync_accommodation. intros Hpn H.
  inv_bind H as acc Hacc. exists acc. split; [done|].
  inv_bind H as skip Hskip. unfold no_stay.
  destruct (truthy acc) eqn:Ht; simpl in *.
  - inv_bind Hskip as n Hn. injection Hskip as <-. rewrite Hn.
    destruct (py_eq n (JStr "N/A")) eqn:E; [by injection H as <-|].
    inv_bind H as hname Hname. inv_bind H as address Haddr.
    inv_bind H as type Htype. inv_bind H as booking_url Hurl.
    apply setitem_Ok in H as (kv & -> & ->).
    eexists. unfold get_. rewrite get_setitem_eq. split; [done|].
    destruct normalized_hotel as [| | | | | |kvh]; try done. simpl in *.
    destruct (dict_lookup "name" kvh), (dict_lookup "address" kvh),
      (dict_lookup "type" kvh), (dict_lookup "booking_url" kvh); try done.
    injection Hname as <-. injection Haddr as <-.
    injection Htype as <-. injection Hurl as <-.
    split_and!; try done. by exists hotel_per_night.
  - injection Hskip as <-. by injection H as <-.
Qed.

Lemma normalize_hotel_per_night (hotels_data api_top_hotel normalized_hotel : json)
    (hotel_per_night : Q) :
  normalize_hotel float_repr float_of_string days_between hotels_data api_top_hotel
  = Ok (normalized_hotel, hotel_per_night) ->
  get_ normalized_hotel "per_night_cost" = Ok (JFloat hotel_per_night).
Proof.
  unfold normalize_hotel. intros H.
  repeat (let x := fresh "x" in let Hx := fresh "Hx" in inv_bind H as x Hx).
  by injection H as <- <-.
Qed.

(** After a hotel search that succeeded with hotels, every day is synced
    with the selected hotel. *)
Lemma hotel_repair_synced (hotels_data final_plan final_plan' ok hs : json) :
  hotel_repair float_repr float_of_string days_between hotels_data final_plan
  = Ok final_plan' ->
  get_ hotels_data "success" = Ok ok -> truthy ok = true ->
  get_ hotels_data "hotels" = Ok hs -> truthy hs = true ->
  ∃ selected_hotel,
    get_ final_plan' "selected_hotel" = Ok selected_hotel ∧
    Forall2 (synced_day selected_hotel)
      (day_entries final_plan) (day_entries final_plan').
Proof.
  unfold hotel_repair. intros H Hok Ht Hhs Hhst.
  rewrite Hok in H. simpl in H. rewrite Ht, Hhs in H. simpl in H.
  rewrite Hhst in H. simpl in H.
  inv_bind H as top Htop. inv_bind H as nh Hnh. destruct nh as [normalized per_night].
  apply normalize_hotel_per_night in Hnh.
  inv_bind H as plan1 Hplan1. inv_bind H as it Hit.
  pose proof (day_entries_setitem_ne _ _ "selected_hotel" _ ltac:(done) Hplan1) as Hde.
  pose proof (day_entries_get _ _ Hit) as Hdit.
  pose proof Hplan1 as Hp1. apply setitem_Ok in Hp1 as (kv & -> & ->).
  exists normalized. rewrite <- Hde, Hdit.
  assert (get_ (JObj (dict_set "selected_hotel" normalized kv)) "selected_hotel"
          = Ok normalized) as Hsel by apply get_setitem_eq.
  destruct (truthy it) eqn:Hitt.
  - unfold for_days in H. inv_bind H as days Hdays. inv_bind H as days' Hmap.
    destruct it as [| | | | |l|]; try discriminate Hdays;
      try (injection H as <-; rewrite Hdit; split; [done|constructor]).
    injection Hdays as <-.
    pose proof (day_entries_setitem _ _ _ H) as ->.
    apply setitem_Ok in H as (kv' & [= <-] & ->).
    split; [unfold get_; by rewrite get_setitem_ne|]. simpl.
    apply mapM_Forall2 in Hmap. eapply Forall2_impl; [exact Hmap|].
    intros day day' Hday. by eapply sync_accommodation_synced.
  - injection H as <-. rewrite Hdit. split; [done|].
    destruct it as [| | | | |[|x l]|]; try done; constructor.
Qed.

(** *** The claims about the repairs *)

(** C3 (amended).  The repairs neither add nor remove a day: the final
    itinerary has as many day entries as the itinerary that the planner's
    model returned.  The number of days asked for plays no part. *)
Theorem C3_repairs_keep_the_day_entries
    (places_info flights_data hotels_data final_plan final_plan' : json) :
  reconcile float_repr float_of_string days_between
    places_info flights_data hotels_data final_plan = Ok final_plan' ->
  length (day_entries final_plan') = length (day_entries final_plan).
Proof.
  unfold reconcile. intros H.
  inv_bind H as plan1 H1. inv_bind H as plan2 H2.
  apply transport_and_cost_days in H as ->.
  apply hotel_repair_days in H2 as ->.
  apply flight_repair_days in H1 as ->.
  apply restaurant_repair_days.
Qed.


(** C9 (amended).  Of the repairs only the restaurant step is guarded:
    whatever happens inside it, the handler goes on with the plan as the
    step left it.  The flight repair, the hotel repair, the transport step
    with the daily costs, the scan of the attractions and the budget
    summary are not: the page is rendered exactly when each of them
    returns, and the first of them that raises turns the answer into the
    error page. *)
Theorem C9_only_the_restaurant_step_is_guarded (budget : Z)
    (places_info flights_data hotels_data final_plan : json) :
  let plan0 := (restaurant_body float_repr places_info final_plan).1 in
  match
    plan_tail float_repr float_of_string days_between budget
      places_info flights_data hotels_data final_plan
  with
  | Rendered final summary =>
      ∃ plan1 plan2,
        flight_repair float_repr flights_data plan0 = Ok plan1 ∧
        hotel_repair float_repr float_of_string days_between hotels_data plan1
        = Ok plan2 ∧
        transport_and_cost float_repr flights_data plan2 = Ok final ∧
        scan_attractions final = Ok tt ∧
        summarize float_of_string budget flights_data hotels_data final = Ok summary
  | ErrorPage =>
      ∃ e,
        flight_repair float_repr flights_data plan0 = Raise e
        ∨ (∃ plan1,
             flight_repair float_repr flights_data plan0 = Ok plan1 ∧
             (hotel_repair float_repr float_of_string days_between hotels_data plan1
              = Raise e
              ∨ ∃ plan2,
                  hotel_repair float_repr float_of_string days_between
                    hotels_data plan1 = Ok plan2 ∧
                  (transport_and_cost float_repr flights_data plan2 = Raise e
                   ∨ ∃ final,
                       transport_and_cost float_repr flights_data plan2 = Ok final ∧
                       (scan_attractions final = Raise e
                        ∨ summarize float_of_string budget flights_data
                            hotels_data final = Raise e))))
  end.
Proof.
  intros plan0. unfold plan_tail, reconcile, restaurant_repair. fold plan0.
  destruct (flight_repair float_repr flights_data plan0) as [plan1|e] eqn:H1;
    simpl; [|by exists e; left].
  destruct (hotel_repair float_repr float_of_string days_between hotels_data plan1)
    as [plan2|e] eqn:H2; simpl; [|exists e; right; exists plan1; by auto].
  destruct (transport_and_cost float_repr flights_data plan2)
    as [final|e] eqn:H3; simpl;
    [|exists e; right; exists plan1; split; [done|]; right; exists plan2; by auto].
  destruct (scan_attractions final) as [[]|e] eqn:H4; simpl;
    [|exists e; right; exists plan1; split; [done|]; right; exists plan2;
      split; [done|]; right; exists final; by auto].
  destruct (summarize float_of_string budget flights_data hotels_data final)
    as [summary|e] eqn:H5; simpl.
  - by exists plan1, plan2.
  - exists e. right. exists plan1. split; [done|]. right. exists plan2.
    split; [done|]. right. exists final. by auto.
Qed.
End Facts.

(** The amended statement of C3 at the sample data. *)
Lemma C3_witness :
  ∃ final_plan,
    reconcile show_float no_float two_nights
      sample_places sample_flights sample_hotels sample_plan = Ok final_plan ∧
    length (day_entries final_plan) = length (day_entries sample_plan).
Proof.
  assert (∃ final_plan,
            reconcile show_float no_float two_nights
              sample_places sample_flights sample_hotels sample_plan = Ok final_plan)
    as [final_plan H] by (eexists; vm_compute; reflexivity).
  exists final_plan. split; [exact H|].
  exact (C3_repairs_keep_the_day_entries _ _ _ _ _ _ _ _ H).
Defined.

(** C3 (as stated, refuted).  When the planner's reply does not parse, its
    [process] answers with a stub of no day entries, and when the refinement
    does not parse either, the server returns that stub as the final
    itinerary.  The repairs leave it with no day entry, for a request of four
    days. *)
Lemma C3_counterexample :
  Server.r_final_itinerary
    <$> returned (serve Stylist.scenario_A (sample_server "no json"))
  = match Agents.stub_itinerary Stylist.scenario_A with
    | Ok stub => Some stub
    | Raise _ => None
    end ∧
  (stub ← Agents.stub_itinerary Stylist.scenario_A;
   final_plan ← reconcile show_float no_float two_nights
                  sample_places sample_flights sample_hotels stub;
   days ← get_ final_plan "days";
   Ok (days, day_entries final_plan)) = Ok (JInt 4, []).
Proof. split; vm_compute; reflexivity. Qed.



(** C9 (as stated, refuted).  The only offer of the flight search is one
    way, so its inbound leg is [None]; the flight repair raises on it and the
    request ends with the error page. *)
Lemma C9_counterexample :
  flight_repair show_float one_way_flights
    (restaurant_repair show_float sample_places sample_plan) = Raise TypeError ∧
  plan_tail show_float no_float two_nights 2000000
    sample_places one_way_flights sample_hotels sample_plan = ErrorPage.
Proof. split; vm_compute; reflexivity. Qed.

(** An exception inside the restaurant step, on the other hand, is survived:
    with a number where the places belong the step raises, and the page is
    rendered. *)
Example restaurant_failure_is_survived :
  (restaurant_body show_float broken_places sample_plan).2 = Some TypeError ∧
  ∃ final_plan summary,
    plan_tail show_float no_float two_nights 2000000
      broken_places sample_flights sample_hotels sample_plan
    = Rendered final_plan summary.
Proof. split; [vm_compute; reflexivity|]. eexists _, _. vm_compute. reflexivity. Qed.

End ReconcileFacts.

(** ** More on the command log and on whole requests *)

Module RequestFacts.
Import Py PyFacts Agents Server Notions NotionsX Examples ExamplesX ServerFacts.

#[local] Existing Instances quiet_refl quiet_trans extends_refl extends_trans.

(** *** [complete_command] *)

Lemma complete_in_length (id : nat) (st : status) (res : json) (h : list command) :
  length (complete_in id st res h) = length h.
Proof.
  induction h as [|c h IH]; simpl; [done|].
  destruct (cmd_id c =? id)%nat; simpl; [done|]. by rewrite IH.
Qed.

(** X1. [complete_command] finds the first command with the given id and
    replaces its status and result, leaving every other entry as it is; it
    writes nothing when there is no such command. *)
Theorem complete_command_updates_first_match (command_id : nat) (st : status)
    (res : json) (s : server) :
  complete_command command_id st res s
  = (Ok tt,
     set_history
       (match list_find (λ cmd, cmd_id cmd = command_id) (command_history s) with
        | Some (i, cmd) => <[i := with_status st res cmd]> (command_history s)
        | None => command_history s
        end) s).
Proof.
  rewrite complete_command_run. do 2 f_equal.
  induction (command_history s) as [|c h IH]; simpl; [done|].
  destruct (Nat.eqb_spec (cmd_id c) command_id) as [E|E].
  - rewrite decide_True by done. done.
  - rewrite decide_False by done. rewrite IH.
    destruct (list_find _ h) as [[i cmd]|]; done.
Qed.

(** X2. A command that was just sent is the one [complete_command] updates,
    as long as every id in the history is the command's position: the new
    command gets the next id, is pending until it is completed, and no
    earlier entry is touched. *)
Theorem sent_command_is_completed (from_agent to_agent command_name : string)
    (params res : json) (st : status) (s s' : server) (cmd : command) :
  wf (command_history s) ->
  (cmd ← send_command from_agent to_agent command_name params;
   _ ← complete_command (cmd_id cmd) st res;
   mret cmd) s = (Ok cmd, s') ->
  cmd_id cmd = S (length (command_history s)) ∧
  cmd_status cmd = pending ∧
  command_history s' = command_history s ++ [with_status st res cmd] ∧
  ∀ i old, command_history s !! i = Some old -> command_history s' !! i = Some old.
Proof.
  intros Hwf H. run H. simpl.
  rewrite (complete_in_last _
             {| cmd_id := length (command_history s) + 1 |}) by (done || simpl; lia).
  split_and!; [lia|done|done|].
  intros i old Hi. by apply lookup_app_l_Some.
Qed.

(** *** How many commands a request records *)

Section Counts.
Variable float_repr : Q -> string.
Variable json_loads : string -> option json.
Variable create_refinement_prompt :
json -> json -> json -> json -> json -> json -> result string.

Lemma grows_quiet (s s' : server) : quiet s s' -> grows 0 s s'.
Proof. intros [_ _ Hh Hl _]. split; [rewrite Hh; lia|done]. Qed.

Lemma grows_trans (n m : nat) (s1 s2 s3 : server) :
grows n s1 s2 -> grows m s2 s3 -> grows (n + m) s1 s3.
Proof. intros [H1 L1] [H2 L2]. split; [lia|congruence]. Qed.

Ltac count :=
unfold grows; simpl;
repeat match goal with
       | H : quiet _ _ |- _ => destruct H as [_ _ ?Hq ?Hl _]; simpl in *
       end;
rewrite ?complete_in_length, ?length_app; simpl;
repeat match goal with
       | H : command_history _ = _ |- _ => rewrite H; clear H
       | H : collaboration_history _ = _ |- _ => rewrite H; clear H
       end;
rewrite ?complete_in_length, ?length_app; simpl;
split; [lia|done].

Lemma weather_step_grows (query : json) (destination city : string)
  (departure_date return_date : json) (log log' : list (string * json))
  (s s' : server) :
weather_step float_repr query destination city departure_date return_date log s
= (Ok log', s') ->
grows (if negb (String.eqb destination "")
          && bool_decide (is_Some (tools s !! "weather")) then 1 else 0) s s'.
Proof.
unfold weather_step. intros H. run H;
  repeat match goal with
         | H : complete_forecast _ _ _ _ = _ |- _ =>
             apply complete_forecast_quiet in H
         end; count.
Qed.

Lemma flight_step_grows (query : json) (city : string) (log : list (string * json))
  (r : list (string * json) * json) (s s' : server) :
flight_step query city log s = (Ok r, s') ->
grows (if bool_decide (is_Some (tools s !! "flight")) then 1 else 0) s s'.
Proof. unfold flight_step. intros H. run H; count. Qed.

Lemma hotel_step_grows (query : json) (city : string) (log : list (string * json))
  (r : list (string * json) * json) (s s' : server) :
hotel_step query city log s = (Ok r, s') ->
grows (if bool_decide (is_Some (tools s !! "hotel")) then 1 else 0) s s'.
Proof. unfold hotel_step. intros H. run H; count. Qed.

Lemma style_step_grows (query style_analysis : json) (s s' : server) :
style_step float_repr query s = (Ok style_analysis, s') -> grows 1 s s'.
Proof. unfold style_step. intros H. run H; count. Qed.

Lemma places_step_grows (destination : string) (log log' : list (string * json))
  (s s' : server) :
places_step float_repr destination log s = (Ok log', s') ->
grows (if bool_decide (is_Some (tools s !! "places")) then 1 else 0) s s'.
Proof.
unfold places_step. intros H. run H;
  repeat match goal with
         | H : for_each _ _ _ = _ |- _ =>
             apply (for_each_quiet _ _ (with_restaurants_quiet _ _)) in H
         end;
  try rewrite (bool_decide_eq_true_2 (is_Some (Some _))) by eauto;
  try rewrite (bool_decide_eq_false_2 (is_Some None)) by (by intros [? ?]);
  count.
Qed.

Lemma refinement_step_grows (planner : agent)
  (initial_itinerary hotel_analysis hotels_data flights_data final_itinerary : json)
  (log : list (string * json)) (s s' : server) :
refinement_step json_loads create_refinement_prompt planner initial_itinerary
  hotel_analysis hotels_data flights_data log s = (Ok final_itinerary, s') ->
grows 1 s s'.
Proof. unfold refinement_step. intros H. run H; count. Qed.

(** What a returned answer of the review tells. *)
Lemma review_and_refine_outcome (query : json) (planner : agent)
  (style_analysis initial_itinerary hotels_data flights_data : json)
  (log : list (string * json)) (s s' : server) (r : response) :
review_and_refine json_loads create_refinement_prompt query planner style_analysis
  initial_itinerary hotels_data flights_data log s = (Ok r, s') ->
match r with
| Collaboration c =>
    is_Some (agents s !! "reviewer") ∧
    length (command_history s') = (length (command_history s) + 2)%nat ∧
    collaboration_history s' = collaboration_history s ++ [r_collaboration_log c]
| ErrorResponse msg =>
    agents s !! "reviewer" = None ∧
    msg = "Reviewer agent not found" ∧
    collaboration_history s' = collaboration_history s ∧
    (wf (command_history s) ->
     ∃ cmd,
       command_history s' = command_history s ++ [cmd] ∧
       cmd_command cmd = "ANALYZE_HOTELS" ∧ cmd_status cmd = failed)
end.
Proof.
unfold review_and_refine. intros H. run H.
- match goal with
  | Hs : refinement_step _ _ _ _ _ _ _ _ _ = _ |- _ =>
      apply refinement_step_grows in Hs as [Hlen Hlogs]
  end.
  simpl in *. rewrite Hlen, Hlogs, complete_in_length, length_app. simpl.
  split_and!; [by eauto|lia|done].
- simpl in *. split_and!; try done. intros Hwf.
  rewrite (complete_in_last _
             {| cmd_id := length (command_history s) + 1;
                cmd_command := "ANALYZE_HOTELS" |}) by (done || simpl; lia).
  by eexists.
Qed.

(** What a returned answer of the draft and what follows it tells. *)
Lemma draft_and_refine_outcome (query : json) (destination : string)
  (style_analysis hotels_data flights_data : json) (log : list (string * json))
  (s s' : server) (r : response) :
draft_and_refine float_repr json_loads create_refinement_prompt query destination
  style_analysis hotels_data flights_data log s = (Ok r, s') ->
match r with
| Collaboration c =>
    is_Some (agents s !! "planner") ∧ is_Some (agents s !! "reviewer") ∧
    length (command_history s')
    = (length (command_history s) + 3
       + if bool_decide (is_Some (tools s !! "places")) then 1 else 0)%nat ∧
    collaboration_history s' = collaboration_history s ++ [r_collaboration_log c]
| ErrorResponse msg =>
    collaboration_history s' = collaboration_history s ∧
    ((agents s !! "planner" = None ∧ msg = "Planner agent not found")
     ∨ (is_Some (agents s !! "planner") ∧ agents s !! "reviewer" = None ∧
        msg = "Reviewer agent not found")) ∧
    (wf (command_history s) ->
     ∃ cmd,
       last (command_history s') = Some cmd ∧ cmd_status cmd = failed ∧
       cmd_command cmd
       = if bool_decide (is_Some (agents s !! "planner"))
         then "ANALYZE_HOTELS" else "CREATE_ITINERARY")
end.
Proof.
unfold draft_and_refine. intros H. run H.
- (* the planner is registered *)
  simpl in Heqo.
  match type of Hm6 with
  | places_step _ _ _ ?x = _ =>
      assert (extends s x) as He1
        by (eapply extends_completed;
            [reflexivity|reflexivity|apply quiet_event|reflexivity|reflexivity]);
      assert (length (command_history x) = S (length (command_history s))) as Hlen1
        by (simpl; rewrite complete_in_length, length_app; simpl; lia);
      set (s1 := x) in *
  end.
  pose proof (places_step_extends _ _ _ _ _ _ Hm6) as He2.
  apply places_step_grows in Hm6 as [Hlen2 Hlog2].
  apply review_and_refine_outcome in H as Hr.
  assert (collaboration_history s1 = collaboration_history s) as Hlog1 by done.
  assert (agents s0 = agents s) as Hag
    by (rewrite (e_agents _ _ He2); apply (e_agents _ _ He1)).
  assert (tools s1 = tools s) as Htl by apply (e_tools _ _ He1).
  destruct r as [msg|c].
  + destruct Hr as (Hrev & -> & Hlogs & Hcmd).
    split; [congruence|]. split.
    { right. split_and!; [by eauto|by rewrite <- Hag|done]. }
    intros Hwf.
    assert (wf (command_history s0)) as Hwf2.
    { apply (e_history _ _ He2). by apply (e_history _ _ He1). }
    destruct (Hcmd Hwf2) as (cmd & Hh & Hc & Hst).
    exists cmd. rewrite Hh, last_snoc, bool_decide_eq_true_2 by eauto. done.
  + destruct Hr as (Hrev & Hlen & Hlogs).
    split_and!; [by eauto|by rewrite <- Hag| |congruence].
    rewrite <- Htl. lia.
- (* no planner *)
  simpl in *. split; [done|]. split; [by left|]. intros Hwf.
  rewrite (complete_in_last _
             {| cmd_id := length (command_history s) + 1;
                cmd_command := "CREATE_ITINERARY" |}) by (done || simpl; lia).
  eexists. rewrite last_snoc.
  rewrite bool_decide_eq_false_2 by (rewrite Heqo; by intros [? ?]). done.
Qed.

(** What a returned answer of a request tells, with the commands counted
  from the server the request started on. *)
Lemma process_travel_request_outcome (query : json) (s s' : server) (r : response) :
process_travel_request float_repr json_loads create_refinement_prompt query s
= (Ok r, s') ->
∃ destination s1,
  get query "destination" (JStr "") ≫= as_str = Ok destination ∧
  extends s s1 ∧
  length (command_history s1)
  = (length (command_history s)
     + (commands_of_request (tools s) destination - 3
        - if bool_decide (is_Some (tools s !! "places")) then 1 else 0))%nat ∧
  collaboration_history s1 = collaboration_history s ∧
  ∃ style_analysis hotels_data flights_data log,
    draft_and_refine float_repr json_loads create_refinement_prompt query destination
      style_analysis hotels_data flights_data log s1 = (Ok r, s').
Proof.
unfold process_travel_request. intros H. run H.
match goal with
| Hw : weather_step _ _ _ _ _ _ _ ?s0 = (_, ?s1),
  Hf : flight_step _ _ _ ?s1 = (_, ?s2),
  Hh : hotel_step _ _ _ ?s2 = (_, ?s3),
  Hs : style_step _ _ ?s3 = (_, ?s4) |- _ =>
    pose proof (weather_step_extends _ _ _ _ _ _ _ _ _ _ Hw) as E1;
    pose proof (flight_step_extends _ _ _ _ _ _ Hf) as E2;
    pose proof (hotel_step_extends _ _ _ _ _ _ Hh) as E3;
    pose proof (style_step_extends _ _ _ _ _ Hs) as E4;
    apply weather_step_grows in Hw as [L1 C1];
    apply flight_step_grows in Hf as [L2 C2];
    apply hotel_step_grows in Hh as [L3 C3];
    apply style_step_grows in Hs as [L4 C4];
    rewrite (e_tools _ _ E1) in L2;
    rewrite (e_tools _ _ E2), (e_tools _ _ E1) in L3
end.
match goal with
| Hd : as_str _ = Ok ?d |- _ => exists d
end.
eexists. split.
{ match goal with Hg : get query _ _ = _ |- _ => by rewrite Hg end. }
split; [by do 3 (etrans; [|eassumption])|].
split.
{ unfold commands_of_request. rewrite L4, L3, L2, L1.
  repeat case_match; simpl; lia. }
split; [congruence|]. eexists _, _, _, _. exact H.
Qed.

(** *** The answers of a request *)

(** X3. A request that is served to the end records one command for each
  registered adapter it asks and four for the agents, and appends one log,
  the one it returns; both the planner and the reviewer are registered. *)
Theorem completed_request_counts (query : json) (s s' : server) (c : collaboration) :
process_travel_request float_repr json_loads create_refinement_prompt query s
= (Ok (Collaboration c), s') ->
∃ destination,
  get query "destination" (JStr "") ≫= as_str = Ok destination ∧
  length (command_history s')
  = (length (command_history s) + commands_of_request (tools s) destination)%nat ∧
  collaboration_history s' = collaboration_history s ++ [r_collaboration_log c] ∧
  is_Some (agents s !! "planner") ∧ is_Some (agents s !! "reviewer").
Proof.
intros H.
apply process_travel_request_outcome in H
  as (destination & s1 & Hd & He & Hlen & Hlog & sa & hd & fd & log & H).
apply draft_and_refine_outcome in H as (Hp & Hr & Hlen' & Hlog').
rewrite (e_agents _ _ He) in Hp, Hr. rewrite (e_tools _ _ He) in Hlen'.
exists destination. split_and!; try done; [|congruence].
rewrite Hlen', Hlen. unfold commands_of_request.
repeat case_match; simpl; lia.
Qed.

(** X4. A request that returns an error names the agent that is missing:
  the planner, or the reviewer when the planner is there.  The last
  command of the history is then the one sent to that agent, failed with
  the same text, and no log is appended. *)
Theorem error_answer_names_the_missing_agent (query : json) (s s' : server)
  (msg : string) :
process_travel_request float_repr json_loads create_refinement_prompt query s
= (Ok (ErrorResponse msg), s') ->
wf (command_history s) ->
collaboration_history s' = collaboration_history s ∧
((agents s !! "planner" = None ∧ msg = "Planner agent not found")
 ∨ (is_Some (agents s !! "planner") ∧ agents s !! "reviewer" = None ∧
    msg = "Reviewer agent not found")) ∧
∃ cmd,
  last (command_history s') = Some cmd ∧ cmd_status cmd = failed ∧
  cmd_command cmd
  = if bool_decide (is_Some (agents s !! "planner"))
    then "ANALYZE_HOTELS" else "CREATE_ITINERARY".
Proof.
intros H Hwf.
apply process_travel_request_outcome in H
  as (destination & s1 & Hd & He & Hlen & Hlog & sa & hd & fd & log & H).
apply draft_and_refine_outcome in H as (Hlog' & Hmsg & Hcmd).
rewrite (e_agents _ _ He) in Hmsg, Hcmd.
split; [congruence|]. split; [done|].
apply Hcmd. by apply (e_history _ _ He).
Qed.

(** X5. Whatever a request does, and whether it returns or raises, the
  registered agents and tools stay as they were, the logs and the record
  of calls only grow, and a history whose ids are the positions keeps its
  entries and stays so. *)
Theorem request_keeps_registrations (query : json) (s : server) :
let s' :=
  (process_travel_request float_repr json_loads create_refinement_prompt query s).2 in
agents s' = agents s ∧ tools s' = tools s ∧
collaboration_history s `prefix_of` collaboration_history s' ∧
trace s `prefix_of` trace s' ∧
(wf (command_history s) ->
 command_history s `prefix_of` command_history s' ∧ wf (command_history s')).
Proof.
intros s'.
destruct (process_travel_request float_repr json_loads create_refinement_prompt
            query s) as [r s2] eqn:H.
apply process_travel_request_extends in H as [Ha Ht Hl Hh Hr]. done.
Qed.

(** *** Which commands can stay pending *)

Lemma complete_in_sent (h : list command) (from_agent to_agent command_name : string)
  (params : json) (st : status) (res : json) :
wf h ->
complete_in (length h + 1) st res
  (h ++ [ {| cmd_id := length h + 1; cmd_from := from_agent; cmd_to := to_agent;
             cmd_command := command_name; cmd_params := params;
             cmd_status := pending; cmd_result := JNull |} ])
= h ++ [ {| cmd_id := length h + 1; cmd_from := from_agent; cmd_to := to_agent;
            cmd_command := command_name; cmd_params := params;
            cmd_status := st; cmd_result := res |} ].
Proof.
intros Hwf.
apply (complete_in_last h {| cmd_id := length h + 1 |}); [done|simpl; lia].
Qed.

Lemma records_trans (P : command -> Prop) (s1 s2 s3 : server) :
records P s1 s2 -> records P s2 s3 -> records P s1 s3.
Proof.
intros H1 H2 Hwf. destruct (H1 Hwf) as (Hwf2 & new1 & Hh1 & Hn1).
destruct (H2 Hwf2) as (Hwf3 & new2 & Hh2 & Hn2).
split; [done|]. exists (new1 ++ new2).
rewrite Hh2, Hh1, (assoc_L (++)). split; [done|]. by apply Forall_app.
Qed.

(** The end of a run of a step that sent no command, or one command. *)
Ltac rec_leaf :=
intros ?Hwf; simpl;
repeat match goal with
       | H : quiet _ _ |- _ => destruct H as [_ _ ?Hq _ _]; simpl in *
       end;
repeat match goal with
       | H : command_history _ = _ |- _ => rewrite H; clear H
       end;
rewrite ?complete_in_sent by done;
first [ split; [done|]; exists []; by rewrite app_nil_r
      | split; [apply wf_snoc; [done|simpl; lia]|];
        eexists [_]; split; [reflexivity|]; by repeat constructor ].

Lemma weather_step_records (query : json) (destination city : string)
  (departure_date return_date : json) (log log' : list (string * json))
  (s s' : server) :
weather_step float_repr query destination city departure_date return_date log s
= (Ok log', s') ->
records (λ cmd, settled_or_search cmd = true) s s'.
Proof.
unfold weather_step. intros H. run H;
  repeat match goal with
         | H : complete_forecast _ _ _ _ = _ |- _ =>
             apply complete_forecast_quiet in H
         end; rec_leaf.
Qed.

Lemma flight_step_records (query : json) (city : string) (log : list (string * json))
  (r : list (string * json) * json) (s s' : server) :
flight_step query city log s = (Ok r, s') ->
records (λ cmd, settled_or_search cmd = true) s s'.
Proof. unfold flight_step. intros H. run H; rec_leaf. Qed.

Lemma hotel_step_records (query : json) (city : string) (log : list (string * json))
  (r : list (string * json) * json) (s s' : server) :
hotel_step query city log s = (Ok r, s') ->
records (λ cmd, settled_or_search cmd = true) s s'.
Proof. unfold hotel_step. intros H. run H; rec_leaf. Qed.

Lemma style_step_records (query style_analysis : json) (s s' : server) :
style_step float_repr query s = (Ok style_analysis, s') ->
records (λ cmd, settled_or_search cmd = true) s s'.
Proof. unfold style_step. intros H. run H; rec_leaf. Qed.

Lemma places_step_records (destination : string) (log log' : list (string * json))
  (s s' : server) :
places_step float_repr destination log s = (Ok log', s') ->
records (λ cmd, settled_or_search cmd = true) s s'.
Proof.
unfold places_step. intros H. run H;
  repeat match goal with
         | H : for_each _ _ _ = _ |- _ =>
             apply (for_each_quiet _ _ (with_restaurants_quiet _ _)) in H
         end; rec_leaf.
Qed.

Lemma refinement_step_records (planner : agent)
  (initial_itinerary hotel_analysis hotels_data flights_data final_itinerary : json)
  (log : list (string * json)) (s s' : server) :
refinement_step json_loads create_refinement_prompt planner initial_itinerary
  hotel_analysis hotels_data flights_data log s = (Ok final_itinerary, s') ->
records (λ cmd, settled_or_search cmd = true) s s'.
Proof. unfold refinement_step. intros H. run H; rec_leaf. Qed.

Lemma review_and_refine_records (query : json) (planner : agent)
  (style_analysis initial_itinerary hotels_data flights_data : json)
  (log : list (string * json)) (s s' : server) (r : response) :
review_and_refine json_loads create_refinement_prompt query planner style_analysis
  initial_itinerary hotels_data flights_data log s = (Ok r, s') ->
records (λ cmd, settled_or_search cmd = true) s s'.
Proof.
unfold review_and_refine. intros H. run H.
- match goal with
  | Hs : refinement_step _ _ _ _ _ _ _ _ _ = _ |- _ =>
      apply refinement_step_records in Hs
  end.
  eapply records_trans; [|eapply records_trans; [eassumption|]]; rec_leaf.
- rec_leaf.
Qed.

Lemma draft_and_refine_records (query : json) (destination : string)
  (style_analysis hotels_data flights_data : json) (log : list (string * json))
  (s s' : server) (r : response) :
draft_and_refine float_repr json_loads create_refinement_prompt query destination
  style_analysis hotels_data flights_data log s = (Ok r, s') ->
records (λ cmd, settled_or_search cmd = true) s s'.
Proof.
unfold draft_and_refine. intros H. run H.
- match goal with
  | Hs : places_step _ _ _ _ = _ |- _ =>
      apply places_step_records in Hs; rename Hs into Hpl
  end.
  apply review_and_refine_records in H.
  eapply records_trans; [|eapply records_trans; [exact Hpl|exact H]].
  rec_leaf.
- rec_leaf.
Qed.

(** X7. After a request that returned, with a result or with an error, the
  commands it added are all completed or failed, but for the searches of
  the weather, flight and hotel adapters: those stay pending when the
  adapter does not answer with a success. *)
Theorem only_searches_stay_pending (query : json) (s s' : server) (r : response) :
process_travel_request float_repr json_loads create_refinement_prompt query s
= (Ok r, s') ->
wf (command_history s) ->
∃ new,
  command_history s' = command_history s ++ new ∧
  Forall (λ cmd, cmd_status cmd = pending -> cmd_command cmd ∈ search_commands) new.
Proof.
unfold process_travel_request. intros H Hwf. run H.
repeat match goal with
       | Hs : weather_step _ _ _ _ _ _ _ _ = _ |- _ =>
           apply weather_step_records in Hs
       | Hs : flight_step _ _ _ _ = _ |- _ => apply flight_step_records in Hs
       | Hs : hotel_step _ _ _ _ = _ |- _ => apply hotel_step_records in Hs
       | Hs : style_step _ _ _ = _ |- _ => apply style_step_records in Hs
       end.
apply draft_and_refine_records in H.
assert (records (λ cmd, settled_or_search cmd = true) s s') as Hrec
  by (do 4 (eapply records_trans; [eassumption|]); eassumption).
destruct (Hrec Hwf) as (_ & new & Hh & Hn). exists new. split; [done|].
eapply Forall_impl; [exact Hn|]. intros cmd Hc Hp.
unfold settled_or_search in Hc. rewrite Hp in Hc. by apply bool_decide_eq_true_1 in Hc.
Qed.

(** *** What the answer of a completed request holds *)

Lemma review_and_refine_answer (query : json) (planner : agent)
  (style_analysis initial_itinerary hotels_data flights_data : json)
  (log : list (string * json)) (s s' : server) (c : collaboration) :
review_and_refine json_loads create_refinement_prompt query planner style_analysis
  initial_itinerary hotels_data flights_data log s = (Ok (Collaboration c), s') ->
∃ reviewer request resp,
  agents s !! "reviewer" = Some reviewer ∧
  AgentProcess "reviewer" request ∈ trace s' ∧
  process reviewer request = Ok resp ∧
  hotel_analysis_of resp = Ok (r_hotel_analysis c) ∧
  r_style_analysis c = style_analysis.
Proof.
unfold review_and_refine. intros H. run H.
match goal with
| Hs : refinement_step _ _ _ _ _ _ _ _ _ = _ |- _ =>
    apply refinement_step_extends in Hs as [_ _ _ _ Ht]
end.
eexists _, _, _. split; [done|]. split; [|by split_and!].
simpl in *. eapply elem_of_prefix; [|exact Ht].
apply elem_of_app. right. by constructor.
Qed.

Lemma hotel_analysis_of_Ok (resp hotel_analysis : json) :
hotel_analysis_of resp = Ok hotel_analysis ->
∃ recommendations first top_pick,
  field resp "recommendations" ≠ Some (JArr []) ∧
  get resp "recommendations" (JArr [JObj []]) = Ok recommendations ∧
  index recommendations 0 = Ok first ∧
  get first "hotel" (JStr "N/A") = Ok top_pick ∧
  get_ hotel_analysis "top_pick" = Ok top_pick.
Proof.
unfold hotel_analysis_of. intros H.
inv_bind H as analysis Ha. inv_bind H as recs0 Hr0. inv_bind H as recs Hr.
inv_bind H as first Hf. inv_bind H as top_pick Ht. injection H as <-.
exists recs, first, top_pick. split_and!; try done.
intros Hempty. destruct resp; try done. simpl in Hempty.
unfold get in Hr. rewrite Hempty in Hr. injection Hr as <-. done.
Qed.

(** X6. A request that is served to the end asked the registered reviewer,
  and the reviewer's answer did not hold an empty list of
  recommendations: the top pick that is returned is the hotel of the first
  recommendation, where an answer without recommendations counts as one
  recommendation without a hotel, and a recommendation without a hotel
  gives N/A. *)
Theorem completed_request_has_top_pick (query : json) (s s' : server)
  (c : collaboration) :
process_travel_request float_repr json_loads create_refinement_prompt query s
= (Ok (Collaboration c), s') ->
∃ reviewer request resp recommendations first top_pick,
  agents s !! "reviewer" = Some reviewer ∧
  AgentProcess "reviewer" request ∈ trace s' ∧
  process reviewer request = Ok resp ∧
  field resp "recommendations" ≠ Some (JArr []) ∧
  get resp "recommendations" (JArr [JObj []]) = Ok recommendations ∧
  index recommendations 0 = Ok first ∧
  get first "hotel" (JStr "N/A") = Ok top_pick ∧
  get_ (r_hotel_analysis c) "top_pick" = Ok top_pick.
Proof.
intros H.
apply process_travel_request_run in H
  as (destination & planner & sa & ii & hd & fd & log & s1 & _ & _ & _ & He & H).
apply review_and_refine_answer in H
  as (reviewer & request & resp & Hr & Ht & Hp & Ha & _).
apply hotel_analysis_of_Ok in Ha as (recs & first & top_pick & Ha).
exists reviewer, request, resp, recs, first, top_pick.
rewrite <- (e_agents _ _ He). done.
Qed.

Lemma style_step_answer (query style_analysis : json) (s s' : server) :
style_step float_repr query s = (Ok style_analysis, s') ->
match agents s !! "stylist" with
| None => style_analysis = JObj []
| Some stylist =>
    ∃ style_result ok,
      process stylist query = Ok style_result ∧
      get_ style_result "success" = Ok ok ∧
      if truthy ok then getitem style_result "data" = Ok style_analysis
      else style_analysis = JObj []
end.
Proof.
unfold style_step. intros H. run H; simpl in *;
  match goal with
  | Hs : agents _ !! "stylist" = _ |- _ => rewrite Hs
  end; [| |done].
- eexists _, _. split; [done|]. split; [eassumption|].
  match goal with Ht : truthy _ = _ |- _ => by rewrite Ht end.
- eexists _, _. split; [done|]. split; [eassumption|].
  match goal with Ht : truthy _ = _ |- _ => by rewrite Ht end.
Qed.

Lemma draft_and_refine_style (query : json) (destination : string)
  (style_analysis hotels_data flights_data : json) (log : list (string * json))
  (s s' : server) (c : collaboration) :
draft_and_refine float_repr json_loads create_refinement_prompt query destination
  style_analysis hotels_data flights_data log s = (Ok (Collaboration c), s') ->
r_style_analysis c = style_analysis.
Proof.
intros H.
apply draft_and_refine_run in H as (planner & ii & log' & s1 & _ & _ & H).
by apply review_and_refine_answer in H as (? & ? & ? & _ & _ & _ & _ & H).
Qed.

End Counts.

(** *** The statements on the sample servers *)

(** A command sent to the new server and completed at once. *)
Lemma sent_command_is_completed_witness :
  ∃ cmd s',
    (cmd ← send_command "user" "planner" "CREATE_ITINERARY" (JObj []);
     _ ← complete_command (cmd_id cmd) completed (JStr "done");
     mret cmd) new_server = (Ok cmd, s') ∧
    cmd_id cmd = 1%nat ∧
    cmd_status cmd = pending ∧
    command_history s' = [with_status completed (JStr "done") cmd] ∧
    ∀ i old, command_history new_server !! i = Some old ->
             command_history s' !! i = Some old.
Proof.
  eexists _, _. split; [reflexivity|].
  apply (sent_command_is_completed "user" "planner" "CREATE_ITINERARY" (JObj [])
           (JStr "done") completed new_server); [apply wf_nil|reflexivity].
Defined.

(** The sample server has a hotel adapter, a planner and a reviewer: its
    request records five commands. *)
Lemma completed_request_counts_witness :
  ∃ c s' destination,
    serve Stylist.scenario_A (sample_server "{}") = (Ok (Collaboration c), s') ∧
    get Stylist.scenario_A "destination" (JStr "") ≫= as_str = Ok destination ∧
    length (command_history s')
    = (length (command_history (sample_server "{}"))
       + commands_of_request (tools (sample_server "{}")) destination)%nat ∧
    collaboration_history s'
    = collaboration_history (sample_server "{}") ++ [r_collaboration_log c] ∧
    is_Some (agents (sample_server "{}") !! "planner") ∧
    is_Some (agents (sample_server "{}") !! "reviewer").
Proof.
  pose (run := serve Stylist.scenario_A (sample_server "{}")).
  assert (∃ c, run = (Ok (Collaboration c), run.2)) as [c Hc]
    by (eexists; vm_compute; reflexivity).
  destruct (completed_request_counts _ _ _ _ _ _ c Hc) as (destination & H).
  exists c, run.2, destination. exact (conj Hc H).
Defined.

(** A server without a reviewer answers with the error of the reviewer. *)
Lemma error_answer_names_the_missing_agent_witness :
  ∃ msg s',
    serve Stylist.scenario_A planner_only_server = (Ok (ErrorResponse msg), s') ∧
    collaboration_history s' = collaboration_history planner_only_server ∧
    ((agents planner_only_server !! "planner" = None ∧ msg = "Planner agent not found")
     ∨ (is_Some (agents planner_only_server !! "planner") ∧
        agents planner_only_server !! "reviewer" = None ∧
        msg = "Reviewer agent not found")) ∧
    ∃ cmd,
      last (command_history s') = Some cmd ∧ cmd_status cmd = failed ∧
      cmd_command cmd
      = if bool_decide (is_Some (agents planner_only_server !! "planner"))
        then "ANALYZE_HOTELS" else "CREATE_ITINERARY".
Proof.
  pose (run := serve Stylist.scenario_A planner_only_server).
  assert (∃ msg, run = (Ok (ErrorResponse msg), run.2)) as [msg Hm]
    by (eexists; vm_compute; reflexivity).
  exists msg, run.2.
  exact (conj Hm (error_answer_names_the_missing_agent _ _ _ _ _ _ msg Hm wf_nil)).
Defined.

(** The hotel adapter of the sample server fails: of the commands of its
    request, SEARCH_HOTELS alone is left pending. *)
Lemma only_searches_stay_pending_witness :
  ∃ r s' new,
    serve Stylist.scenario_A (sample_server "{}") = (Ok r, s') ∧
    command_history s' = command_history (sample_server "{}") ++ new ∧
    Forall (λ cmd, cmd_status cmd = pending -> cmd_command cmd ∈ search_commands) new.
Proof.
  pose (run := serve Stylist.scenario_A (sample_server "{}")).
  assert (∃ r, run = (Ok r, run.2)) as [r Hr]
    by (eexists; vm_compute; reflexivity).
  destruct (only_searches_stay_pending _ _ _ _ _ _ r Hr wf_nil) as (new & H).
  exists r, run.2, new. exact (conj Hr H).
Defined.

(** The reviewer of the sample server finds no hotels and answers without
    recommendations: the top pick is N/A. *)
Lemma completed_request_has_top_pick_witness :
  ∃ c s' reviewer request resp recommendations first top_pick,
    serve Stylist.scenario_A (sample_server "{}") = (Ok (Collaboration c), s') ∧
    agents (sample_server "{}") !! "reviewer" = Some reviewer ∧
    AgentProcess "reviewer" request ∈ trace s' ∧
    process reviewer request = Ok resp ∧
    field resp "recommendations" ≠ Some (JArr []) ∧
    get resp "recommendations" (JArr [JObj []]) = Ok recommendations ∧
    index recommendations 0 = Ok first ∧
    get first "hotel" (JStr "N/A") = Ok top_pick ∧
    get_ (r_hotel_analysis c) "top_pick" = Ok top_pick.
Proof.
  pose (run := serve Stylist.scenario_A (sample_server "{}")).
  assert (∃ c, run = (Ok (Collaboration c), run.2)) as [c Hc]
    by (eexists; vm_compute; reflexivity).
  destruct (completed_request_has_top_pick _ _ _ _ _ _ c Hc)
    as (reviewer & request & resp & recommendations & first & top_pick & H).
  exists c, run.2, reviewer, request, resp, recommendations, first, top_pick.
  exact (conj Hc H).
Defined.


End RequestFacts.

(** ** More on the style classifier *)

Module StyleScoreFacts.
Import Py PyFacts Stylist Notions Examples StringFacts StylistFacts.

(** The inner loop counts the keywords that occur in the text and keeps
    them in their order. *)
Lemma match_keywords_filter (text : string) (kws : list string) :
  match_keywords text kws
  = (length (List.filter (λ k, contains k text) kws),
     List.filter (λ k, contains k text) kws).
Proof.
  unfold match_keywords.
  assert (∀ acc : nat * list string,
            fold_left (λ acc keyword,
                         if contains keyword text
                         then (S acc.1, acc.2 ++ [keyword])
                         else acc) kws acc
            = ((acc.1 + length (List.filter (λ k, contains k text) kws))%nat,
               acc.2 ++ List.filter (λ k, contains k text) kws)) as H.
  { induction kws as [|k kws IH]; intros [n l]; simpl.
    - by rewrite Nat.add_0_r, app_nil_r.
    - destruct (contains k text); rewrite IH; simpl.
      + rewrite <- (assoc_L (++)). simpl. f_equal. lia.
      + done. }
  by rewrite H.
Qed.

(** [max] returns the first item whose key is maximal. *)
Lemma max_by_first {A} (key : A -> nat) (l pre mid : list A) (best : A) :
  Forall (λ y, key y < key best)%nat pre ->
  Forall (λ y, key y <= key best)%nat mid ->
  ∃ before after,
    pre ++ best :: mid ++ l = before ++ max_by key best l :: after ∧
    Forall (λ y, key y < key (max_by key best l))%nat before ∧
    Forall (λ y, key y <= key (max_by key best l))%nat after.
Proof.
  revert pre mid best. induction l as [|y l IH]; intros pre mid best Hpre Hmid; simpl.
  - exists pre, mid. by rewrite app_nil_r.
  - destruct (key best <? key y)%nat eqn:E.
    + apply Nat.ltb_lt in E.
      destruct (IH (pre ++ best :: mid) [] y) as (before & after & Heq & Hb & Ha).
      * apply Forall_app. split.
        { eapply Forall_impl; [exact Hpre|]. simpl. lia. }
        constructor; [done|]. eapply Forall_impl; [exact Hmid|]. simpl. lia.
      * constructor.
      * exists before, after. split; [|done].
        rewrite <- Heq. by rewrite <- (assoc_L (++)).
    + apply Nat.ltb_ge in E.
      destruct (IH pre (mid ++ [y]) best) as (before & after & Heq & Hb & Ha).
      * done.
      * apply Forall_app. split; [done|]. by constructor.
      * exists before, after. split; [|done].
        rewrite <- Heq. by rewrite <- (assoc_L (++)).
Qed.

Section Facts.
Variable float_repr : Q -> string.

(** Every entry of the score table is the score of a declared style. *)
Lemma style_scores_entry (query : json) (p : style_id * score_entry) :
p ∈ style_scores float_repr query ->
∃ info, (p.1, info) ∈ travel_styles ∧
        p.2 = score_style (lower (str float_repr query)) info.
Proof.
unfold style_scores. intros H. apply list_elem_of_fmap in H as ([id info] & -> & H).
by exists info.
Qed.

Lemma scores_of_declared (query : json) (id : style_id) :
∃ info, (id, info) ∈ travel_styles ∧
        scores_of (style_scores float_repr query) id
        = score_style (lower (str float_repr query)) info.
Proof.
destruct id; eexists; (split; [|reflexivity]); unfold travel_styles; set_solver.
Qed.

(** X9. What an analysis reports belongs to the style it names: the name is
  that of the declared style, the matched keywords are the keywords of
  that style that occur in the lower-cased text of the request, in the
  order of their declaration, and the confidence is their number. *)
Theorem analysis_reports_its_style (query : json) (r : style_analysis) :
analyze_travel_style float_repr query = Ok r ->
∃ info,
  (primary_style r, info) ∈ travel_styles ∧
  style_name r = name info ∧
  matched r
  = List.filter (λ k, contains k (lower (str float_repr query))) (keywords info) ∧
  confidence r = length (matched r).
Proof.
unfold analyze_travel_style. intros H.
assert (∀ p : style_id * score_entry,
          (∃ info, (p.1, info) ∈ travel_styles ∧
                   p.2 = score_style (lower (str float_repr query)) info) ->
          ∃ info,
            (p.1, info) ∈ travel_styles ∧
            name (entry_info p.2) = name info ∧
            matched_keywords p.2
            = List.filter (λ k, contains k (lower (str float_repr query)))
                (keywords info) ∧
            score p.2 = length (matched_keywords p.2)) as Hentry.
{ intros p (info & Hin & ->). exists info. unfold score_style. simpl.
  rewrite match_keywords_filter. done. }
destruct (style_scores float_repr query) as [|p rest] eqn:Hs; [done|].
cbv zeta in H.
destruct (score (max_by (λ p, score p.2) p rest).2 =? 0)%nat.
- inv_bind H as pr Hpr. inv_bind Hpr as sid Hsid. injection Hpr as <-.
  injection H as <-. simpl.
  destruct (scores_of_declared query sid) as (info & Hin & Heq). rewrite Hs in Heq.
  apply (Hentry (sid, scores_of (p :: rest) sid)). by exists info.
- injection H as <-. simpl. apply Hentry, style_scores_entry. rewrite Hs.
  destruct (max_by_first (λ p, score p.2) rest [] [] p) as (b & a & Heq & _);
    [constructor|constructor|].
  simpl in Heq. rewrite Heq. set_solver.
Qed.

(** X10. No style scores more than the confidence that is reported.  When
  the confidence is not zero, the style that is named is the first of
  the declared styles with that score: every style declared before it
  scores less. *)
Theorem primary_style_is_first_maximum (query : json) (r : style_analysis) :
analyze_travel_style float_repr query = Ok r ->
Forall (λ p, score p.2 <= confidence r)%nat (all_scores r) ∧
((1 <= confidence r)%nat ->
 ∃ before e after,
   all_scores r = before ++ (primary_style r, e) :: after ∧
   score e = confidence r ∧
   Forall (λ p, score p.2 < confidence r)%nat before).
Proof.
unfold analyze_travel_style. intros H.
destruct (style_scores float_repr query) as [|p rest] eqn:Hs; [done|].
cbv zeta in H.
destruct (max_by_first (λ p, score p.2) rest [] [] p)
  as (before & after & Heq & Hb & Ha); [constructor|constructor|].
simpl in Heq.
assert (Forall (λ q, score q.2 <= score (max_by (λ p, score p.2) p rest).2)%nat
          (p :: rest)) as Hall.
{ rewrite Heq. apply Forall_app. split.
  - eapply Forall_impl; [exact Hb|]. simpl. lia.
  - constructor; [done|exact Ha]. }
destruct (score (max_by (λ p, score p.2) p rest).2 =? 0)%nat eqn:E.
- apply Nat.eqb_eq in E. inv_bind H as pr Hpr. inv_bind Hpr as sid Hsid.
  injection Hpr as <-. injection H as <-. simpl. split.
  + eapply Forall_impl; [exact Hall|]. simpl. lia.
  + intros Hc. exfalso.
    assert ((sid, scores_of (p :: rest) sid) ∈ p :: rest) as Hin.
    { destruct (scores_of_declared query sid) as (info & Hin & Hsc).
      rewrite Hs in Hsc. rewrite Hsc, <- Hs.
      apply list_elem_of_fmap. by exists (sid, info). }
    rewrite Forall_forall in Hall. specialize (Hall _ Hin). simpl in Hall. lia.
- injection H as <-. simpl. split; [done|]. intros _.
  destruct (max_by (λ p, score p.2) p rest) as [id e]. by exists before, e, after.
Qed.

(** X11. A request that carries a budget is always classified by its
  keywords: the printed request shows the key ['budget'], a keyword of the
  backpacker style, so the best score is one at least.  The fallback by
  the number of people and the budget is never reached, and with it the
  only step of the analysis that can raise. *)
Theorem budget_request_is_classified (kv : list (string * json)) :
is_Some (dict_lookup "budget" kv) ->
∃ r, analyze_travel_style float_repr (JObj kv) = Ok r ∧ (1 <= confidence r)%nat.
Proof.
intros Hk.
destruct (analyze_travel_style float_repr (JObj kv)) as [r|e] eqn:H.
{ exists r. split; [done|]. by eapply budget_key_confident. }
exfalso. unfold analyze_travel_style in H.
pose proof (budget_key_scores float_repr kv Hk) as Hs.
assert ((backpacker, scores_of (style_scores float_repr (JObj kv)) backpacker)
          ∈ style_scores float_repr (JObj kv)) as Hin.
{ destruct (scores_of_declared (JObj kv) backpacker) as (info & Hi & ->).
  apply list_elem_of_fmap. by exists (backpacker, info). }
set (e0 := scores_of (style_scores float_repr (JObj kv)) backpacker) in Hs, Hin.
clearbody e0. revert H Hin.
generalize (style_scores float_repr (JObj kv)). intros scores H Hin.
destruct scores as [|p rest]; [by apply not_elem_of_nil in Hin|].
cbv zeta in H.
assert (1 <= score (max_by (λ p, score p.2) p rest).2)%nat as Hp.
{ etrans; [exact Hs|]. apply elem_of_cons in Hin as [Heq|Hin].
  - subst p. exact (max_by_ge_best (λ p, score p.2) (backpacker, e0) rest).
  - exact (max_by_ge (λ p, score p.2) p rest _ Hin). }
destruct (score (max_by (λ p, score p.2) p rest).2 =? 0)%nat eqn:E;
  [apply Nat.eqb_eq in E; lia|done].
Qed.
End Facts.

(** X9 on the request of scenario A. *)
Lemma analysis_reports_its_style_witness :
  ∃ r info,
    analyze_travel_style show_float scenario_A = Ok r ∧
    (primary_style r, info) ∈ travel_styles ∧
    style_name r = name info ∧
    matched r
    = List.filter (λ k, contains k (lower (str show_float scenario_A))) (keywords info) ∧
    confidence r = length (matched r).
Proof.
  assert (∃ r, analyze_travel_style show_float scenario_A = Ok r) as [r Hr]
    by (eexists; vm_compute; reflexivity).
  destruct (analysis_reports_its_style show_float scenario_A r Hr) as (info & H).
  exists r, info. exact (conj Hr H).
Defined.

(** X10 on the request of scenario A. *)
Lemma primary_style_is_first_maximum_witness :
  ∃ r,
    analyze_travel_style show_float scenario_A = Ok r ∧
    Forall (λ p, score p.2 <= confidence r)%nat (all_scores r) ∧
    ((1 <= confidence r)%nat ->
     ∃ before e after,
       all_scores r = before ++ (primary_style r, e) :: after ∧
       score e = confidence r ∧
       Forall (λ p, score p.2 < confidence r)%nat before).
Proof.
  assert (∃ r, analyze_travel_style show_float scenario_A = Ok r) as [r Hr]
    by (eexists; vm_compute; reflexivity).
  exists r. exact (conj Hr (primary_style_is_first_maximum show_float scenario_A r Hr)).
Defined.

(** X11 on a request with a budget and a number of people that is no
    number: the fallback would raise on it. *)
Lemma budget_request_is_classified_witness :
  ∃ r,
    analyze_travel_style show_float
      (JObj [ ("people", JStr "two"); ("budget", JInt 5000000) ]) = Ok r ∧
    (1 <= confidence r)%nat ∧
    fallback_style (JObj [ ("people", JStr "two"); ("budget", JInt 5000000) ])
    = Raise TypeError.
Proof.
  destruct (budget_request_is_classified show_float
              [ ("people", JStr "two"); ("budget", JInt 5000000) ])
    as (r & Hr & Hc); [by eexists|].
  exists r. exact (conj Hr (conj Hc eq_refl)).
Defined.

End StyleScoreFacts.

(** ** More on prices, daily costs and the repairs *)

Module RepairFacts.
Import Py PyFacts NumFacts Reconcile Notions NotionsX Examples CostFacts ReconcileFacts.

(** *** Numbers *)

Lemma div_cross (n m d e : Z) :
  0 <= n -> 0 < d -> 0 < e -> n * e <= m * d -> n / d <= m / e.
Proof.
  intros Hn Hd He H. apply Z.div_le_lower_bound; [done|].
  pose proof (Z.mul_div_le n d Hd). nia.
Qed.

(** [int(...)] keeps the order of numbers. *)
Lemma trunc_mono (a b : Q) : (a <= b)%Q -> trunc a <= trunc b.
Proof.
  destruct a as [n d], b as [m e]. unfold trunc, Qle. simpl. intros H.
  pose proof (Pos2Z.is_pos d) as Hd. pose proof (Pos2Z.is_pos e) as He.
  assert (0 < Z.pos e) as Hd' by done.
  destruct (Z.le_gt_cases 0 n) as [Hn|Hn].
  - assert (0 <= m) by nia.
    rewrite !Z.quot_div_nonneg by lia. by apply div_cross.
  - destruct (Z.le_gt_cases 0 m) as [Hm|Hm].
    + pose proof (Z.quot_pos m (Z.pos e) Hm Hd').
      assert (0 <= (- n) ÷ Z.pos d) as Hq by (apply Z.quot_pos; lia).
      rewrite Z.quot_opp_l in Hq by done. lia.
    + rewrite <- (Z.opp_involutive n), <- (Z.opp_involutive m).
      rewrite (Z.quot_opp_l (- n)), (Z.quot_opp_l (- m)) by done.
      rewrite (Z.quot_div_nonneg (- n)), (Z.quot_div_nonneg (- m)) by lia.
      apply Z.opp_le_mono. rewrite !Z.opp_involutive. apply div_cross; lia.
Qed.

Lemma Qgtb_inject (a b : Z) : Qgtb (inject_Z a) (inject_Z b) = (b <? a).
Proof.
  unfold Qgtb, Qle_bool, inject_Z. simpl. rewrite !Z.mul_1_r.
  destruct (Z.leb_spec a b), (Z.ltb_spec b a); simpl; lia.
Qed.

(** *** [convert_to_krw] *)

Lemma rates_positive :
  Forall (λ p : string * Q, (0 < p.2)%Q) EXCHANGE_RATES.
Proof. unfold EXCHANGE_RATES. repeat (constructor; [reflexivity|]). constructor. Qed.

Lemma rate_lookup_Forall (P : Q -> Prop) (k : string) (table : list (string * Q)) (r : Q) :
  Forall (λ p, P p.2) table -> rate_lookup k table = Some r -> P r.
Proof.
  induction 1 as [|[k' r'] table Hp Ht IH]; simpl; [done|].
  destruct (String.eqb k k'); [by intros [= <-]|done].
Qed.

Lemma convert_to_krw_rate (amount : Q) (currency : json) (x : Z) :
  convert_to_krw amount currency = Ok x ->
  ∃ rate, (0 < rate)%Q ∧ x = trunc (amount * rate) ∧
          ∀ amount', convert_to_krw amount' currency = Ok (trunc (amount' * rate)).
Proof.
  unfold convert_to_krw. intros H. inv_bind H as c Hc. injection H as <-.
  exists (match c with
          | JStr k => default 1%Q (rate_lookup k EXCHANGE_RATES)
          | _ => 1%Q
          end).
  split; [|split; [reflexivity|]].
  - destruct c; try reflexivity.
    destruct (rate_lookup s EXCHANGE_RATES) as [r|] eqn:E; [|reflexivity].
    exact (rate_lookup_Forall (λ r, (0 < r)%Q) _ _ _ rates_positive E).
  - intros amount'. by rewrite Hc.
Qed.


(** *** The daily cost *)

(** X13. Recomputing the daily cost of a day that was recomputed changes
    nothing: the stored cost is already the integer part of the larger of
    itself and the line items. *)
Theorem recompute_daily_cost_idempotent (day day' : json) :
  recompute_daily_cost day = Ok day' ->
  recompute_daily_cost day' = Ok day'.
Proof.
  intros H.
  apply recompute_daily_cost_inv in H as (kv & sum & reported & -> & Hs & Hr & ->).
  set (m := if Qgtb reported sum then reported else sum).
  assert (sum <= m)%Q as Hm.
  { unfold m. destruct (Qgtb reported sum) eqn:E; [|apply Qle_refl].
    apply Qgtb_lt in E. by apply Qlt_le_weak. }
  unfold recompute_daily_cost.
  rewrite line_items_daily_cost, Hs. simpl.
  rewrite dict_lookup_set_eq. simpl.
  assert (trunc (if Qgtb (inject_Z (trunc m)) sum then inject_Z (trunc m) else sum)
          = trunc m) as ->.
  { destruct (Qgtb (inject_Z (trunc m)) sum) eqn:E.
    - apply trunc_inject.
    - apply Qgtb_le in E. apply Z.le_antisymm.
      + by apply trunc_mono.
      + by apply trunc_lower_bound. }
  exact (setitem_idem (JObj kv) _ "daily_cost" _ eq_refl).
Qed.

(** *** The price per night *)

Section Repairs.
Variable float_repr : Q -> string.
Variable float_of_string : string -> option Q.
Variable days_between : string -> string -> option Z.

(** X14. When the price of the hotel carries no price per night, the one
  that is derived from a total that is not negative lies between zero and
  the total: the total is divided by the number of nights, which is taken
  as one at least, and kept as it is when the dates do not parse. *)
Theorem derived_per_night_is_bounded (hotels_data price_info v : json)
  (hotel_total per_night : Q) :
per_night_of float_of_string days_between hotels_data price_info hotel_total
= Ok per_night ->
get_ price_info "per_night" = Ok v -> truthy v = false ->
(0 <= hotel_total)%Q ->
(0 <= per_night)%Q ∧ (per_night <= hotel_total)%Q.
Proof.
unfold per_night_of. intros H Hv Ht Htotal. rewrite Hv in H. simpl in H.
rewrite Ht in H. change (Qeq_bool 0 0) with true in H. simpl in H.
destruct (Qgtb hotel_total 0) eqn:Hpos; [|injection H as <-; by split; [apply Qle_refl|]].
inv_bind H as sp Hsp. inv_bind H as check_in Hin. inv_bind H as check_out Hout.
destruct (truthy check_in && truthy check_out);
  [|injection H as <-; by split; [apply Qle_refl|]].
destruct (nights_between days_between check_in check_out) as [nights|] eqn:Hn;
  injection H as <-; [|by split; [|apply Qle_refl]].
assert (1 <= nights) as Hnights.
{ unfold nights_between in Hn. destruct check_in; try done.
  destruct check_out; try done.
  destruct (days_between s s0); [|done]. injection Hn as <-. lia. }
assert (0 < inject_Z nights)%Q as Hq by (unfold Qlt, inject_Z; simpl; lia).
split.
- apply Qle_shift_div_l; [done|]. by rewrite Qmult_0_l.
- apply Qle_shift_div_r; [done|].
  rewrite <- (Qmult_1_r hotel_total) at 1.
  apply Qmult_le_l.
  + by apply Qgtb_lt in Hpos.
  + unfold Qle, inject_Z. simpl. lia.
Qed.

(** *** The flight repair *)

Lemma leg_summary_truthy (flight : json) (leg : string) (dep_time arr_time v : json) :
leg_summary float_repr flight leg dep_time arr_time = Ok v -> truthy v = true.
Proof.
unfold leg_summary. intros H.
inv_bind H as dep_airport Hd. inv_bind H as arr_airport Ha. injection H as <-.
unfold fstr. by destruct (str float_repr dep_airport).
Qed.

(** X15. The flight repair is idempotent: a plan that went through it
  comes out of a second pass with the same flight data as it is.  The
  summary texts that the repair writes for the two legs are never empty,
  so the repaired flight counts as complete. *)
Theorem flight_repair_idempotent (flights_data final_plan final_plan' : json) :
flight_repair float_repr flights_data final_plan = Ok final_plan' ->
flight_repair float_repr flights_data final_plan' = Ok final_plan'.
Proof.
intros H. pose proof H as H0. unfold flight_repair in H.
inv_bind H as selected_flight Hsf. inv_bind H as ok Hok. inv_bind H as fl Hfl.
destruct (truthy ok && truthy fl) eqn:Hg; [|by injection H as <-].
inv_bind H as top Htop. inv_bind H as ob Hob. inv_bind H as missing Hmiss.
destruct missing; [|by injection H as <-].
inv_bind H as out_dep Hod. inv_bind H as out_arr Hoa.
inv_bind H as in_dep Hid. inv_bind H as in_arr Hia.
inv_bind H as codes Hcodes. inv_bind H as airline Hair.
inv_bind H as price Hprice. inv_bind H as total Htotal.
inv_bind H as outbound Hout. inv_bind H as inbound Hinb.
inv_bind H as booking_url Hurl.
apply leg_summary_truthy in Hout, Hinb.
apply setitem_Ok in H as (kv & -> & ->).
unfold flight_repair. rewrite get_setitem_eq. simpl.
rewrite Hok. simpl. rewrite Hfl. simpl. rewrite Hg, Htop. simpl.
rewrite Hout. simpl. rewrite Hinb. done.
Qed.

(** *** What the repairs leave alone *)

Lemma field_setitem_ne (d d' : json) (k k' : string) (v : json) :
setitem d k' v = Ok d' -> k ≠ k' -> field d' k = field d k.
Proof.
intros (kv & -> & ->)%setitem_Ok Hk. simpl. by apply dict_lookup_set_ne.
Qed.

Lemma field_catch_setitem (d : json) (k k' : string) (v : json) :
k ≠ k' -> field (catch (setitem d k' v) d) k = field d k.
Proof.
intros Hk. destruct d; try done. simpl. by apply dict_lookup_set_ne.
Qed.

Lemma restaurant_repair_frame (places_info final_plan : json) (k : string) :
k ≠ "itinerary" ->
field (restaurant_repair float_repr places_info final_plan) k = field final_plan k.
Proof.
intros Hk. unfold restaurant_repair, restaurant_body.
destruct (get_ places_info "success") as [ok|e]; simpl; [|done].
destruct (if truthy ok then get_ places_info "places" else Ok JNull)
  as [ps|e]; simpl; [|done].
destruct (if truthy ok && truthy ps then get_ final_plan "itinerary" else Ok JNull)
  as [it|e]; simpl; [|done].
destruct (truthy ok && truthy ps && truthy it); simpl; [|done].
destruct (all_restaurants places_info) as [rs|e]; simpl; [|done].
destruct it as [| | | | |days|]; simpl; try done; try (by repeat case_match).
destruct (loop_in_place (fix_day float_repr rs) 0%nat days) as [[days' idx] e].
simpl. by apply field_catch_setitem.
Qed.

Lemma flight_repair_frame (flights_data final_plan final_plan' : json) (k : string) :
flight_repair float_repr flights_data final_plan = Ok final_plan' ->
k ≠ "selected_flight" ->
field final_plan' k = field final_plan k.
Proof.
unfold flight_repair. intros H Hk.
inv_bind H as selected_flight Hsf. inv_bind H as ok Hok. inv_bind H as fl Hfl.
destruct (truthy ok && truthy fl); [|by injection H as <-].
inv_bind H as top Htop. inv_bind H as ob Hob. inv_bind H as missing Hmiss.
destruct missing; [|by injection H as <-].
repeat (let x := fresh "x" in let Hx := fresh "Hx" in inv_bind H as x Hx).
by eapply field_setitem_ne.
Qed.

Lemma for_days_frame (f : json -> result json) (final_plan itinerary final_plan' : json)
  (k : string) :
for_days f final_plan itinerary = Ok final_plan' ->
k ≠ "itinerary" ->
field final_plan' k = field final_plan k.
Proof.
unfold for_days. intros H Hk.
inv_bind H as days Hdays. inv_bind H as days' Hmap.
destruct itinerary; try (by injection H as <-). by eapply field_setitem_ne.
Qed.

Lemma hotel_repair_frame (hotels_data final_plan final_plan' : json) (k : string) :
hotel_repair float_repr float_of_string days_between hotels_data final_plan
= Ok final_plan' ->
k ≠ "selected_hotel" -> k ≠ "itinerary" ->
field final_plan' k = field final_plan k.
Proof.
unfold hotel_repair. intros H Hk1 Hk2.
inv_bind H as ok Hok. inv_bind H as hs Hhs.
destruct (truthy ok && truthy hs); [|by injection H as <-].
inv_bind H as top Htop. inv_bind H as nh Hnh. destruct nh as [normalized per_night].
inv_bind H as plan1 Hplan1. inv_bind H as it Hit.
rewrite <- (field_setitem_ne _ _ k _ _ Hplan1 Hk1).
destruct (truthy it); [|by injection H as <-].
by eapply for_days_frame.
Qed.

Lemma link_hotel_frame (final_plan itinerary final_plan' itinerary' : json)
  (k : string) :
link_hotel float_repr final_plan itinerary = Ok (final_plan', itinerary') ->
k ≠ "selected_hotel" ->
field final_plan' k = field final_plan k.
Proof.
unfold link_hotel. intros H Hk.
inv_bind H as selected_hotel Hsh. inv_bind H as hotel_name Hn.
destruct (truthy hotel_name); [|by injection H as <- <-].
inv_bind H as dest Hd. inv_bind H as dest' Hd'.
inv_bind H as sh Hs. inv_bind H as plan1 Hp.
inv_bind H as days Hdays. inv_bind H as days' Hmap. injection H as <- <-.
by eapply field_setitem_ne.
Qed.

Lemma transport_and_cost_frame (flights_data final_plan final_plan' : json)
  (k : string) :
transport_and_cost float_repr flights_data final_plan = Ok final_plan' ->
k ≠ "selected_flight" -> k ≠ "selected_hotel" -> k ≠ "itinerary" ->
field final_plan' k = field final_plan k.
Proof.
unfold transport_and_cost. intros H Hk1 Hk2 Hk3.
inv_bind H as days Hdays. inv_bind H as d Hd. inv_bind H as it Hit.
inv_bind H as sf Hsf.
destruct (Qgtb d 1 && truthy it && truthy sf); [|by injection H as <-].
inv_bind H as url Hurl. inv_bind H as selected_flight Hsel.
inv_bind H as plan1 Hplan1. inv_bind H as n Hn. inv_bind H as ob Hob.
inv_bind H as it1 Hit1. inv_bind H as ib Hib. inv_bind H as p2 Hp2.
destruct p2 as [plan2 it2]. inv_bind H as plan3 Hplan3.
rewrite (for_days_frame _ _ _ _ k H Hk3).
rewrite (field_setitem_ne _ _ k _ _ Hplan3 Hk3).
rewrite <- (field_setitem_ne _ _ k _ _ Hplan1 Hk1).
destruct (Qgtb (inject_Z (Z.of_nat n)) (d - 1) && truthy ib);
  [|by injection Hp2 as <- <-].
inv_bind Hp2 as i Hi. inv_bind Hp2 as it' Hit'.
by eapply link_hotel_frame.
Qed.

(** X16. The four repairs write three keys of the plan and no other: the
  itinerary, the selected flight and the selected hotel.  Every other key
  of the plan, such as the destination, the number of days or the budget
  breakdown, has after the repairs the value it had before, and none of
  them is added or removed. *)
Theorem reconcile_keeps_other_keys
  (places_info flights_data hotels_data final_plan final_plan' : json) (k : string) :
reconcile float_repr float_of_string days_between
  places_info flights_data hotels_data final_plan = Ok final_plan' ->
k ∉ [ "itinerary"; "selected_flight"; "selected_hotel" ] ->
field final_plan' k = field final_plan k.
Proof.
unfold reconcile. intros H Hk.
assert (k ≠ "itinerary" ∧ k ≠ "selected_flight" ∧ k ≠ "selected_hotel")
  as (Hk1 & Hk2 & Hk3) by set_solver.
inv_bind H as plan1 Hp1. inv_bind H as plan2 Hp2.
rewrite (transport_and_cost_frame _ _ _ k H Hk2 Hk3 Hk1).
rewrite (hotel_repair_frame _ _ _ k Hp2 Hk3 Hk1).
rewrite (flight_repair_frame _ _ _ k Hp1 Hk2).
by apply restaurant_repair_frame.
Qed.

(** *** The hotel of the plan and the hotel of the budget summary *)

Lemma trunc_comp (a b : Q) : (a == b)%Q -> trunc a = trunc b.
Proof. intros H. apply Z.le_antisymm; apply trunc_mono; rewrite H; apply Qle_refl. Qed.

Lemma dict_set_nonempty (k : string) (v : json) (kv : list (string * json)) :
dict_set k v kv ≠ [].
Proof.
destruct kv as [|[k' v'] kv]; cbn [dict_set]; [done|].
by destruct (String.eqb k k').
Qed.

Lemma field_get (d : json) (k : string) (dflt v : json) :
get d k dflt = Ok v -> v = default dflt (field d k).
Proof. destruct d; try done. by intros [= <-]. Qed.

Lemma normalize_hotel_inv (hotels_data api_top_hotel normalized_hotel : json)
  (hotel_per_night : Q) :
normalize_hotel float_repr float_of_string days_between hotels_data api_top_hotel
= Ok (normalized_hotel, hotel_per_night) ->
∃ p total currency krw,
  get api_top_hotel "price" (JObj []) = Ok p ∧
  first_float float_of_string (or_else p (JObj [])) [ "total"; "base" ] = Ok total ∧
  convert_to_krw total currency = Ok krw ∧
  truthy normalized_hotel = true ∧
  field normalized_hotel "price" = None ∧
  field normalized_hotel "estimated_cost" = Some (JFloat total) ∧
  field normalized_hotel "currency" = Some currency ∧
  field normalized_hotel "estimated_cost_krw" = Some (JInt krw).
Proof.
unfold normalize_hotel. intros H.
inv_bind H as p Hp. inv_bind H as total Htotal. inv_bind H as pn Hpn.
inv_bind H as hname Hname. inv_bind H as address Haddr. inv_bind H as rating Hr.
inv_bind H as currency Hc. inv_bind H as krw Hkrw.
repeat (let x := fresh "x" in let Hx := fresh "Hx" in inv_bind H as x Hx).
injection H as <- <-. by exists p, total, currency, krw.
Qed.

Lemma hotel_repair_selected (hotels_data final_plan final_plan' ok hs : json) :
hotel_repair float_repr float_of_string days_between hotels_data final_plan
= Ok final_plan' ->
get_ hotels_data "success" = Ok ok -> truthy ok = true ->
get_ hotels_data "hotels" = Ok hs -> truthy hs = true ->
∃ top normalized_hotel hotel_per_night,
  index hs 0 = Ok top ∧
  normalize_hotel float_repr float_of_string days_between hotels_data top
  = Ok (normalized_hotel, hotel_per_night) ∧
  field final_plan' "selected_hotel" = Some normalized_hotel.
Proof.
unfold hotel_repair. intros H Hok Ht Hhs Hhst.
rewrite Hok in H. simpl in H. rewrite Ht, Hhs in H. simpl in H.
rewrite Hhst in H. simpl in H.
inv_bind H as top Htop. inv_bind H as nh Hnh. destruct nh as [normalized per_night].
inv_bind H as plan1 Hplan1. inv_bind H as it Hit.
exists top, normalized, per_night. split; [done|]. split; [done|].
assert (field plan1 "selected_hotel" = Some normalized) as Hsel.
{ apply setitem_Ok in Hplan1 as (kv & -> & ->). simpl. apply dict_lookup_set_eq. }
destruct (truthy it); [|by injection H as <-].
by rewrite (for_days_frame _ _ _ _ "selected_hotel" H).
Qed.

Lemma link_hotel_selected (final_plan itinerary final_plan' itinerary' sh : json) :
link_hotel float_repr final_plan itinerary = Ok (final_plan', itinerary') ->
field final_plan "selected_hotel" = Some sh ->
∃ sh', field final_plan' "selected_hotel" = Some sh' ∧
       (sh' = sh ∨ ∃ url, setitem sh "booking_url" url = Ok sh').
Proof.
unfold link_hotel. intros H Hsh.
inv_bind H as selected_hotel Hget. apply field_get in Hget. rewrite Hsh in Hget.
simpl in Hget. subst selected_hotel.
inv_bind H as hotel_name Hn.
destruct (truthy hotel_name); [|injection H as <- <-; exists sh; by split; [|left]].
inv_bind H as dest Hd. inv_bind H as dest' Hd'.
inv_bind H as sh' Hs. inv_bind H as plan1 Hp.
inv_bind H as days Hdays. inv_bind H as days' Hmap. injection H as <- <-.
exists sh'. split; [|right; by eexists].
apply setitem_Ok in Hp as (kv & -> & ->). simpl. apply dict_lookup_set_eq.
Qed.

Lemma transport_and_cost_selected (flights_data final_plan final_plan' sh : json) :
transport_and_cost float_repr flights_data final_plan = Ok final_plan' ->
field final_plan "selected_hotel" = Some sh ->
∃ sh', field final_plan' "selected_hotel" = Some sh' ∧
       (sh' = sh ∨ ∃ url, setitem sh "booking_url" url = Ok sh').
Proof.
unfold transport_and_cost. intros H Hsh.
inv_bind H as days Hdays. inv_bind H as d Hd. inv_bind H as it Hit.
inv_bind H as sf Hsf.
destruct (Qgtb d 1 && truthy it && truthy sf);
  [|injection H as <-; exists sh; by split; [|left]].
inv_bind H as url Hurl. inv_bind H as selected_flight Hsel.
inv_bind H as plan1 Hplan1. inv_bind H as n Hn. inv_bind H as ob Hob.
inv_bind H as it1 Hit1. inv_bind H as ib Hib. inv_bind H as p2 Hp2.
destruct p2 as [plan2 it2]. inv_bind H as plan3 Hplan3.
rewrite (for_days_frame _ _ _ _ "selected_hotel" H) by done.
rewrite (field_setitem_ne _ _ "selected_hotel" _ _ Hplan3) by done.
rewrite <- (field_setitem_ne _ _ "selected_hotel" _ _ Hplan1) in Hsh by done.
destruct (Qgtb (inject_Z (Z.of_nat n)) (d - 1) && truthy ib);
  [|injection Hp2 as <- <-; exists sh; by split; [|left]].
inv_bind Hp2 as i Hi. inv_bind Hp2 as it' Hit'.
by eapply link_hotel_selected.
Qed.

(** The two loops over the keys of a price agree: the fallback of the
  summary gives the total that the repair found, or zero. *)
Lemma first_priced_agrees (kv : list (string * json)) (keys : list string) (total : Q) :
first_float float_of_string (JObj kv) keys = Ok total ->
catch (first_priced float_of_string kv keys) 0%Q = total
∨ catch (first_priced float_of_string kv keys) 0%Q = 0%Q.
Proof.
induction keys as [|key keys IH]; simpl; intros H.
- injection H as <-. by left.
- destruct (dict_lookup key kv) as [v|] eqn:Hv; simpl in H.
  + destruct (truthy v).
    * destruct (to_float float_of_string v) as [q|e]; simpl.
      -- injection H as <-. by left.
      -- by right.
    * by apply IH.
  + by apply IH.
Qed.

(** X23. The hotel figure of the budget summary is the one shown with the
  selected hotel.  After the repairs of a plan for which the hotel search
  succeeded with hotels, the summary converts the very total that the
  hotel repair stored, at the same currency: its hotel total in won is the
  selected hotel's estimated cost in won, and its currency is the selected
  hotel's. *)
Theorem summary_agrees_with_selected_hotel (budget : Z)
  (places_info flights_data hotels_data final_plan final_plan' ok hs : json)
  (b : budget_summary) :
reconcile float_repr float_of_string days_between
  places_info flights_data hotels_data final_plan = Ok final_plan' ->
get_ hotels_data "success" = Ok ok -> truthy ok = true ->
get_ hotels_data "hotels" = Ok hs -> truthy hs = true ->
summarize float_of_string budget flights_data hotels_data final_plan' = Ok b ->
∃ selected_hotel,
  field final_plan' "selected_hotel" = Some selected_hotel ∧
  field selected_hotel "estimated_cost_krw" = Some (JInt (hotel_total_krw b)) ∧
  field selected_hotel "currency" = Some (hotel_currency b).
Proof.
unfold reconcile. intros H Hok Ht Hhs Hhst Hsum.
inv_bind H as plan1 Hp1. inv_bind H as plan2 Hp2.
destruct (hotel_repair_selected _ _ _ _ _ Hp2 Hok Ht Hhs Hhst)
  as (top & normalized & per_night & Htop & Hnorm & Hsel).
destruct (normalize_hotel_inv _ _ _ _ Hnorm)
  as (p & total & currency & krw & Hp & Htotal & Hkrw & Htr & Hprice & Hcost & Hcur & Hk).
destruct (transport_and_cost_selected _ _ _ _ H Hsel) as (sh' & Hsel' & Hsh').
assert (truthy sh' = true ∧ field sh' "price" = None ∧
        field sh' "estimated_cost" = Some (JFloat total) ∧
        field sh' "currency" = Some currency ∧
        field sh' "estimated_cost_krw" = Some (JInt krw))
  as (Htr' & Hprice' & Hcost' & Hcur' & Hk').
{ destruct Hsh' as [->|[url Hurl]]; [done|].
  rewrite !(field_setitem_ne _ _ _ _ _ Hurl) by done.
  split_and!; try done.
  apply setitem_Ok in Hurl as (kv & -> & ->). simpl.
  apply negb_true_iff, bool_decide_eq_false_2, dict_set_nonempty. }
exists sh'. split; [done|].
unfold summarize in Hsum.
inv_bind Hsum as raw_flight Hfl. inv_bind Hsum as rh Hrh.
destruct rh as [raw_hotel selected_hotel].
inv_bind Hsum as cur Hc. inv_bind Hsum as krw' Hkrw'. injection Hsum as <-. simpl.
unfold raw_hotel_total in Hrh.
inv_bind Hrh as sh Hsh. apply field_get in Hsh. rewrite Hsel' in Hsh. simpl in Hsh.
subst sh.
assert (or_else sh' (JObj []) = sh') as Hsame by (unfold or_else; by rewrite Htr').
cbv zeta in Hrh. rewrite !Hsame in Hrh.
inv_bind Hrh as pr Hpr. apply field_get in Hpr. rewrite Hprice' in Hpr. simpl in Hpr.
subst pr. simpl in Hrh.
inv_bind Hrh as ec Hec. apply field_get in Hec. rewrite Hcost' in Hec. simpl in Hec.
subst ec. inv_bind Hrh as ht Hht. injection Hrh as <- <-.
apply field_get in Hc. rewrite Hcur' in Hc. simpl in Hc. subst cur.
split; [|done]. rewrite Hk'. do 2 f_equal.
destruct (convert_to_krw_rate _ _ _ Hkrw) as (rate & _ & -> & Hall).
assert (ht == total)%Q as Heq; [|rewrite Hall in Hkrw'; injection Hkrw' as <-;
                                 apply trunc_comp; by rewrite Heq].
simpl in Hht. destruct (Qeq_bool total 0) eqn:Hz; simpl in Hht.
- apply Qeq_bool_iff in Hz.
  assert (truthy hotels_data = true) as Hhd.
  { destruct hotels_data as [| | | | | |kvh]; try done. simpl in Hhs.
    destruct kvh; [|done]. simpl in Hhs. injection Hhs as <-. done. }
  rewrite Hhd in Hht. change (Qeq_bool 0 0) with true in Hht. simpl in Hht.
  rewrite Hok in Hht. simpl in Hht. rewrite Ht, Hhs in Hht. simpl in Hht.
  rewrite Hhst in Hht. injection Hht as <-.
  unfold fallback_hotel_total. rewrite Htop. simpl. rewrite Hp. simpl.
  destruct p as [| | | | | |kvp]; simpl; try (by rewrite Hz).
  assert (or_else (JObj kvp) (JObj []) = JObj kvp) as Hor.
  { unfold or_else. simpl. destruct kvp; done. }
  rewrite Hor in Htotal.
  pose proof (first_priced_agrees _ _ _ Htotal) as E. simpl in E |- *.
  destruct E as [-> | ->]; [done|by rewrite Hz].
- rewrite Hz in Hht. simpl in Hht. injection Hht as <-. reflexivity.
Qed.
End Repairs.

(** X16 on the sample data: the destination of the plan. *)
Lemma reconcile_keeps_other_keys_witness :
  ∃ final_plan',
    reconcile show_float no_float two_nights
      sample_places sample_flights sample_hotels sample_plan = Ok final_plan' ∧
    field final_plan' "destination" = field sample_plan "destination".
Proof.
  assert (∃ p, reconcile show_float no_float two_nights
                 sample_places sample_flights sample_hotels sample_plan = Ok p)
    as [p Hp] by (eexists; vm_compute; reflexivity).
  exists p. split; [exact Hp|].
  apply (reconcile_keeps_other_keys show_float no_float two_nights
           sample_places sample_flights sample_hotels sample_plan p "destination" Hp).
  intros Hin. repeat (apply elem_of_cons in Hin as [Hin|Hin]; [discriminate Hin|]).
  by apply elem_of_nil in Hin.
Defined.

(** X14 on the sample search: 301 dollars for two nights. *)
Lemma derived_per_night_is_bounded_witness :
  per_night_of no_float two_nights sample_hotels
    (JObj [ ("total", JFloat 301); ("currency", JStr "USD") ]) 301 = Ok (301 # 2) ∧
  (0 <= 301 # 2)%Q ∧ (301 # 2 <= 301)%Q.
Proof.
  split; [reflexivity|].
  apply (derived_per_night_is_bounded no_float two_nights sample_hotels
           (JObj [ ("total", JFloat 301); ("currency", JStr "USD") ]) JNull 301);
    [reflexivity|reflexivity|reflexivity|by unfold Qle].
Defined.

(** X15 on the sample plan and the sample flight search. *)
Lemma flight_repair_idempotent_witness :
  ∃ final_plan',
    flight_repair show_float sample_flights sample_plan = Ok final_plan' ∧
    final_plan' ≠ sample_plan ∧
    flight_repair show_float sample_flights final_plan' = Ok final_plan'.
Proof.
  assert (∃ p, flight_repair show_float sample_flights sample_plan = Ok p) as [p Hp]
    by (eexists; vm_compute; reflexivity).
  exists p. split; [exact Hp|]. split.
  - intros ->. vm_compute in Hp. discriminate Hp.
  - exact (flight_repair_idempotent show_float sample_flights sample_plan p Hp).
Defined.


(** X13 on a day whose reported cost is below its line items. *)
Lemma recompute_daily_cost_idempotent_witness :
  recompute_daily_cost (sample_day 2 "지하철" "Hotel X" 101000)
  = Ok (sample_day 2 "지하철" "Hotel X" 101000).
Proof.
  apply (recompute_daily_cost_idempotent (sample_day 2 "지하철" "Hotel X" 100000)).
  vm_compute. reflexivity.
Defined.

(** X23 on the sample data: 301 dollars are 415380 won. *)
Lemma summary_agrees_with_selected_hotel_witness :
  ∃ final_plan' b selected_hotel,
    reconcile show_float no_float two_nights
      sample_places sample_flights sample_hotels sample_plan = Ok final_plan' ∧
    summarize no_float 1000000 sample_flights sample_hotels final_plan' = Ok b ∧
    hotel_total_krw b = 415380 ∧
    field final_plan' "selected_hotel" = Some selected_hotel ∧
    field selected_hotel "estimated_cost_krw" = Some (JInt (hotel_total_krw b)) ∧
    field selected_hotel "currency" = Some (hotel_currency b).
Proof.
  assert (∃ p, reconcile show_float no_float two_nights
                 sample_places sample_flights sample_hotels sample_plan = Ok p)
    as [p Hp] by (eexists; vm_compute; reflexivity).
  assert (∃ b, summarize no_float 1000000 sample_flights sample_hotels p = Ok b ∧
               hotel_total_krw b = 415380) as (b & Hb & Hk).
  { vm_compute in Hp. injection Hp as <-. eexists. split; vm_compute; reflexivity. }
  destruct (summary_agrees_with_selected_hotel show_float no_float two_nights 1000000
              sample_places sample_flights sample_hotels sample_plan p
              (JBool true) _ b Hp eq_refl eq_refl eq_refl eq_refl Hb)
    as (sh & H).
  exists p, b, sh. exact (conj Hp (conj Hb (conj Hk H))).
Defined.

End RepairFacts.

(** ** More on merging forecasts *)

Module MergeFacts.
Import Py PyFacts Weather Notions Examples WeatherFacts.

Lemma in_set_app (d : json) (set more : list json) :
  in_set d set = true -> in_set d (set ++ more) = true.
Proof. unfold in_set. rewrite existsb_app. by intros ->. Qed.

Lemma in_set_elem (d : json) (set : list json) :
  in_set d set = true <-> ∃ x, x ∈ set ∧ py_eq d x = true.
Proof.
  unfold in_set. rewrite existsb_exists. split.
  - intros (x & Hin & Heq). exists x. by rewrite list_elem_of_In.
  - intros (x & Hin & Heq). exists x. by rewrite <- list_elem_of_In.
Qed.

(** After the loop, the date of every supplementary entry is among the
    dates of the list. *)
Lemma merge_new_covers (news fl existing result : list json) :
  merge_new true news fl existing = Ok result ->
  existing = date_of <$> fl ->
  Forall (λ n, in_set (date_of n) (date_of <$> result) = true) news.
Proof.
  revert fl existing. induction news as [|new_f news IH]; intros fl existing H He.
  - constructor.
  - pose proof H as H0. simpl in H. inv_bind H as a Ha. inv_bind H as a' Ha'.
    apply hashed_Ok in Ha' as [-> Hh]. apply get_date in Ha.
    destruct (in_set a existing) eqn:Hin.
    + constructor; [|by eapply IH].
      destruct (merge_new_spec _ _ _ _ H He) as (added & -> & _).
      rewrite fmap_app, Ha, <- He. by apply in_set_app.
    + constructor; [|eapply IH; [exact H|]].
      * destruct (merge_new_spec _ _ _ _ H) as (added & -> & _).
        { rewrite fmap_app, He. simpl. by rewrite Ha. }
        rewrite !fmap_app, Ha. simpl. apply in_set_app.
        unfold in_set. rewrite existsb_app. simpl.
        rewrite Ha, (py_eq_refl a Hh). by rewrite orb_true_r.
      * rewrite fmap_app, He. simpl. by rewrite Ha.
Qed.

(** X17. The merged forecast loses nothing: it holds every entry of the
    original forecast, and for every entry of the supplementary forecast an
    entry whose date is equal to that entry's date (an entry without a date
    counts as dated [None]). *)
Theorem merged_forecast_covers_both (orig : list json) (new_forecast r : json) :
  merge_forecast (JArr orig) new_forecast = Ok r ->
  ∃ news l,
    iter new_forecast = Ok news ∧ r = JArr l ∧
    Forall (λ o, o ∈ l) orig ∧
    Forall (λ n, ∃ x, x ∈ l ∧ py_eq (date_of n) (date_of x) = true) news.
Proof.
  unfold merge_forecast. intros H. simpl in H.
  inv_bind H as existing Hex. inv_bind H as news Hnews.
  inv_bind H as merged Hm. inv_bind H as sorted Hsort. injection H as <-.
  apply date_set_spec in Hex as ->.
  destruct (merge_new_spec _ _ _ _ Hm eq_refl) as (added & Hmerged & _).
  pose proof (merge_new_covers _ _ _ _ Hm eq_refl) as Hcov.
  destruct (sort_by_date_spec _ _ Hsort) as [Hperm _].
  exists news, sorted. split_and!; try done.
  - apply Forall_forall. intros o Ho. rewrite Hperm, Hmerged.
    apply elem_of_app. by left.
  - eapply Forall_impl; [exact Hcov|]. intros n Hn. simpl in Hn.
    apply in_set_elem in Hn as (d & Hd & Heq).
    apply list_elem_of_fmap in Hd as (x & -> & Hx).
    exists x. by rewrite Hperm.
Qed.

(** X17 on a forecast of one day and the sample forecast of three. *)
Lemma merged_forecast_covers_both_witness :
  let orig := [ forecast_entry "2025-11-10" 10 ] in
  ∃ news l,
    merge_forecast (JArr orig) (JArr sample_forecast) = Ok (JArr l) ∧
    iter (JArr sample_forecast) = Ok news ∧
    Forall (λ o, o ∈ l) orig ∧
    Forall (λ n, ∃ x, x ∈ l ∧ py_eq (date_of n) (date_of x) = true) news.
Proof.
  intros orig.
  assert (∃ l, merge_forecast (JArr orig) (JArr sample_forecast) = Ok (JArr l))
    as [l Hl] by (eexists; vm_compute; reflexivity).
  destruct (merged_forecast_covers_both orig (JArr sample_forecast) (JArr l) Hl)
    as (news & l' & Hn & Heq & H).
  injection Heq as <-. exists news, l. exact (conj Hl (conj Hn H)).
Defined.

End MergeFacts.

(** ** The choice of a template *)

Module PlannerFacts.
Import Py PyFacts Planner Notions Examples ExamplesX.

(** The loop keeps the templates that pass the test, and those only. *)
Lemma select_spec (dest : string) (days : json) (ts similar : list json) :
  select dest days ts = Ok similar ->
  similar `sublist_of` ts ∧
  ∀ t, t ∈ similar <-> t ∈ ts ∧ similar_to dest days t = Ok true.
Proof.
  revert similar. induction ts as [|t0 ts IH]; intros similar H; simpl in H.
  - injection H as <-. split; [done|]. intros t. split; [by intros ?%elem_of_nil|].
    by intros [?%elem_of_nil _].
  - inv_bind H as b Hb. inv_bind H as rest Hrest. injection H as <-.
    destruct (IH rest Hrest) as [Hsub Hiff]. destruct b.
    + split; [by apply sublist_skip|]. intros t. rewrite !elem_of_cons, Hiff. split.
      * intros [->|[Hin Ht]]; [by split; [left|]|by split; [right|]].
      * intros [[->|Hin] Ht]; [by left|by right].
    + split; [by apply sublist_cons|]. intros t. rewrite elem_of_cons, Hiff. split.
      * intros [Hin Ht]. by split; [right|].
      * intros [[->|Hin] Ht]; [congruence|done].
Qed.

(** X18. With no template the planner works from the empty dictionary.
    Otherwise the template it draws is one of its templates, and whenever
    some template passes the test of similarity (the destinations contain
    one another, or the lengths of the trips differ by a day at most) the
    one that is drawn passes it as well. *)
Theorem drawn_template_is_similar (templates : list json) (choice : list json -> json)
    (query t : json) :
  (∀ l, l ≠ [] -> choice l ∈ l) ->
  find_similar_template templates choice query = Ok t ->
  ∃ dest days,
    get query "destination" (JStr "") ≫= lower_text = Ok dest ∧
    get query "days" (JInt 3) = Ok days ∧
    if bool_decide (templates = []) then t = JObj []
    else
      t ∈ templates ∧
      ∀ t', t' ∈ templates -> similar_to dest days t' = Ok true ->
            similar_to dest days t = Ok true.
Proof.
  intros Hchoice H. unfold find_similar_template in H.
  inv_bind H as d Hd. inv_bind H as dest Hdest. inv_bind H as days Hdays.
  inv_bind H as similar Hsel. injection H as <-.
  exists dest, days. rewrite Hd. simpl. split; [done|]. split; [done|].
  destruct (select_spec _ _ _ _ Hsel) as [Hsub Hiff].
  destruct similar as [|t1 similar].
  - destruct templates as [|t0 templates]; [done|].
    rewrite bool_decide_eq_false_2 by done. split; [by apply Hchoice|].
    intros t' Hin Ht'. exfalso.
    assert (t' ∈ @nil json) as Habs by (apply Hiff; by split).
    by apply elem_of_nil in Habs.
  - assert (choice (t1 :: similar) ∈ t1 :: similar) as Hin by (by apply Hchoice).
    apply Hiff in Hin as [Hin Ht].
    destruct templates as [|t0 templates]; [by apply elem_of_nil in Hin|].
    rewrite bool_decide_eq_false_2 by done. split; [done|]. by intros _ _ _.
Qed.

(** X18 on the fallback templates and the request of scenario A. *)
Lemma drawn_template_is_similar_witness :
  ∃ t dest days,
    find_similar_template fallback_templates first_choice Stylist.scenario_A = Ok t ∧
    get Stylist.scenario_A "destination" (JStr "") ≫= lower_text = Ok dest ∧
    get Stylist.scenario_A "days" (JInt 3) = Ok days ∧
    if bool_decide (fallback_templates = []) then t = JObj []
    else
      t ∈ fallback_templates ∧
      ∀ t', t' ∈ fallback_templates -> similar_to dest days t' = Ok true ->
            similar_to dest days t = Ok true.
Proof.
  assert (∃ t, find_similar_template fallback_templates first_choice Stylist.scenario_A
               = Ok t) as [t Ht] by (eexists; vm_compute; reflexivity).
  assert (∀ l, l ≠ [] -> first_choice l ∈ l) as Hchoice.
  { intros [|x l] Hl; [done|]. by left. }
  destruct (drawn_template_is_similar fallback_templates first_choice
              Stylist.scenario_A t Hchoice Ht) as (dest & days & H).
  exists t, dest, days. exact (conj Ht H).
Defined.

End PlannerFacts.

(** ** The form and the links of the request handler *)

Module HandlerFacts.
Import Py PyFacts Reconcile Handler Notions NotionsX Examples ExamplesX.

(** X19. A request reaches the server only when the system is initialised
    and both dates are given and parse, the return no earlier than the
    departure and the trip no longer than 14 days: the number of days of the
    request is the difference of the dates plus one, between 1 and 14.  Its
    destination is a text, and its numbers of people and budget are
    integers. *)
Theorem accepted_form_is_checked (day_number int_of_string : string -> option Z)
    (init_system : bool) (form : gmap string string) (query : json) :
  check_form day_number int_of_string init_system form = Accepted query ->
  ∃ departure_date return_date dep_date ret_date destination people budget,
    form !! "departure_date" = Some departure_date ∧
    form !! "return_date" = Some return_date ∧
    day_number departure_date = Some dep_date ∧
    day_number return_date = Some ret_date ∧
    1 <= ret_date - dep_date + 1 <= 14 ∧
    init_system = true ∧
    field query "days" = Some (JInt (ret_date - dep_date + 1)) ∧
    field query "departure_date" = Some (JStr departure_date) ∧
    field query "return_date" = Some (JStr return_date) ∧
    field query "destination" = Some (JStr destination) ∧
    field query "people" = Some (JInt people) ∧
    field query "budget" = Some (JInt budget).
Proof.
  unfold check_form. intros H.
  destruct (form !! "departure_date") as [departure_date|] eqn:Hdep; [|done].
  destruct (form !! "return_date") as [return_date|] eqn:Hret;
    [|simpl in H; by rewrite orb_true_r in H].
  simpl in H.
  destruct (String.eqb departure_date "" || String.eqb return_date ""); [done|].
  destruct (day_number departure_date) as [dep_date|] eqn:Hd; [|done].
  destruct (day_number return_date) as [ret_date|] eqn:Hr; [|done].
  destruct (Z.leb_spec (ret_date - dep_date + 1) 0); [done|].
  destruct (Z.ltb_spec 14 (ret_date - dep_date + 1)); [done|].
  destruct init_system; [|done]. simpl in H.
  destruct (int_of_string (default "2" (form !! "people"))) as [people|]; [|done].
  destruct (int_of_string (default "2000000" (form !! "budget"))) as [budget|]; [|done].
  injection H as <-.
  exists departure_date, return_date, dep_date, ret_date,
    (default "Tokyo" (form !! "destination")), people, budget.
  split_and!; try done; lia.
Qed.

(** X19 on the form of scenario A: the request is the one of the scenario. *)
Lemma accepted_form_is_checked_witness :
  check_form sample_day_number sample_int true scenario_form
  = Accepted Stylist.scenario_A ∧
  ∃ departure_date return_date dep_date ret_date destination people budget,
    scenario_form !! "departure_date" = Some departure_date ∧
    scenario_form !! "return_date" = Some return_date ∧
    sample_day_number departure_date = Some dep_date ∧
    sample_day_number return_date = Some ret_date ∧
    1 <= ret_date - dep_date + 1 <= 14 ∧
    true = true ∧
    field Stylist.scenario_A "days" = Some (JInt (ret_date - dep_date + 1)) ∧
    field Stylist.scenario_A "departure_date" = Some (JStr departure_date) ∧
    field Stylist.scenario_A "return_date" = Some (JStr return_date) ∧
    field Stylist.scenario_A "destination" = Some (JStr destination) ∧
    field Stylist.scenario_A "people" = Some (JInt people) ∧
    field Stylist.scenario_A "budget" = Some (JInt budget).
Proof.
  assert (check_form sample_day_number sample_int true scenario_form
          = Accepted Stylist.scenario_A) as H by (vm_compute; reflexivity).
  exact (conj H (accepted_form_is_checked _ _ _ _ _ H)).
Defined.

Section Links.
Variable float_repr : Q -> string.

(** X20. After the link step every flight of a successful search carries
  one and the same link, the Google Flights link built from the parameters
  of the search; the flights are otherwise as they were; and the link that
  the repairs later take from the first flight is that link. *)
Theorem linked_flights_share_one_url (flights_data flights_data' ok : json)
  (flights : list json) :
link_flights float_repr flights_data = Ok flights_data' ->
get_ flights_data "success" = Ok ok -> truthy ok = true ->
field flights_data "flights" = Some (JArr flights) -> flights ≠ [] ->
∃ params booking_url flights',
  get flights_data "search_params" (JObj []) = Ok params ∧
  flights_url float_repr params = Ok booking_url ∧
  field flights_data' "flights" = Some (JArr flights') ∧
  Forall2 (λ flight flight', setitem flight "booking_url" booking_url = Ok flight')
    flights flights' ∧
  top_booking_url flights_data' = Ok booking_url.
Proof.
unfold link_flights. intros H Hok Ht Hfl Hne.
rewrite Hok in H. simpl in H. rewrite Ht in H.
inv_bind H as params Hp. inv_bind H as booking_url Hurl.
inv_bind H as fl Hget. inv_bind H as fs Hfs. inv_bind H as fs' Hmap.
destruct flights_data as [| | | | | |kv]; try done. simpl in Hfl, Hget.
rewrite Hfl in Hget. injection Hget as <-. injection Hfs as <-.
destruct flights as [|f0 flights]; [done|].
injection H as <-.
apply mapM_Forall2 in Hmap.
exists params, booking_url, fs'. split_and!; try done.
- simpl. by rewrite dict_lookup_set_eq.
- unfold top_booking_url. rewrite get_setitem_eq. simpl.
  apply Forall2_cons_inv_l in Hmap as (f0' & fs'' & Hf0 & _ & ->). simpl.
  apply setitem_Ok in Hf0 as (kv0 & -> & ->). by rewrite get_setitem_eq.
Qed.
End Links.

(** X20 on a search of two flights. *)
Lemma linked_flights_share_one_url_witness :
  ∃ flights_data' params booking_url flights flights',
    link_flights show_float searched_flights = Ok flights_data' ∧
    field searched_flights "flights" = Some (JArr flights) ∧
    get searched_flights "search_params" (JObj []) = Ok params ∧
    flights_url show_float params = Ok booking_url ∧
    field flights_data' "flights" = Some (JArr flights') ∧
    Forall2 (λ flight flight', setitem flight "booking_url" booking_url = Ok flight')
      flights flights' ∧
    top_booking_url flights_data' = Ok booking_url.
Proof.
  assert (∃ r, link_flights show_float searched_flights = Ok r) as [r Hr]
    by (eexists; vm_compute; reflexivity).
  assert (∃ fl, field searched_flights "flights" = Some (JArr fl) ∧ fl ≠ [])
    as (fl & Hfl & Hne) by (eexists; split; [reflexivity|done]).
  destruct (linked_flights_share_one_url show_float searched_flights r (JBool true) fl
              Hr eq_refl eq_refl Hfl Hne) as (params & url & fl' & H).
  exists r, params, url, fl, fl'.
  destruct H as (H1 & H2 & H3). exact (conj Hr (conj Hfl (conj H1 (conj H2 H3)))).
Defined.

End HandlerFacts.

(** ** The daily forecast *)

Module ForecastFacts.
Import Py PyFacts NumFacts Reconcile Forecast Notions NotionsX Examples ExamplesX
  ReconcileFacts.

(** *** Days and dates *)

Lemma no_repeat_snoc (l : list json) (x : json) :
  no_repeat l -> last l ≠ Some x -> no_repeat (l ++ [x]).
Proof.
  intros Hl Hx i a b Ha Hb.
  destruct (decide (S i < length l)%nat) as [Hlt|Hge].
  - rewrite lookup_app_l in Ha by lia. rewrite lookup_app_l in Hb by lia.
    by eapply Hl.
  - assert (S i = length l) as Hi.
    { apply lookup_lt_Some in Hb. rewrite length_app in Hb. simpl in Hb. lia. }
    rewrite lookup_app_l in Ha by lia.
    rewrite lookup_app_r in Hb by lia.
    rewrite Hi, Nat.sub_diag in Hb. injection Hb as <-.
    intros ->. apply Hx. rewrite last_lookup.
    replace (pred (length l)) with i by lia. done.
Qed.

Lemma day_summary_date (current_date : json) (first : reading) (rest : list reading)
    (day : json) :
  day_summary current_date first rest = Ok day -> date_of day = current_date.
Proof.
  unfold day_summary. intros H. inv_bind H as temps Ht.
  destruct temps as [|t0 ts]; [done|].
  inv_bind H as lo Hlo. inv_bind H as hi Hhi. by injection H as <-.
Qed.

Lemma flush_dates (current_date : json) (day_data : list reading) (daily daily' : list json) :
  flush current_date day_data daily = Ok daily' ->
  date_of <$> daily' = open_dates (daily, current_date, day_data).
Proof.
  unfold flush, open_dates. simpl. destruct day_data as [|first rest].
  - intros [= <-]. by rewrite app_nil_r.
  - intros H. inv_bind H as day Hday. injection H as <-.
    rewrite fmap_app. simpl. by rewrite (day_summary_date _ _ _ _ Hday).
Qed.

Section Groups.
Variable date_of_timestamp : json -> result string.

Lemma group_item_grouped (seen : list string) (st st' : loop_state) (item : json) :
group_item date_of_timestamp st item = Ok st' ->
grouped seen st ->
∃ date,
  getitem item "dt" ≫= date_of_timestamp = Ok date ∧
  grouped (seen ++ [date]) st'.
Proof.
destruct st as [[daily current_date] day_data]. unfold group_item. intros H Hg.
inv_bind H as dt Hdt. inv_bind H as date Hdate. inv_bind H as st1 Hst1.
destruct st1 as [[daily1 current1] data1].
repeat (let x := fresh "x" in let Hx := fresh "Hx" in inv_bind H as x Hx).
injection H as <-. exists date. rewrite Hdt. simpl. split; [done|].
destruct Hg as (Hnr & Hiff & Hstr & Hempty). simpl in Hempty.
assert (open_dates (daily1, current1, data1 ++ [ {| temp := x0; description := x3;
                                                    main := x6 |} ])
        = (date_of <$> daily1) ++ [current1]) as Hopen.
{ unfold open_dates. simpl. by destruct data1. }
destruct (py_eq current_date (JStr date)) eqn:Heq; simpl in Hst1.
- (* the same day goes on *)
  injection Hst1 as <- <- <-. apply py_eq_str in Heq as ->.
  destruct day_data as [|r0 day_data]; [by destruct Hempty|].
  unfold grouped. rewrite Hopen. unfold open_dates in *. simpl in *.
  split_and!; [done| |done|by destruct day_data].
  intros d. rewrite Hiff, elem_of_app, list_elem_of_singleton. split.
  + intros Hd. by left.
  + intros [Hd | ->]; [done|]. apply Hiff.
    apply elem_of_app. right. by apply list_elem_of_singleton.
- (* a new day starts *)
  inv_bind Hst1 as daily2 Hfl. injection Hst1 as <- <- <-.
  apply flush_dates in Hfl. unfold grouped. rewrite Hopen, Hfl.
  split_and!.
  + apply no_repeat_snoc; [done|]. intros Hlast.
    unfold open_dates in Hlast. simpl in Hlast.
    destruct day_data as [|r0 day_data].
    * destruct Hempty as [-> _]; [done|]. done.
    * rewrite last_snoc in Hlast. injection Hlast as ->.
      simpl in Heq. by rewrite String.eqb_refl in Heq.
  + intros d. rewrite !elem_of_app, !list_elem_of_singleton, Hiff. split.
    * intros [Hd|[= ->]]; [by left|by right].
    * intros [Hd | ->]; [by left|by right].
  + apply Forall_app. split; [done|]. constructor; [by eexists|constructor].
  + simpl. intros Habs. discriminate Habs.
Qed.

Lemma group_items_grouped (seen : list string) (st st' : loop_state) (items : list json) :
group_items date_of_timestamp st items = Ok st' ->
grouped seen st ->
∃ dates,
  mapM (λ item, getitem item "dt" ≫= date_of_timestamp) items = Ok dates ∧
  grouped (seen ++ dates) st'.
Proof.
revert seen st. induction items as [|item items IH]; intros seen st H Hg; simpl in H.
- injection H as <-. exists []. by rewrite app_nil_r.
- inv_bind H as st1 Hst1.
  destruct (group_item_grouped _ _ _ _ Hst1 Hg) as (date & Hdate & Hg1).
  destruct (IH _ _ H Hg1) as (dates & Hdates & Hg').
  exists (date :: dates). simpl. rewrite Hdate. simpl. rewrite Hdates. simpl.
  split; [done|]. by rewrite <- (assoc_L (++)) in Hg'.
Qed.

End Groups.

(** *** Rounding *)

Lemma round_half_even_bounds (q : Q) :
  Qfloor q <= round_half_even q <= Qfloor q + 1.
Proof. unfold round_half_even. repeat case_match; lia. Qed.

(** [round] keeps the order of numbers. *)
Lemma round_half_even_mono (a b : Q) :
  (a <= b)%Q -> round_half_even a <= round_half_even b.
Proof.
  intros Hab. pose proof (Qfloor_resp_le _ _ Hab) as Hf.
  pose proof (round_half_even_bounds a) as Ha.
  pose proof (round_half_even_bounds b) as Hb.
  destruct (Z.eq_dec (Qfloor a) (Qfloor b)) as [E|E]; [|lia].
  unfold round_half_even in *. rewrite <- E in *. clear E Hf.
  destruct (Qgtb (b - inject_Z (Qfloor a)) (1 # 2)) eqn:B1; [lia|].
  apply Qgtb_le in B1.
  destruct (Qgtb (a - inject_Z (Qfloor a)) (1 # 2)) eqn:A1.
  { apply Qgtb_lt in A1. lra. }
  destruct (Qgtb (1 # 2) (b - inject_Z (Qfloor a))) eqn:B2.
  - apply Qgtb_lt in B2.
    destruct (Qgtb (1 # 2) (a - inject_Z (Qfloor a))) eqn:A2; [lia|].
    apply Qgtb_le in A2. lra.
  - destruct (Qgtb (1 # 2) (a - inject_Z (Qfloor a))) eqn:A2; [|lia].
    destruct (Z.even (Qfloor a)); lia.
Qed.

Lemma round_half_even_int (q : Q) (z : Z) :
  (q == inject_Z z)%Q -> round_half_even q = z.
Proof.
  intros Hq. unfold round_half_even.
  assert (Qfloor q = z) as -> by (rewrite Hq; apply Qfloor_Z).
  assert (Qgtb (q - inject_Z z) (1 # 2) = false) as ->
    by (apply Qgtb_le; lra).
  assert (Qgtb (1 # 2) (q - inject_Z z) = true) as ->
    by (apply Qgtb_lt; lra).
  done.
Qed.

Lemma round1_mono (a b : Q) : (a <= b)%Q -> (round1 a <= round1 b)%Q.
Proof.
  intros Hab. unfold round1.
  assert (round_half_even (a * 10) <= round_half_even (b * 10)) as H
    by (apply round_half_even_mono; lra).
  rewrite Zle_Qle in H. unfold Qdiv. by apply Qmult_le_compat_r.
Qed.

Lemma round1_int (z : Z) : (round1 (inject_Z z) == inject_Z z)%Q.
Proof.
  unfold round1. rewrite (round_half_even_int _ (z * 10)).
  - rewrite inject_Z_mult. field.
  - by rewrite inject_Z_mult.
Qed.

Lemma round1_comp (a b : Q) : (a == b)%Q -> (round1 a == round1 b)%Q.
Proof.
  intros H. apply Qle_antisym; apply round1_mono; lra.
Qed.

(** The number that [round(x, 1)] gives. *)
Lemma round_to_tenth_number (x y : json) (q : Q) :
  round_to_tenth x = Ok y -> number x = Ok q ->
  ∃ q', number y = Ok q' ∧ (q' == round1 q)%Q.
Proof.
  destruct x as [|b|z|p| | |]; try done; intros [= <-] [= <-]; eexists;
    (split; [reflexivity|]).
  - destruct b; symmetry; [apply (round1_int 1)|apply (round1_int 0)].
  - symmetry. apply round1_int.
  - reflexivity.
Qed.

(** *** The temperatures of a day *)

Lemma pick_least (t0 : json * Q) (ts : list (json * Q)) :
  ∃ q, (pick Qltb t0 ts, q) ∈ t0 :: ts ∧
       Forall (λ t, (q <= t.2)%Q) (t0 :: ts).
Proof.
  revert t0. induction ts as [|t ts IH]; intros t0; simpl.
  - exists t0.2. split; [destruct t0; apply elem_of_cons; by left|].
    constructor; [apply Qle_refl|constructor].
  - destruct (Qltb t.2 t0.2) eqn:E; unfold Qltb in E.
    + apply Qgtb_lt in E. destruct (IH t) as (q & Hin & Hall).
      exists q. split; [by apply elem_of_cons; right|].
      apply Forall_cons in Hall as [Ht Hts].
      constructor; [lra|]. by constructor.
    + apply Qgtb_le in E. destruct (IH t0) as (q & Hin & Hall).
      exists q. split.
      * apply elem_of_cons in Hin as [Hin|Hin]; rewrite !elem_of_cons;
          [by left|by right; right].
      * apply Forall_cons in Hall as [Ht Hts].
        constructor; [done|]. constructor; [lra|done].
Qed.

Lemma pick_greatest (t0 : json * Q) (ts : list (json * Q)) :
  ∃ q, (pick Qgtb t0 ts, q) ∈ t0 :: ts ∧
       Forall (λ t, (t.2 <= q)%Q) (t0 :: ts).
Proof.
  revert t0. induction ts as [|t ts IH]; intros t0; simpl.
  - exists t0.2. split; [destruct t0; apply elem_of_cons; by left|].
    constructor; [apply Qle_refl|constructor].
  - destruct (Qgtb t.2 t0.2) eqn:E.
    + apply Qgtb_lt in E. destruct (IH t) as (q & Hin & Hall).
      exists q. split; [by apply elem_of_cons; right|].
      apply Forall_cons in Hall as [Ht Hts].
      constructor; [lra|]. by constructor.
    + apply Qgtb_le in E. destruct (IH t0) as (q & Hin & Hall).
      exists q. split.
      * apply elem_of_cons in Hin as [Hin|Hin]; rewrite !elem_of_cons;
          [by left|by right; right].
      * apply Forall_cons in Hall as [Ht Hts].
        constructor; [done|]. constructor; [lra|done].
Qed.

Lemma sum_above (lo : Q) (qs : list Q) (acc : Q) :
  Forall (λ q, (lo <= q)%Q) qs ->
  (acc + lo * inject_Z (Z.of_nat (length qs)) <= fold_left Qplus qs acc)%Q.
Proof.
  intros H. revert acc. induction H as [|q qs Hq Hqs IH]; intros acc; simpl length.
  - change (inject_Z (Z.of_nat 0)) with 0%Q. simpl. lra.
  - rewrite Nat2Z.inj_succ, <- Z.add_1_r, inject_Z_plus. simpl fold_left.
    specialize (IH (acc + q)%Q).
    assert (lo * (inject_Z (Z.of_nat (length qs)) + inject_Z 1)
            == lo * inject_Z (Z.of_nat (length qs)) + lo)%Q as -> by ring.
    set (m := (lo * inject_Z (Z.of_nat (length qs)))%Q) in *. lra.
Qed.

Lemma sum_below (hi : Q) (qs : list Q) (acc : Q) :
  Forall (λ q, (q <= hi)%Q) qs ->
  (fold_left Qplus qs acc <= acc + hi * inject_Z (Z.of_nat (length qs)))%Q.
Proof.
  intros H. revert acc. induction H as [|q qs Hq Hqs IH]; intros acc; simpl length.
  - change (inject_Z (Z.of_nat 0)) with 0%Q. simpl. lra.
  - rewrite Nat2Z.inj_succ, <- Z.add_1_r, inject_Z_plus. simpl fold_left.
    specialize (IH (acc + q)%Q).
    assert (hi * (inject_Z (Z.of_nat (length qs)) + inject_Z 1)
            == hi * inject_Z (Z.of_nat (length qs)) + hi)%Q as -> by ring.
    set (m := (hi * inject_Z (Z.of_nat (length qs)))%Q) in *. lra.
Qed.

Lemma temps_numbers (day_data : list reading) (temps : list (json * Q)) :
  mapM (λ d, q ← number (temp d); Ok (temp d, q)) day_data = Ok temps ->
  Forall (λ t, number t.1 = Ok t.2) temps.
Proof.
  intros H. apply mapM_Forall2 in H. induction H as [|d t ds ts Hd Hds IH]; [constructor|].
  constructor; [|done]. inv_bind Hd as q Hq. by injection Hd as <-.
Qed.

Lemma day_summary_ordered (current_date : json) (first : reading)
    (rest : list reading) (day : json) :
  day_summary current_date first rest = Ok day -> ordered_day day.
Proof.
  unfold day_summary. intros H. inv_bind H as temps Ht.
  pose proof (temps_numbers _ _ Ht) as Hnum.
  destruct temps as [|t0 ts]; [done|].
  inv_bind H as lo Hlo. inv_bind H as hi Hhi. injection H as <-.
  destruct (pick_least t0 ts) as (qlo & Hinlo & Hleast).
  destruct (pick_greatest t0 ts) as (qhi & Hinhi & Hgreatest).
  rewrite Forall_forall in Hnum.
  pose proof (Hnum _ Hinlo) as Hnlo. pose proof (Hnum _ Hinhi) as Hnhi. simpl in Hnlo, Hnhi.
  destruct (round_to_tenth_number _ _ _ Hlo Hnlo) as (lo' & Hlo' & Elo).
  destruct (round_to_tenth_number _ _ _ Hhi Hnhi) as (hi' & Hhi' & Ehi).
  exists lo', (round1 (fold_left Qplus (snd <$> t0 :: ts) 0%Q
                       / inject_Z (Z.of_nat (length (t0 :: ts))))), hi'.
  unfold number_at. simpl. rewrite Hlo', Hhi'. split_and!; try done.
  - rewrite Elo. apply round1_mono. apply Qle_shift_div_l.
    + change 0%Q with (inject_Z 0). rewrite <- Zlt_Qlt. simpl. lia.
    + assert (Forall (λ q, (qlo <= q)%Q) (snd <$> t0 :: ts)) as Hall
        by (apply Forall_fmap; eapply Forall_impl; [exact Hleast|done]).
      pose proof (sum_above qlo (snd <$> t0 :: ts) 0%Q Hall) as Hs.
      rewrite length_fmap in Hs.
      change (qlo * inject_Z (Z.of_nat (length (t0 :: ts)))
              <= fold_left Qplus (snd <$> t0 :: ts) 0)%Q.
      revert Hs.
      generalize (fold_left Qplus (snd <$> t0 :: ts) 0%Q),
        (qlo * inject_Z (Z.of_nat (length (t0 :: ts))))%Q.
      intros total m Hs. lra.
  - rewrite Ehi. apply round1_mono. apply Qle_shift_div_r.
    + change 0%Q with (inject_Z 0). rewrite <- Zlt_Qlt. simpl. lia.
    + assert (Forall (λ q, (q <= qhi)%Q) (snd <$> t0 :: ts)) as Hall
        by (apply Forall_fmap; eapply Forall_impl; [exact Hgreatest|done]).
      pose proof (sum_below qhi (snd <$> t0 :: ts) 0%Q Hall) as Hs.
      rewrite length_fmap in Hs.
      change (fold_left Qplus (snd <$> t0 :: ts) 0
              <= qhi * inject_Z (Z.of_nat (length (t0 :: ts))))%Q.
      revert Hs.
      generalize (fold_left Qplus (snd <$> t0 :: ts) 0%Q),
        (qhi * inject_Z (Z.of_nat (length (t0 :: ts))))%Q.
      intros total m Hs. lra.
Qed.

Lemma flush_ordered (current_date : json) (day_data : list reading)
    (daily daily' : list json) :
  flush current_date day_data daily = Ok daily' ->
  Forall ordered_day daily -> Forall ordered_day daily'.
Proof.
  unfold flush. destruct day_data as [|first rest]; [by intros [= <-]|].
  intros H Hd. inv_bind H as day Hday. injection H as <-.
  apply Forall_app. split; [done|].
  constructor; [by eapply day_summary_ordered|constructor].
Qed.

Section Days.
Variable date_of_timestamp : json -> result string.

Lemma group_items_ordered (st st' : loop_state) (items : list json) :
group_items date_of_timestamp st items = Ok st' ->
Forall ordered_day st.1.1 -> Forall ordered_day st'.1.1.
Proof.
revert st. induction items as [|item items IH]; intros st H Hd; simpl in H.
- by injection H as <-.
- inv_bind H as st1 Hst1. apply (IH _ H).
  destruct st as [[daily current_date] day_data]. unfold group_item in Hst1.
  inv_bind Hst1 as dt Hdt. inv_bind Hst1 as date Hdate. inv_bind Hst1 as st2 Hst2.
  destruct st2 as [[daily2 current2] data2].
  repeat (let x := fresh "x" in let Hx := fresh "Hx" in inv_bind Hst1 as x Hx).
  injection Hst1 as <-. simpl.
  destruct (negb (py_eq current_date (JStr date))).
  + inv_bind Hst2 as daily3 Hfl. injection Hst2 as <- <- <-.
    by eapply flush_ordered.
  + by injection Hst2 as <- <- <-.
Qed.

End Days.



End ForecastFacts.
